(** * axa_challenge: bike-crash rasterization, density ratio and ride pricing

    A shallow embedding of the data pipeline of the repository
    (datasets/bike_crash_dataset.py, datasets/citibike_dataset.py,
    modeling/density_estimator.py, modeling/price_calculator.py) and the
    properties its specification states about it.

    Modelling conventions.
    - A float64 is a [float]: an exact rational or one of the IEEE special
      values (+inf, -inf, NaN).  Rounding, overflow and the sign of zero are
      outside the model; the special values are kept because the code's
      behaviour at a zero divisor depends on them.
    - A Python [int] is a [Z]; [//] on ints is [Z.div] (both floor), and
      raises ZeroDivisionError at a zero divisor.
    - A call either returns a value or raises: [outcome A].
    - A pandas DataFrame is a list of column labels and a list of rows, each
      with its index label; a row maps column labels to cells. *)

From Stdlib Require Import ZArith QArith Qround Qfield List String Ascii Bool Lia.
Import ListNotations.
Open Scope Z_scope.

(* ================================================================== *)
(** ** Python: exceptions and the result of a call *)

Module Py.

Inductive exn :=
| FileNotFoundError
| ValueError
| KeyError
| TypeError
| IndexError
| ZeroDivisionError
| AttributeError
| UnboundLocalError.

Inductive outcome (A : Type) :=
| Returns (a : A)
| Raises (e : exn).
Arguments Returns {A} a.
Arguments Raises {A} e.

Definition bind {A B} (c : outcome A) (k : A -> outcome B) : outcome B :=
  match c with
  | Returns a => k a
  | Raises e => Raises e
  end.

Fixpoint mapM {A B} (f : A -> outcome B) (l : list A) : outcome (list B) :=
  match l with
  | [] => Returns []
  | a :: l' =>
      bind (f a) (fun b => bind (mapM f l') (fun bs => Returns (b :: bs)))
  end.

(** [int // int]. *)
Definition floordiv (a b : Z) : outcome Z :=
  if Z.eqb b 0 then Raises ZeroDivisionError else Returns (a / b).

(** *** [str.split(':')] and [int(str)] on ASCII text *)

Definition is_space (c : ascii) : bool :=
  let n := nat_of_ascii c in
  ((9 <=? n) && (n <=? 13) || (28 <=? n) && (n <=? 32))%nat.

Definition is_digit (c : ascii) : bool :=
  let n := nat_of_ascii c in ((48 <=? n) && (n <=? 57))%nat.

Definition digit_val (c : ascii) : Z := Z.of_nat (nat_of_ascii c) - 48.

Fixpoint lstrip (l : list ascii) : list ascii :=
  match l with
  | c :: l' => if is_space c then lstrip l' else l
  | [] => []
  end.

Definition strip (l : list ascii) : list ascii :=
  rev (lstrip (rev (lstrip l))).

(** Decimal digits, with single underscores allowed between two digits. *)
Fixpoint digits_value (acc : Z) (after_digit : bool) (l : list ascii)
  : option Z :=
  match l with
  | [] => if after_digit then Some acc else None
  | c :: l' =>
      if is_digit c then digits_value (10 * acc + digit_val c) true l'
      else if Ascii.eqb c "_"%char
           then (if after_digit then digits_value acc false l' else None)
           else None
  end.

Definition int_of_chars (l : list ascii) : option Z :=
  match strip l with
  | "+"%char :: ds => digits_value 0 false ds
  | "-"%char :: ds => option_map Z.opp (digits_value 0 false ds)
  | ds => digits_value 0 false ds
  end.

(** [int(s)]: ValueError when [s] is not a decimal integer literal. *)
Definition int (s : string) : outcome Z :=
  match int_of_chars (list_ascii_of_string s) with
  | Some z => Returns z
  | None => Raises ValueError
  end.

(** [s.split(sep)] for a one-character separator: [cur] collects, in
    reverse, the characters of the piece being read. *)
Fixpoint split_chars (sep : ascii) (cur : list ascii) (l : list ascii)
  : list string :=
  match l with
  | [] => [string_of_list_ascii (rev cur)]
  | c :: l' =>
      if Ascii.eqb c sep
      then string_of_list_ascii (rev cur) :: split_chars sep [] l'
      else split_chars sep (c :: cur) l'
  end.

Definition split (sep : ascii) (s : string) : list string :=
  split_chars sep [] (list_ascii_of_string s).

(** [str.lower()] on ASCII text. *)
Definition lower_char (c : ascii) : ascii :=
  let n := nat_of_ascii c in
  if ((65 <=? n) && (n <=? 90))%nat then ascii_of_nat (n + 32) else c.

Fixpoint lower (s : string) : string :=
  match s with
  | EmptyString => EmptyString
  | String c s' => String (lower_char c) (lower s')
  end.

(** [sub in s]. *)
Fixpoint contains (sub s : string) : bool :=
  if prefix sub s then true
  else match s with
       | EmptyString => false
       | String _ s' => contains sub s'
       end.

(** [s.endswith(suffix)]. *)
Definition endswith (s suffix : string) : bool :=
  let n := String.length s in
  let k := String.length suffix in
  (k <=? n)%nat && String.eqb (substring (n - k) k s) suffix.

End Py.

Notation "x <- c ;; k" := (Py.bind c (fun x => k))
  (at level 61, c at next level, right associativity).

(* ================================================================== *)
(** ** float64 with exact finite values *)

Module Float.

Inductive float :=
| Finite (q : Q)
| PosInf
| NegInf
| NaN.

Definition of_Z (z : Z) : float := Finite (inject_Z z).

Definition isnan (a : float) : bool :=
  match a with NaN => true | _ => false end.

Definition isfinite (a : float) : bool :=
  match a with Finite _ => true | _ => false end.

Definition neg (a : float) : float :=
  match a with
  | Finite q => Finite (- q)
  | PosInf => NegInf
  | NegInf => PosInf
  | NaN => NaN
  end.

Definition add (a b : float) : float :=
  match a, b with
  | NaN, _ | _, NaN => NaN
  | Finite x, Finite y => Finite (x + y)
  | PosInf, NegInf | NegInf, PosInf => NaN
  | PosInf, _ | _, PosInf => PosInf
  | NegInf, _ | _, NegInf => NegInf
  end.

Definition sub (a b : float) : float := add a (neg b).

(** Sign of a rational: -1, 0 or 1. *)
Definition Qsgn (q : Q) : Z := Z.sgn (Qnum q).

Definition signed_inf (s : Z) : float :=
  match s with
  | Z0 => NaN
  | Zpos _ => PosInf
  | Zneg _ => NegInf
  end.

Definition sgn (a : float) : option Z :=
  match a with
  | Finite q => Some (Qsgn q)
  | PosInf => Some 1
  | NegInf => Some (-1)
  | NaN => None
  end.

Definition mul (a b : float) : float :=
  match a, b with
  | Finite x, Finite y => Finite (x * y)
  | _, _ =>
      match sgn a, sgn b with
      | Some s, Some t => signed_inf (s * t)
      | _, _ => NaN
      end
  end.

(** True division; a finite value over zero is an infinity of its sign
    and 0/0 is NaN (numpy warns and goes on). *)
Definition div (a b : float) : float :=
  match a, b with
  | NaN, _ | _, NaN => NaN
  | Finite x, Finite y =>
      if Qeq_bool y 0 then signed_inf (Qsgn x) else Finite (x / y)
  | Finite _, _ => Finite 0
  | _, Finite y =>
      match sgn a with
      | Some s => signed_inf (s * (if Qeq_bool y 0 then 1 else Qsgn y))
      | None => NaN
      end
  | _, _ => NaN
  end.

(** numpy's [floor_divide] on floats. *)
Definition floordiv (a b : float) : float :=
  match a, b with
  | Finite x, Finite y =>
      if Qeq_bool y 0 then signed_inf (Qsgn x)
      else Finite (inject_Z (Qfloor (x / y)))
  | Finite x, PosInf => Finite (if Z.eqb (Qsgn x) (-1) then -1 else 0)
  | Finite x, NegInf => Finite (if Z.eqb (Qsgn x) 1 then -1 else 0)
  | _, _ => NaN
  end.

(** IEEE comparison: unordered ([None]) when a NaN is involved. *)
Definition compare (a b : float) : option comparison :=
  match a, b with
  | NaN, _ | _, NaN => None
  | Finite x, Finite y => Some (x ?= y)%Q
  | PosInf, PosInf | NegInf, NegInf => Some Eq
  | NegInf, _ | _, PosInf => Some Lt
  | _, _ => Some Gt
  end.

Definition ltb (a b : float) : bool :=
  match compare a b with Some Lt => true | _ => false end.

Definition leb (a b : float) : bool :=
  match compare a b with Some Lt | Some Eq => true | _ => false end.

Definition eqb (a b : float) : bool :=
  match compare a b with Some Eq => true | _ => false end.

Definition gtb (a b : float) : bool := ltb b a.
Definition geb (a b : float) : bool := leb b a.
Definition neb (a b : float) : bool := negb (eqb a b).

(** [astype(int)]: truncation; pandas refuses NaN and the infinities
    (IntCastingNaNError, a ValueError). *)
Definition astype_int (a : float) : Py.outcome Z :=
  match a with
  | Finite q => Py.Returns (Z.quot (Qnum q) (Zpos (Qden q)))
  | _ => Py.Raises Py.ValueError
  end.

(** Reductions of a float column; pandas skips NaN, and the result over
    nothing is NaN. *)
Definition min2 (a b : float) : float :=
  if isnan a then b else if isnan b then a else if ltb b a then b else a.

Definition max2 (a b : float) : float :=
  if isnan a then b else if isnan b then a else if ltb a b then b else a.

Definition min (l : list float) : float := fold_left min2 l NaN.
Definition max (l : list float) : float := fold_left max2 l NaN.

Definition sum (l : list float) : float :=
  fold_left add (filter (fun a => negb (isnan a)) l) (Finite 0).

Definition mean (l : list float) : float :=
  let l' := filter (fun a => negb (isnan a)) l in
  div (fold_left add l' (Finite 0)) (of_Z (Z.of_nat (List.length l'))).

End Float.

(* ================================================================== *)
(** ** pandas: cells, rows and frames *)

Module Pandas.

Import Py.

(** A naive [datetime]/[Timestamp]: the day as a proleptic ordinal and
    the wall-clock time. *)
Record datetime := Datetime {
  ordinal : Z;
  hour : Z;
  minute : Z;
  second : Z
}.

(** A cell of a frame: float64 (NaN is the missing value), int64, text
    (object), or a timestamp ([None] is NaT). *)
Inductive cell :=
| F (x : Float.float)
| I (z : Z)
| S (s : string)
| T (t : option datetime).

Definition NA : cell := F Float.NaN.

Definition isna (c : cell) : bool :=
  match c with
  | F Float.NaN => true
  | T None => true
  | _ => false
  end.

(** A row maps column labels to cells. *)
Definition row := list (string * cell).

Fixpoint get (c : string) (r : row) : cell :=
  match r with
  | [] => NA
  | (c', v) :: r' => if String.eqb c c' then v else get c r'
  end.

Fixpoint set (c : string) (v : cell) (r : row) : row :=
  match r with
  | [] => [(c, v)]
  | (c', v') :: r' =>
      if String.eqb c c' then (c, v) :: r' else (c', v') :: set c v r'
  end.

Record DataFrame := Frame {
  columns : list string;
  rows : list (Z * row)          (* index label, row *)
}.

Definition len (df : DataFrame) : Z := Z.of_nat (List.length (rows df)).

Definition index (df : DataFrame) : list Z := map fst (rows df).

Definition has_column (df : DataFrame) (c : string) : bool :=
  existsb (String.eqb c) (columns df).

(** [df[c]]: the column, KeyError when there is none. *)
Definition getitem (df : DataFrame) (c : string) : outcome (list cell) :=
  if has_column df c
  then Returns (map (fun ir => get c (snd ir)) (rows df))
  else Raises KeyError.

(** A numeric column as floats; text is a TypeError in arithmetic. *)
Definition as_float (c : cell) : outcome Float.float :=
  match c with
  | F x => Returns x
  | I z => Returns (Float.of_Z z)
  | _ => Raises TypeError
  end.

Definition floats (df : DataFrame) (c : string) : outcome (list Float.float) :=
  col <- getitem df c ;;
  mapM as_float col.

(** [df[mask]]: the rows at which the boolean mask holds. *)
Fixpoint select_mask {A} (mask : list bool) (l : list A) : list A :=
  match mask, l with
  | b :: mask', a :: l' =>
      if b then a :: select_mask mask' l' else select_mask mask' l'
  | _, _ => []
  end.

Definition loc_mask (df : DataFrame) (mask : list bool) : DataFrame :=
  Frame (columns df) (select_mask mask (rows df)).

(** [df[c] = values]. *)
Fixpoint set_rows (c : string) (vals : list cell) (l : list (Z * row))
  : list (Z * row) :=
  match vals, l with
  | v :: vals', (i, r) :: l' => (i, set c v r) :: set_rows c vals' l'
  | _, _ => []
  end.

Definition setitem (df : DataFrame) (c : string) (vals : list cell)
  : DataFrame :=
  Frame (if has_column df c then columns df else columns df ++ [c])
        (set_rows c vals (rows df)).

(** [df[[c1, ..., cn]]]. *)
Definition select (df : DataFrame) (cs : list string) : outcome DataFrame :=
  if forallb (has_column df) cs
  then Returns (Frame cs
         (map (fun ir => (fst ir, map (fun c => (c, get c (snd ir))) cs))
              (rows df)))
  else Raises KeyError.

(** [df.dropna(subset=cs)]. *)
Definition dropna_subset (df : DataFrame) (cs : list string)
  : outcome DataFrame :=
  if forallb (has_column df) cs
  then Returns (Frame (columns df)
         (filter (fun ir => negb (existsb (fun c => isna (get c (snd ir))) cs))
                 (rows df)))
  else Raises KeyError.

(** [df.dropna()]: rows with a missing value in any column go. *)
Definition has_na (df : DataFrame) (r : row) : bool :=
  existsb (fun c => isna (get c r)) (columns df).

Definition dropna (df : DataFrame) : DataFrame :=
  Frame (columns df) (filter (fun ir => negb (has_na df (snd ir))) (rows df)).

(** [df.reset_index(drop=True)]: labels 0, 1, 2, ... *)
Fixpoint relabel (i : Z) (l : list (Z * row)) : list (Z * row) :=
  match l with
  | [] => []
  | (_, r) :: l' => (i, r) :: relabel (i + 1) l'
  end.

Definition reset_index (df : DataFrame) : DataFrame :=
  Frame (columns df) (relabel 0 (rows df)).

(** Python's [==] on two cells: numbers by value, NaN equal to nothing. *)
Definition number (c : cell) : option Float.float :=
  match c with
  | F x => Some x
  | I z => Some (Float.of_Z z)
  | _ => None
  end.

Definition datetime_eqb (a b : datetime) : bool :=
  Z.eqb (ordinal a) (ordinal b) && Z.eqb (hour a) (hour b) &&
  Z.eqb (minute a) (minute b) && Z.eqb (second a) (second b).

Definition eq_cell (a b : cell) : bool :=
  match number a, number b with
  | Some x, Some y => Float.eqb x y
  | _, _ =>
      match a, b with
      | S s, S t => String.eqb s t
      | T (Some s), T (Some t) => datetime_eqb s t
      | _, _ => false
      end
  end.

(** Equality of keys in [drop_duplicates], [value_counts] and [merge]:
    [==], and missing values count as one value. *)
Definition same_value (a b : cell) : bool :=
  eq_cell a b || isna a && isna b.

(** [df.drop_duplicates(subset=c)]: the first row of each value stays. *)
Fixpoint drop_dup_rows (c : string) (seen : list cell) (l : list (Z * row))
  : list (Z * row) :=
  match l with
  | [] => []
  | (i, r) :: l' =>
      if existsb (same_value (get c r)) seen
      then drop_dup_rows c seen l'
      else (i, r) :: drop_dup_rows c (get c r :: seen) l'
  end.

Definition drop_duplicates (df : DataFrame) (c : string) : DataFrame :=
  Frame (columns df) (drop_dup_rows c [] (rows df)).

(** [df.rename(columns=names)]. *)
Fixpoint renamed (names : list (string * string)) (c : string) : string :=
  match names with
  | [] => c
  | (old, new) :: names' =>
      if String.eqb c old then new else renamed names' c
  end.

Definition rename (df : DataFrame) (names : list (string * string))
  : DataFrame :=
  Frame (map (renamed names) (columns df))
        (map (fun ir => (fst ir,
                         map (fun cv => (renamed names (fst cv), snd cv))
                             (snd ir)))
             (rows df)).

(** [pd.concat(frames, ignore_index=True)]: the rows one after the other
    under the union of the columns; a row has NaN where it has no cell. *)
Fixpoint union_columns (acc : list string) (cs : list string) : list string :=
  match cs with
  | [] => acc
  | c :: cs' =>
      if existsb (String.eqb c) acc then union_columns acc cs'
      else union_columns (acc ++ [c]) cs'
  end.

Definition concat (frames : list DataFrame) : DataFrame :=
  Frame (fold_left (fun acc df => union_columns acc (columns df)) frames [])
        (relabel 0 (flat_map rows frames)).

(** [s.value_counts()]: each value that occurs, with how often. *)
Definition occurrences (v : cell) (col : list cell) : Z :=
  Z.of_nat (List.length (filter (same_value v) col)).

Fixpoint distinct (seen : list cell) (col : list cell) : list cell :=
  match col with
  | [] => []
  | v :: col' =>
      if existsb (same_value v) seen then distinct seen col'
      else v :: distinct (v :: seen) col'
  end.

Definition value_counts (col : list cell) : list (cell * Z) :=
  map (fun v => (v, occurrences v col))
      (distinct [] (filter (fun v => negb (isna v)) col)).

(** [df.merge(counts.rename(name), left_on=c, right_index=True,
    how='left')]: the count of the row's key, NaN without one.  The keys
    on both sides are taken to be of one kind: pandas refuses to merge a
    column of text keys with a float64 index, and a frame carries no
    dtypes here to tell. *)
Definition merge_left (df : DataFrame) (c : string)
  (counts : list (cell * Z)) (name : string) : DataFrame :=
  setitem df name
    (map (fun ir =>
            match find (fun vn => same_value (fst vn) (get c (snd ir)))
                       counts with
            | Some (_, n) => F (Float.of_Z n)
            | None => NA
            end)
         (rows df)).

(** [idx.isin(values)]. *)
Definition isin (idx values : list Z) : list bool :=
  map (fun i => existsb (Z.eqb i) values) idx.

End Pandas.

(* ================================================================== *)
(** ** The libraries the code calls and the model takes as given *)

Class Libraries := {
  (** [str(v)] of a cell that is not text, as [astype(str)] applies it *)
  str : Pandas.cell -> string;
  (** [pd.to_datetime(v, errors='coerce')] on one cell; [None] is NaT *)
  to_datetime : Pandas.cell -> option Pandas.datetime;
  (** pyproj, EPSG:4326 to EPSG:3857 with always_xy: (lng, lat) to (x, y) *)
  transform : Float.float -> Float.float -> Float.float * Float.float;
  (** [Series.std()], the sample standard deviation *)
  std : list Float.float -> Float.float;
  (** [model.predict([[x, y, t]])[0]] of the pickled regressor *)
  predict : Float.float -> Float.float -> Float.float -> Float.float
}.


(* ================================================================== *)
(** ** datasets/citibike_dataset.py *)

Module CitibikeDataset.

Import Py Pandas.
Open Scope string_scope.
Open Scope list_scope.
Open Scope Z_scope.

(** *** What the constructor finds at [path]

    A file is described by what the libraries give on it: the table
    [pd.read_csv] parses, and the members [ZipFile.extractall] writes
    next to it.  A directory is the list of its files as [os.walk]
    reports them; sub-directories are not modelled. *)

Definition table := (list string * list row)%type.

Inductive file :=
| File (read_csv : outcome table)
       (extractall : outcome (list (string * outcome table))).

Definition read_csv_of (f : file) : outcome table :=
  match f with File r _ => r end.

Definition members_of (f : file) : outcome (list (string * file)) :=
  match f with
  | File _ (Returns ms) =>
      Returns (map (fun m => (fst m, File (snd m) (Raises ValueError))) ms)
  | File _ (Raises e) => Raises e
  end.

Inductive node :=
| Absent                                   (* os.path.exists is False *)
| IsFile (f : file)
| IsDir (files : list (string * file))
| Special.                                 (* neither file nor directory *)

(** [pd.read_csv(path)]: the parsed table under a RangeIndex. *)
Definition pd_read_csv (f : file) : outcome DataFrame :=
  t <- read_csv_of f ;;
  Returns (Frame (fst t) (relabel 0 (map (fun r => (0, r)) (snd t)))).

(** Writing a file into a directory replaces a file of that name. *)
Fixpoint write (name : string) (f : file) (dir : list (string * file))
  : list (string * file) :=
  match dir with
  | [] => [(name, f)]
  | (n, g) :: dir' =>
      if String.eqb n name then (name, f) :: dir'
      else (n, g) :: write name f dir'
  end.

Definition remove (name : string) (dir : list (string * file))
  : list (string * file) :=
  filter (fun e => negb (String.eqb (fst e) name)) dir.

(** One step of the first walk: a ZIP file is extracted in place and
    deleted; when that raises, the error is printed and the walk goes on. *)
Definition extract (dir : list (string * file)) (entry : string * file)
  : list (string * file) :=
  if endswith (lower (fst entry)) ".zip"
  then match members_of (snd entry) with
       | Returns ms =>
           remove (fst entry)
                  (fold_left (fun d m => write (fst m) (snd m) d) ms dir)
       | Raises _ => dir
       end
  else dir.

(** The second walk: every CSV file that reads joins [df_list]. *)
Definition read_all (dir : list (string * file)) : list DataFrame :=
  flat_map (fun entry =>
              if endswith (lower (fst entry)) ".csv"
              then match pd_read_csv (snd entry) with
                   | Returns df => [df]
                   | Raises _ => []
                   end
              else [])
           dir.

(** The loading branch of [__init__]. *)
Definition load (path : string) (n : node) : outcome DataFrame :=
  match n with
  | Absent => Raises FileNotFoundError
  | IsFile f =>
      if endswith (lower path) ".csv"
      then match pd_read_csv f with
           | Returns df => Returns df
           | Raises _ => Raises ValueError
           end
      else Raises ValueError
  | IsDir files =>
      let dir := fold_left extract files files in
      match read_all dir with
      | [] => Raises ValueError
      | df_list => Returns (concat df_list)
      end
  | Special => Raises UnboundLocalError      (* [df] was never assigned *)
  end.

Definition required_columns : list string :=
  ["ride_id"; "rideable_type"; "started_at"; "ended_at";
   "start_station_name"; "start_station_id"; "end_station_name";
   "end_station_id"; "start_lat"; "start_lng"; "end_lat"; "end_lng";
   "member_casual"].

Definition missing_columns (df : DataFrame) : list string :=
  filter (fun col => negb (has_column df col)) required_columns.

(** *** The dataset object *)

Record t := Dataset {
  df_rides : DataFrame;
  dropped_rows : DataFrame;
  stations : DataFrame;
  duration_mean : Float.float;
  duration_std : Float.float;
  x_center : Float.float;
  y_center : Float.float
}.

(** [original_df.loc[~original_df.index.isin(cleaned_df.index)]]. *)
Definition dropped (original_df cleaned_df : DataFrame) : DataFrame :=
  let dropped_mask := map negb (isin (index original_df) (index cleaned_df)) in
  loc_mask original_df dropped_mask.

Section WithLibraries.
Context `{Libraries}.

Definition astype_str (c : cell) : cell :=
  match c with
  | S s => S s
  | _ => S (str c)
  end.

(** [df[c] = f(df[c])], cell by cell. *)
Definition update (df : DataFrame) (c : string) (f : cell -> cell)
  : DataFrame :=
  setitem df c (map (fun ir => f (get c (snd ir))) (rows df)).

(** Seconds from [a] to [b]. *)
Definition seconds_between (a b : datetime) : Z :=
  ((ordinal b - ordinal a) * 24 + (hour b - hour a)) * 3600
  + (minute b - minute a) * 60 + (second b - second a).

(** [(ended_at - started_at).dt.total_seconds()] on one row. *)
Definition ride_duration (r : row) : Float.float :=
  match get "started_at" r, get "ended_at" r with
  | T (Some a), T (Some b) => Float.of_Z (seconds_between a b)
  | _, _ => Float.NaN
  end.

(** [stations[c].fillna(0).astype(int)] on one cell. *)
Definition fillna0_int (c : cell) : outcome cell :=
  match c with
  | F Float.NaN => Returns (I 0)
  | F x => z <- Float.astype_int x ;; Returns (I z)
  | I z => Returns (I z)
  | _ => Raises ValueError
  end.

(** The stations seen at one end of the rides. *)
Definition stations_at (df : DataFrame) (id name lat lng : string)
  : outcome DataFrame :=
  st <- select df [id; name; lat; lng] ;;
  let st := dropna st in
  let st := drop_duplicates st id in
  Returns (rename st [(id, "station_id"); (name, "station_name");
                      (lat, "lat"); (lng, "lng")]).

Definition sub_center (center : Float.float) (c : cell) : cell :=
  match c with
  | F x => F (Float.sub x center)
  | _ => NA
  end.

(** [_process_stations]: the stations frame and the two centers. *)
Definition _process_stations (df : DataFrame)
  : outcome (DataFrame * Float.float * Float.float) :=
  start_stations <- stations_at df "start_station_id" "start_station_name"
                                 "start_lat" "start_lng" ;;
  end_stations <- stations_at df "end_station_id" "end_station_name"
                               "end_lat" "end_lng" ;;
  let stations := concat [start_stations; end_stations] in
  let stations := drop_duplicates stations "station_id" in
  start_ids <- getitem df "start_station_id" ;;
  end_ids <- getitem df "end_station_id" ;;
  let start_counts := value_counts start_ids in
  let end_counts := value_counts end_ids in
  let stations := merge_left stations "station_id" start_counts "start_count" in
  let stations := merge_left stations "station_id" end_counts "end_count" in
  sc <- mapM (fun ir => fillna0_int (get "start_count" (snd ir)))
             (rows stations) ;;
  let stations := setitem stations "start_count" sc in
  ec <- mapM (fun ir => fillna0_int (get "end_count" (snd ir)))
             (rows stations) ;;
  let stations := setitem stations "end_count" ec in
  lng <- floats stations "lng" ;;
  lat <- floats stations "lat" ;;
  let xy := map (fun p => transform (fst p) (snd p)) (combine lng lat) in
  let stations := setitem stations "x" (map (fun p => F (fst p)) xy) in
  let stations := setitem stations "y" (map (fun p => F (snd p)) xy) in
  let x_center := Float.mean (map fst xy) in
  let y_center := Float.mean (map snd xy) in
  let stations := setitem stations "x_centered"
        (map (fun ir => sub_center x_center (get "x" (snd ir)))
             (rows stations)) in
  let stations := setitem stations "y_centered"
        (map (fun ir => sub_center y_center (get "y" (snd ir)))
             (rows stations)) in
  Returns (stations, x_center, y_center).

(** The constructor after loading: column check, cleaning, durations and
    stations. *)
Definition build (df : DataFrame) : outcome t :=
  match missing_columns df with
  | _ :: _ => Raises ValueError
  | [] =>
      let original_df := df in
      let cleaned_df := reset_index (dropna df) in
      let dropped_rows := dropped original_df cleaned_df in
      let cleaned_df := update cleaned_df "end_station_id" astype_str in
      let cleaned_df :=
        update cleaned_df "started_at" (fun c => T (to_datetime c)) in
      let cleaned_df :=
        update cleaned_df "ended_at" (fun c => T (to_datetime c)) in
      let durations := map (fun ir => ride_duration (snd ir))
                           (rows cleaned_df) in
      let cleaned_df := setitem cleaned_df "ride_duration"
                                (map F durations) in
      let duration_mean := Float.mean durations in
      let duration_std := std durations in
      let cleaned_df :=
        setitem cleaned_df "ride_duration_normalized"
          (map (fun d => F (Float.div (Float.sub d duration_mean)
                                      duration_std)) durations) in
      res <- _process_stations cleaned_df ;;
      let '(stations, x_center, y_center) := res in
      Returns (Dataset cleaned_df dropped_rows stations
                       duration_mean duration_std x_center y_center)
  end.

(** [CitibikeDataset(path)], with [n] what is at [path]. *)
Definition __init__ (path : string) (n : node) : outcome t :=
  df <- load path n ;;
  build df.

End WithLibraries.
End CitibikeDataset.
(* ================================================================== *)
(** ** datasets/bike_crash_dataset.py *)

Module BikeCrashDataset.

Import Py Pandas.
Open Scope string_scope.
Open Scope list_scope.
Open Scope Z_scope.

Section WithLibraries.
Context `{Libraries}.

Definition REQUIRED_COLUMNS : list string :=
  ["CRASH DATE"; "CRASH TIME"; "LATITUDE"; "LONGITUDE"; "CRASH_DATETIME";
   "x"; "y"].

Definition _has_required_columns (df : DataFrame) : bool :=
  forallb (has_column df) REQUIRED_COLUMNS.

(** [a | b] on boolean columns. *)
Definition or_mask (a b : list bool) : list bool :=
  map (fun p => fst p || snd p) (combine a b).

Definition and_mask (a b : list bool) : list bool :=
  map (fun p => fst p && snd p) (combine a b).

Definition gt0 (c : cell) : outcome bool :=
  x <- as_float c ;; Returns (Float.gtb x (Float.of_Z 0)).

(** [df.get(c, 0) > 0]: without the column it is the scalar [0 > 0],
    which [|] broadcasts to a column of False. *)
Definition get_gt0 (df : DataFrame) (c : string) : outcome (list bool) :=
  if has_column df c
  then mapM (fun ir => gt0 (get c (snd ir))) (rows df)
  else Returns (repeat false (List.length (rows df))).

Definition vehicle_cols : list string :=
  ["VEHICLE TYPE CODE 1"; "VEHICLE TYPE CODE 2"; "VEHICLE TYPE CODE 3";
   "VEHICLE TYPE CODE 4"; "VEHICLE TYPE CODE 5"].

Definition astype_str (c : cell) : string :=
  match c with
  | S s => s
  | _ => str c
  end.

(** [.astype(str).str.lower().str.contains('bic|bik', na=False)] on one
    cell. *)
Definition contains_bike (c : cell) : bool :=
  let s := lower (astype_str c) in contains "bic" s || contains "bik" s.

Definition vehicle_conditions (df : DataFrame) : list (list bool) :=
  flat_map
    (fun col =>
       if has_column df col
       then [map (fun ir => contains_bike (get col (snd ir))) (rows df)]
       else [])
    vehicle_cols.

(** [pd.concat(conds, axis=1).any(axis=1)], or the all-False column when
    there is no vehicle column. *)
Definition vehicle_condition (df : DataFrame) : list bool :=
  fold_left or_mask (vehicle_conditions df)
            (repeat false (List.length (rows df))).

Definition ne0 (c : cell) : bool :=
  match c with
  | F x => Float.neb x (Float.of_Z 0)
  | I z => negb (Z.eqb z 0)
  | _ => true
  end.

(** [date + ' ' + time] on one row. *)
Definition date_time_text (d t : cell) : outcome string :=
  match d, t with
  | S a, S b => Returns (a ++ " " ++ b)%string
  | _, _ => Raises TypeError
  end.

Definition _process_dataset (df : DataFrame) : outcome DataFrame :=
  injured <- get_gt0 df "NUMBER OF CYCLIST INJURED" ;;
  killed <- get_gt0 df "NUMBER OF CYCLIST KILLED" ;;
  let condition_cyclist := or_mask injured killed in
  let combined_condition := or_mask condition_cyclist (vehicle_condition df) in
  let df := loc_mask df combined_condition in
  df <- dropna_subset df ["CRASH DATE"; "CRASH TIME";
                          "LATITUDE"; "LONGITUDE"] ;;
  let df :=
    loc_mask df
      (and_mask (map (fun ir => ne0 (get "LATITUDE" (snd ir))) (rows df))
                (map (fun ir => ne0 (get "LONGITUDE" (snd ir))) (rows df))) in
  texts <- mapM (fun ir => date_time_text (get "CRASH DATE" (snd ir))
                                          (get "CRASH TIME" (snd ir)))
                (rows df) ;;
  let df :=
    setitem df "CRASH_DATETIME"
            (map (fun s => T (to_datetime (S s))) texts) in
  lng <- floats df "LONGITUDE" ;;
  lat <- floats df "LATITUDE" ;;
  let xy := map (fun p => transform (fst p) (snd p)) (combine lng lat) in
  let df := setitem df "x" (map (fun p => F (fst p)) xy) in
  let df := setitem df "y" (map (fun p => F (snd p)) xy) in
  select df ["CRASH DATE"; "CRASH TIME"; "LATITUDE"; "LONGITUDE";
             "CRASH_DATETIME"; "x"; "y"].

(** [BikeCrashDataset(path)], from the frame [pd.read_csv(path)] gave. *)
Definition __init__ (raw : DataFrame) : outcome DataFrame :=
  if negb (_has_required_columns raw)
  then _process_dataset raw
  else Returns raw.

(** *** citibike_alignment *)

(** [(a) & (b) & (c) & (d)] of the four comparisons with the bounding box
    of the stations, on one row. *)
Definition within (lo hi v : Float.float) : bool :=
  Float.geb v lo && Float.leb v hi.

Definition citibike_alignment (df : DataFrame)
  (citibike_dataset : CitibikeDataset.t) : outcome DataFrame :=
  let stations := CitibikeDataset.stations citibike_dataset in
  xs <- floats df "x" ;;
  let df :=
    setitem df "x_centered"
      (map (fun x => F (Float.sub x (CitibikeDataset.x_center
                                       citibike_dataset))) xs) in
  ys <- floats df "y" ;;
  let df :=
    setitem df "y_centered"
      (map (fun y => F (Float.sub y (CitibikeDataset.y_center
                                       citibike_dataset))) ys) in
  sx <- floats stations "x_centered" ;;
  let min_x := Float.min sx in
  let max_x := Float.max sx in
  sy <- floats stations "y_centered" ;;
  let min_y := Float.min sy in
  let max_y := Float.max sy in
  xc <- floats df "x_centered" ;;
  yc <- floats df "y_centered" ;;
  Returns (loc_mask df
    (and_mask (map (within min_x max_x) xc) (map (within min_y max_y) yc))).

(** *** spatio_temporal_rasterization *)

Definition time_to_minutes (time_str : string) : outcome Z :=
  match split ":" time_str with
  | [h; m] =>
      hour <- int h ;;
      minute <- int m ;;
      Returns (hour * 60 + minute)
  | _ => Raises ValueError
  end.

(** [.apply(time_to_minutes)] on one cell: only text has [split]. *)
Definition apply_time_to_minutes (c : cell) : outcome Z :=
  match c with
  | S s => time_to_minutes s
  | _ => Raises AttributeError
  end.

(** [(col - lo) // size).astype(int)] on one value. *)
Definition bin_of (lo size x : Float.float) : outcome Z :=
  Float.astype_int (Float.floordiv (Float.sub x lo) size).

(** [(time_numeric // time_bin_size).astype(int)] on one value: pandas
    turns an integer division by zero into inf or NaN, which [astype]
    then refuses. *)
Definition time_bin_of (time_bin_size m : Z) : outcome Z :=
  if Z.eqb time_bin_size 0 then Raises ValueError
  else Returns (m / time_bin_size).

Definition key := (Z * Z * Z)%type.

Definition key_compare (a b : key) : comparison :=
  let '(ax, ay, at_) := a in
  let '(bx, by_, bt) := b in
  match ax ?= bx with
  | Eq => match ay ?= by_ with
          | Eq => at_ ?= bt
          | c => c
          end
  | c => c
  end.

(** [groupby(keys).size()]: one entry per distinct key, in key order. *)
Fixpoint count_key (k : key) (groups : list (key * Z)) : list (key * Z) :=
  match groups with
  | [] => [(k, 1)]
  | (k', n) :: groups' =>
      match key_compare k k' with
      | Eq => (k', n + 1) :: groups'
      | Lt => (k, 1) :: groups
      | Gt => (k', n) :: count_key k groups'
      end
  end.

Definition groupby_size (keys : list key) : list (key * Z) :=
  fold_left (fun groups k => count_key k groups) keys [].

(** The columns added to [df_temp]: the grid and each row's bin triple. *)
Record binned := Binned {
  min_x : Float.float;
  min_y : Float.float;
  x_bin_size : Float.float;
  y_bin_size : Float.float;
  bin_keys : list key            (* x_bin, y_bin, time_bin per row *)
}.

Fixpoint zip3 (a b c : list Z) : list key :=
  match a, b, c with
  | x :: a', y :: b', t :: c' => (x, y, t) :: zip3 a' b' c'
  | _, _, _ => []
  end.

Definition binning (df : DataFrame) (bins time_bin_size : Z)
  : outcome binned :=
  times <- getitem df "CRASH TIME" ;;
  time_numeric <- mapM apply_time_to_minutes times ;;
  xs <- floats df "x_centered" ;;
  ys <- floats df "y_centered" ;;
  let min_x := Float.min xs in
  let max_x := Float.max xs in
  let min_y := Float.min ys in
  let max_y := Float.max ys in
  let x_bin_size := Float.div (Float.sub max_x min_x) (Float.of_Z bins) in
  let y_bin_size := Float.div (Float.sub max_y min_y) (Float.of_Z bins) in
  x_bin <- mapM (bin_of min_x x_bin_size) xs ;;
  y_bin <- mapM (bin_of min_y y_bin_size) ys ;;
  time_bin <- mapM (time_bin_of time_bin_size) time_numeric ;;
  Returns (Binned min_x min_y x_bin_size y_bin_size
                  (zip3 x_bin y_bin time_bin)).

Definition half : Float.float := Float.Finite (1 # 2).

(** One row of the raster, from a group of [groupby(...).size()]. *)
Definition raster_row (b : binned) (time_bin_size : Z) (g : key * Z) : row :=
  let '((xb, yb, tb), n) := g in
  [("x_center",
     F (Float.add (min_x b)
          (Float.mul (Float.add (Float.of_Z xb) half) (x_bin_size b))));
   ("y_center",
     F (Float.add (min_y b)
          (Float.mul (Float.add (Float.of_Z yb) half) (y_bin_size b))));
   ("time_center",
     F (Float.add (Float.of_Z (tb * time_bin_size))
          (Float.div (Float.of_Z time_bin_size) (Float.of_Z 2))));
   ("crash_count", I n)].

Definition spatio_temporal_rasterization
  (df : DataFrame) (bins time_bin_size : Z) : outcome DataFrame :=
  b <- binning df bins time_bin_size ;;
  let groups := groupby_size (bin_keys b) in
  Returns (reset_index
    (Frame ["x_center"; "y_center"; "time_center"; "crash_count"]
           (map (fun g => (0, raster_row b time_bin_size g)) groups))).

(** The ['crash_count'] column of a raster, as integers. *)
Definition crash_counts (raster : DataFrame) : list Z :=
  map (fun ir => match get "crash_count" (snd ir) with
                 | I n => n
                 | _ => 0
                 end) (rows raster).

Definition sum_Z (l : list Z) : Z := fold_right Z.add 0 l.

End WithLibraries.
End BikeCrashDataset.

(* ================================================================== *)
(** ** modeling/density_estimator.py *)

Module DensityEstimator.

Import Py.
Open Scope string_scope.
Open Scope list_scope.
Open Scope Z_scope.

(** A fitted estimator: the sample and its bounding box.  The KDE model
    plays no part in the histograms and is left out. *)
Record t := Estimator {
  data : list (Q * Q);
  x_min : Q;
  x_max : Q;
  y_min : Q;
  y_max : Q
}.

Definition Qmin_list (a : Q) (l : list Q) : Q :=
  fold_left (fun m x => if Qle_bool x m then x else m) l a.

Definition Qmax_list (a : Q) (l : list Q) : Q :=
  fold_left (fun m x => if Qle_bool m x then x else m) l a.

(** [DensityEstimator(data)]: fitting and [min] refuse an empty sample. *)
Definition __init__ (data : list (Q * Q)) : outcome t :=
  match data with
  | [] => Raises ValueError
  | (x, y) :: rest =>
      Returns (Estimator data
                 (Qmin_list x (map fst rest)) (Qmax_list x (map fst rest))
                 (Qmin_list y (map snd rest)) (Qmax_list y (map snd rest)))
  end.

(** *** numpy.histogram2d with an integer [bins] and a [range] *)

(** A range of width zero is widened by one half on each side. *)
Definition outer_edges (lo hi : Q) : Q * Q :=
  if Qeq_bool lo hi then (lo - (1 # 2), hi + (1 # 2))%Q else (lo, hi).

(** The bin of [x] among [bins] equal bins over [lo, hi]: the last bin
    is closed on the right, and values outside the range have no bin. *)
Definition bin_index (lo hi : Q) (bins : Z) (x : Q) : option Z :=
  let (lo, hi) := outer_edges lo hi in
  if Qle_bool lo x && Qle_bool x hi
  then if Qeq_bool x hi then Some (bins - 1)
       else Some (Qfloor ((x - lo) / ((hi - lo) / inject_Z bins)))
  else None.

Definition in_cell (i j : option Z) (i0 j0 : Z) : bool :=
  match i, j with
  | Some a, Some b => Z.eqb a i0 && Z.eqb b j0
  | _, _ => false
  end.

Definition range (n : Z) : list Z := map Z.of_nat (seq 0 (Z.to_nat n)).

Definition array := list (list Float.float).

Definition np_histogram2d (sample : list (Q * Q)) (bins : Z)
  (xlo xhi ylo yhi : Q) : outcome array :=
  if bins <? 1 then Raises ValueError
  else if Qle_bool xlo xhi && Qle_bool ylo yhi
  then Returns
    (map (fun i =>
       map (fun j =>
              Float.of_Z (Z.of_nat (List.length
                (filter (fun p => in_cell (bin_index xlo xhi bins (fst p))
                                          (bin_index ylo yhi bins (snd p))
                                          i j)
                        sample))))
           (range bins))
       (range bins))
  else Raises ValueError.

Definition histogram2d (self : t) (bins : Z) : outcome array :=
  np_histogram2d (data self) bins
                 (x_min self) (x_max self) (y_min self) (y_max self).

(** *** normalized_histogram2d *)

(** What a Python call evaluates to. *)
Inductive value :=
| PyNone
| NdArray (a : array).

(** One call of [plot_heatmap]. *)
Record heatmap := Heatmap {
  H : array;
  extent : Q * Q * Q * Q;
  title : string;
  density : bool
}.

Fixpoint map2 {A B C} (f : A -> B -> C) (a : list A) (b : list B) : list C :=
  match a, b with
  | x :: a', y :: b' => f x y :: map2 f a' b'
  | _, _ => []
  end.

(** [np.where(H_den < 1, 0, H_num / H_den)] on one cell. *)
Definition normalized_cell (num den : Float.float) : Float.float :=
  if Float.ltb den (Float.of_Z 1) then Float.of_Z 0 else Float.div num den.

(** The arrays, the heat maps drawn, and the value of the call: the body
    ends with the call of [plot_heatmap] and has no [return]. *)
Definition normalized_histogram2d (numerator denominator : t) (bins : Z)
  (title : string) : outcome (list heatmap * value) :=
  H_num <- np_histogram2d (data numerator) bins
             (x_min denominator) (x_max denominator)
             (y_min denominator) (y_max denominator) ;;
  H_den <- np_histogram2d (data denominator) bins
             (x_min denominator) (x_max denominator)
             (y_min denominator) (y_max denominator) ;;
  let H_norm := map2 (map2 normalized_cell) H_num H_den in
  let extent := (x_min denominator, x_max denominator,
                 y_min denominator, y_max denominator) in
  Returns ([Heatmap H_norm extent title true], PyNone).

End DensityEstimator.

(* ================================================================== *)
(** ** modeling/price_calculator.py *)

Module PriceCalculator.

Import Py Pandas.
Open Scope string_scope.
Open Scope list_scope.
Open Scope Z_scope.

Record t := Calculator {
  citibike_dataset : CitibikeDataset.t;
  time_bin_size : Z;
  cost_per_accident : Float.float;
  traffic_adjustment : Float.float
}.

Definition convert_time_to_minutes (dt : datetime) : Z :=
  hour dt * 60 + minute dt.

Definition get_time_bin_center (self : t) (minutes : Z)
  : outcome Float.float :=
  time_bin <- floordiv minutes (time_bin_size self) ;;
  Returns (Float.add (Float.of_Z (time_bin * time_bin_size self))
                     (Float.div (Float.of_Z (time_bin_size self))
                                (Float.of_Z 2))).

(** [df[df[c] == v]]. *)
Definition where_eq (df : DataFrame) (c : string) (v : cell)
  : outcome DataFrame :=
  col <- getitem df c ;;
  Returns (loc_mask df (map (fun x => eq_cell x v) col)).

(** [df[c].iloc[0]]. *)
Definition iloc0 (df : DataFrame) (c : string) : outcome cell :=
  col <- getitem df c ;;
  match col with
  | v :: _ => Returns v
  | [] => Raises IndexError
  end.

(** The inner [time_bin(dt)] on one cell of a timestamp column; NaT has
    NaN for hour and minute, and its bin is NaN ([None]). *)
Definition time_bin (self : t) (c : cell) : outcome (option Z) :=
  match c with
  | T (Some dt) =>
      b <- floordiv (hour dt * 60 + minute dt) (time_bin_size self) ;;
      Returns (Some b)
  | T None => Returns None
  | _ => Raises AttributeError
  end.

(** [rides[c].apply(time_bin).eq(bin_index).sum()]. *)
Definition count_in_bin (self : t) (rides : DataFrame) (c : string)
  (bin_index : Z) : outcome Z :=
  col <- getitem rides c ;;
  bins <- mapM (time_bin self) col ;;
  Returns (Z.of_nat (List.length
             (filter (fun b => match b with
                               | Some z => Z.eqb z bin_index
                               | None => false
                               end) bins))).

Section WithLibraries.
Context `{Libraries}.

Definition predict_insurance_price (self : t) (started_at : datetime)
  (start_station_id : cell) : outcome (Float.float * Float.float) :=
  let minutes := convert_time_to_minutes started_at in
  time_center <- get_time_bin_center self minutes ;;
  let stations := CitibikeDataset.stations (citibike_dataset self) in
  let df_rides := CitibikeDataset.df_rides (citibike_dataset self) in
  station_row <- where_eq stations "station_id" start_station_id ;;
  xc <- iloc0 station_row "x_centered" ;;
  yc <- iloc0 station_row "y_centered" ;;
  x_centered <- as_float xc ;;
  y_centered <- as_float yc ;;
  let predicted_crash_count := predict x_centered y_centered time_center in
  _ <- getitem station_row "station_id" ;;
  bin_index <- floordiv minutes (time_bin_size self) ;;
  rides_station <- where_eq df_rides "start_station_id" start_station_id ;;
  num_starts <- count_in_bin self rides_station "started_at" bin_index ;;
  rides_station <- where_eq df_rides "end_station_id" start_station_id ;;
  num_ends <- count_in_bin self rides_station "ended_at" bin_index ;;
  let traffic := num_starts + num_ends in
  let risk_per_ride :=
    if 0 <? traffic
    then Float.div predicted_crash_count (Float.of_Z traffic)
    else predicted_crash_count in
  let insurance_price :=
    Float.mul (Float.mul risk_per_ride (cost_per_accident self))
              (traffic_adjustment self) in
  Returns (insurance_price, risk_per_ride).

End WithLibraries.
End PriceCalculator.

(* ================================================================== *)
(** ** Preconditions on a crash frame, as decidable checks *)

Module CrashData.

Import Py Pandas.
Open Scope string_scope.
Open Scope list_scope.
Open Scope Z_scope.

(** The finite number held by a numeric cell. *)
Definition finite_value (c : cell) : option Q :=
  match c with
  | F (Float.Finite q) => Some q
  | I z => Some (inject_Z z)
  | _ => None
  end.

Definition is_int (s : string) : bool :=
  match int s with Returns _ => true | Raises _ => false end.

(** Text of the form [H:M], both parts integer literals. *)
Definition clock_text (c : cell) : bool :=
  match c with
  | S s => match split ":" s with
           | [h; m] => is_int h && is_int m
           | _ => false
           end
  | _ => false
  end.

(** The frame has the columns ['x_centered'], ['y_centered'] and
    ['CRASH TIME'], with finite coordinates and a clock text in each row. *)
Definition carries_bin_columns (df : DataFrame) : bool :=
  has_column df "x_centered" && has_column df "y_centered" &&
  has_column df "CRASH TIME" &&
  forallb (fun ir =>
             match finite_value (get "x_centered" (snd ir)),
                   finite_value (get "y_centered" (snd ir)) with
             | Some _, Some _ => clock_text (get "CRASH TIME" (snd ir))
             | _, _ => false
             end) (rows df).

(** Two rows differ in column [c]. *)
Definition differ (c : string) (r1 r2 : row) : bool :=
  match finite_value (get c r1), finite_value (get c r2) with
  | Some a, Some b => negb (Qeq_bool a b)
  | _, _ => false
  end.

Definition not_all_equal (c : string) (df : DataFrame) : bool :=
  existsb (fun ir1 => existsb (fun ir2 => differ c (snd ir1) (snd ir2))
                              (rows df))
          (rows df).

(** The ['x_bin'] and ['y_bin'] values of a bin triple. *)
Definition x_bin (k : BikeCrashDataset.key) : Z := fst (fst k).
Definition y_bin (k : BikeCrashDataset.key) : Z := snd (fst k).

Definition row_t (x y : Q) (t : string) : row :=
  [("x_centered", F (Float.Finite x)); ("y_centered", F (Float.Finite y));
   ("CRASH TIME", S t)].


(** Three crashes, two of them in one spatio-temporal bin. *)
Definition three_crashes : DataFrame :=
  Frame ["x_centered"; "y_centered"; "CRASH TIME"]
        [(0, row_t 0 0 "10:00"); (1, row_t 8 8 "10:05");
         (2, row_t 8 8 "10:07")].


End CrashData.

(* ================================================================== *)
(** ** Stand-ins for the libraries, and raw crash tables, for concrete runs *)

Module TestDoubles.

Import Pandas.
Open Scope string_scope.
Open Scope list_scope.
Open Scope Z_scope.

(** The regressor is the DummyModel of tests/modeling: it predicts 2.0.
    The projection is the identity and no text parses as a date. *)
Definition libraries : Libraries := {|
  str := fun _ => "nan";
  to_datetime := fun _ => None;
  transform := fun lng lat => (lng, lat);
  std := fun _ => Float.Finite 1;
  predict := fun _ _ _ => Float.Finite 2
|}.

Definition num (q : Q) : cell := F (Float.Finite q).

Definition raw_row (date time : cell) (lat lng : cell) (injured : Z)
  (vehicle : string) : row :=
  [("CRASH DATE", date); ("CRASH TIME", time);
   ("LATITUDE", lat); ("LONGITUDE", lng);
   ("NUMBER OF CYCLIST INJURED", I injured);
   ("VEHICLE TYPE CODE 1", S vehicle)].

Definition raw_columns : list string :=
  ["CRASH DATE"; "CRASH TIME"; "LATITUDE"; "LONGITUDE";
   "NUMBER OF CYCLIST INJURED"; "VEHICLE TYPE CODE 1"].

(** A raw table with a car crash, a cyclist injured, an e-Bike, a crash
    without a date and a crash at latitude 0. *)
Definition raw_crashes : DataFrame :=
  Frame raw_columns
    [(0, raw_row (S "2023-01-01") (S "10:00") (num 40.7128) (num (-74.0060))
                 0 "car");
     (1, raw_row (S "2023-01-01") (S "10:05") (num 40.7128) (num (-74.0060))
                 1 "truck");
     (2, raw_row (S "2023-01-01") (S "10:10") (num 40.7138) (num (-74.0050))
                 0 "E-Bike");
     (3, raw_row NA (S "10:15") (num 40.7128) (num (-74.0060)) 1 "bike");
     (4, raw_row (S "2023-01-01") (S "10:20") (num 0) (num (-74.0060))
                 1 "bike")].

End TestDoubles.

(* ================================================================== *)
(** ** Ride tables and files for concrete runs *)

Module TestRides.

Import Pandas CitibikeDataset TestDoubles.
Open Scope string_scope.
Open Scope list_scope.
Open Scope Z_scope.

Definition ride (id : string) (started ended : string)
  (start_name : string) (start_id : cell)
  (end_name : string) (end_id : cell) (lat lng : Q) : row :=
  [("ride_id", S id); ("rideable_type", S "classic_bike");
   ("started_at", S started); ("ended_at", S ended);
   ("start_station_name", S start_name); ("start_station_id", start_id);
   ("end_station_name", S end_name); ("end_station_id", end_id);
   ("start_lat", num lat); ("start_lng", num lng);
   ("end_lat", num lat); ("end_lng", num lng);
   ("member_casual", S "member")].

(** Three rides; the first one has no end station id. *)
Definition rides : table :=
  (required_columns,
   [ride "1" "2023-01-01 08:00:00" "2023-01-01 08:15:00"
         "Station A" (S "A1") "Station A" NA 40.7128 (-74.0060);
    ride "2" "2023-01-01 09:00:00" "2023-01-01 09:20:00"
         "Station B" (S "B1") "Station A" (S "A1") 40.7138 (-74.0050);
    ride "3" "2023-01-01 10:00:00" "2023-01-01 10:20:00"
         "Station B" (S "B1") "Station C" (S "C1") 40.7148 (-74.0030)]).

Definition rides_csv : file := File (Py.Returns rides) (Py.Raises Py.ValueError).




Definition unreadable : file :=
  File (Py.Raises Py.ValueError) (Py.Raises Py.ValueError).

End TestRides.

(* ================================================================== *)
(** ** Samples for the density estimator *)

Module TestSamples.

Open Scope Q_scope.

Definition crash_points : list (Q * Q) := [(0, 0); (3, 3); (1, 3)].
Definition station_points : list (Q * Q) :=
  [(0, 0); (4, 4); (3, 3); (3, 4); (1, 0)].

End TestSamples.

(* ================================================================== *)
(** ** Times and a priced ride: the fixture of tests/modeling *)

Module TimeData.

Import Pandas.
Open Scope string_scope.
Open Scope list_scope.
Open Scope Z_scope.

(** The fields of a wall-clock time are in range. *)
Definition valid_time (dt : datetime) : bool :=
  (0 <=? hour dt) && (hour dt <? 24) && (0 <=? minute dt) &&
  (minute dt <? 60).

(** 2023-03-01, by ordinal. *)
Definition march_1 : Z := 738580.

Definition at_8_05 : datetime := Datetime march_1 8 5 0.
Definition at_8_07 : datetime := Datetime march_1 8 7 0.
Definition at_8_10 : datetime := Datetime march_1 8 10 0.

(** One station, and one ride that starts and ends there. *)
Definition one_ride_dataset : CitibikeDataset.t :=
  CitibikeDataset.Dataset
    (Frame ["start_station_id"; "started_at"; "end_station_id"; "ended_at"]
           [(0, [("start_station_id", S "A1");
                 ("started_at", T (Some at_8_05));
                 ("end_station_id", S "A1");
                 ("ended_at", T (Some at_8_10))])])
    (Frame [] [])
    (Frame ["station_id"; "x_centered"; "y_centered"]
           [(0, [("station_id", S "A1");
                 ("x_centered", F (Float.Finite 100));
                 ("y_centered", F (Float.Finite 200))])])
    Float.NaN Float.NaN Float.NaN Float.NaN.

(** The calculator of the test, and one with a time bin of size zero. *)
Definition calculator : PriceCalculator.t :=
  PriceCalculator.Calculator one_ride_dataset 30
    (Float.Finite 5000) (Float.Finite (1 # 1000)).

Definition calculator_with_empty_bins : PriceCalculator.t :=
  PriceCalculator.Calculator one_ride_dataset 0
    (Float.Finite 5000) (Float.Finite (1 # 1000)).

End TimeData.

(* ================================================================== *)
(** ** The dataset a price is computed from *)

Module Traffic.

Import Pandas.
Open Scope string_scope.
Open Scope list_scope.
Open Scope Z_scope.

Definition is_number (c : cell) : bool :=
  match c with F _ | I _ => true | _ => false end.

Definition is_timestamp (c : cell) : bool :=
  match c with T _ => true | _ => false end.

(** The stations table has its id and centered coordinates, as numbers;
    the rides table has its station ids and its two timestamps. *)
Definition well_formed (ds : CitibikeDataset.t) : bool :=
  let stations := CitibikeDataset.stations ds in
  let df_rides := CitibikeDataset.df_rides ds in
  forallb (has_column stations) ["station_id"; "x_centered"; "y_centered"] &&
  forallb (has_column df_rides)
          ["start_station_id"; "started_at"; "end_station_id"; "ended_at"] &&
  forallb (fun ir => is_number (get "x_centered" (snd ir)) &&
                     is_number (get "y_centered" (snd ir)))
          (rows stations) &&
  forallb (fun ir => is_timestamp (get "started_at" (snd ir)) &&
                     is_timestamp (get "ended_at" (snd ir)))
          (rows df_rides).

(** The rows of the stations table with station id [id]. *)
Definition station_rows (ds : CitibikeDataset.t) (id : cell)
  : list (Z * row) :=
  filter (fun ir => eq_cell (get "station_id" (snd ir)) id)
         (rows (CitibikeDataset.stations ds)).

(** The time bin of a timestamp cell; NaT is in no bin. *)
Definition bin_of_cell (time_bin_size : Z) (c : cell) : option Z :=
  match c with
  | T (Some dt) => Some ((hour dt * 60 + minute dt) / time_bin_size)
  | _ => None
  end.

(** The rides with station [id] in column [station] whose timestamp in
    column [time] falls in time bin [bin]. *)
Definition rides_in_bin (ds : CitibikeDataset.t) (time_bin_size : Z)
  (station time : string) (id : cell) (bin : Z) : Z :=
  Z.of_nat (List.length
    (filter (fun ir =>
               eq_cell (get station (snd ir)) id &&
               match bin_of_cell time_bin_size (get time (snd ir)) with
               | Some b => Z.eqb b bin
               | None => false
               end)
            (rows (CitibikeDataset.df_rides ds)))).

(** Rides starting plus rides ending at the station in the time bin. *)
Definition traffic (ds : CitibikeDataset.t) (time_bin_size : Z)
  (id : cell) (bin : Z) : Z :=
  rides_in_bin ds time_bin_size "start_station_id" "started_at" id bin
  + rides_in_bin ds time_bin_size "end_station_id" "ended_at" id bin.

End Traffic.

(* ================================================================== *)
(** ** Ride tables whose cleaned rows parse *)

Module RideTable.

Import Pandas CitibikeDataset.
Open Scope string_scope.
Open Scope list_scope.
Open Scope Z_scope.





End RideTable.

(* ================================================================== *)
(** ** The tables of tests/datasets *)

Module TestTables.

Import Pandas TestDoubles.
Open Scope string_scope.
Open Scope list_scope.
Open Scope Z_scope.

Definition crash (time : string) (injured : Z) (vehicle : string) : row :=
  [("CRASH DATE", S "2023-01-01"); ("CRASH TIME", S time);
   ("LATITUDE", num 40.7128); ("LONGITUDE", num (-74.0060));
   ("NUMBER OF CYCLIST INJURED", I injured);
   ("NUMBER OF CYCLIST KILLED", I 0);
   ("VEHICLE TYPE CODE 1", S vehicle)].

Definition crash_columns : list string :=
  ["CRASH DATE"; "CRASH TIME"; "LATITUDE"; "LONGITUDE";
   "NUMBER OF CYCLIST INJURED"; "NUMBER OF CYCLIST KILLED";
   "VEHICLE TYPE CODE 1"].

(** test_process_dataset_cyclist_filter, first and second table. *)
Definition one_cyclist : DataFrame :=
  Frame crash_columns
        [(0, crash "10:00" 0 "car"); (1, crash "10:05" 1 "bike");
         (2, crash "10:10" 0 "truck")].

Definition two_cyclists : DataFrame :=
  Frame crash_columns
        [(0, crash "10:00" 0 "car"); (1, crash "10:05" 1 "bike");
         (2, crash "10:10" 1 "truck")].

(** The table of tests/datasets/test_citibike_dataset.py: the third ride
    has no end station id, the second a latitude of 0. *)
Definition test_ride (id started ended station sid : string) (end_id : cell)
  (lat lng : Q) (member : string) : row :=
  [("ride_id", S id); ("rideable_type", S "classic_bike");
   ("started_at", S started); ("ended_at", S ended);
   ("start_station_name", S station); ("start_station_id", S sid);
   ("end_station_name", S station); ("end_station_id", end_id);
   ("start_lat", num lat); ("start_lng", num lng);
   ("end_lat", num lat); ("end_lng", num lng);
   ("member_casual", S member)].

Definition test_rides : CitibikeDataset.file :=
  CitibikeDataset.File
    (Py.Returns
       (CitibikeDataset.required_columns,
        [test_ride "1" "2023-01-01 08:00:00" "2023-01-01 08:15:00"
                   "Station A" "A1" (S "A1") 40.7128 (-74.0060) "member";
         test_ride "2" "2023-01-01 09:00:00" "2023-01-01 09:20:00"
                   "Station B" "B1" (S "B1") 0 (-74.0050) "casual";
         test_ride "3" "2023-01-01 10:00:00" "2023-01-01 10:20:00"
                   "Station C" "C1" NA 40.7148 (-74.0030) "member"]))
    (Py.Raises Py.ValueError).

End TestTables.

(* ================================================================== *)
(** ** Vocabulary of the properties *)

Section Vocabulary.
Import Py Pandas.
Context `{Libraries}.
Open Scope string_scope.
Open Scope list_scope.
Open Scope Z_scope.

Definition all_finite (l : list Float.float) : Prop :=
  Forall (fun a => Float.isfinite a = true) l.

(** Every group is the group of a key that occurs, and counts at least
    one row. *)
Definition occupied (keys : list BikeCrashDataset.key)
  (g : BikeCrashDataset.key * Z) : Prop :=
  In (fst g) keys /\ 1 <= snd g.

(** The coordinate a row holds in column [c]. *)
Definition coord (c : string) (ir : Z * row) : Q :=
  match CrashData.finite_value (get c (snd ir)) with
  | Some q => q
  | None => 0%Q
  end.

(** [(hi - lo) / bins]. *)
Definition bin_size (lo hi : Q) (bins : Z) : Float.float :=
  Float.div (Float.sub (Float.Finite hi) (Float.Finite lo)) (Float.of_Z bins).

(** The masks of [_process_dataset], row by row. *)
Definition gt0_at (df : DataFrame) (c : string) (r : row) : bool :=
  has_column df c &&
  match BikeCrashDataset.gt0 (get c r) with
  | Returns b => b
  | Raises _ => false
  end.

Definition vehicle_at (df : DataFrame) (r : row) : bool :=
  existsb (fun col => has_column df col &&
                      BikeCrashDataset.contains_bike (get col r))
          BikeCrashDataset.vehicle_cols.

(** The bike-crash condition on a row of the raw table [raw]: a cyclist
    was injured or killed, or the text of some vehicle type code, in lower
    case, contains "bic" or "bik". *)
Definition cyclist_hurt (raw : DataFrame) (c : string) (r : row) : Prop :=
  has_column raw c = true /\
  exists x, as_float (get c r) = Returns x /\
            Float.gtb x (Float.of_Z 0) = true.

Definition bike_crash (raw : DataFrame) (r : row) : Prop :=
  cyclist_hurt raw "NUMBER OF CYCLIST INJURED" r \/
  cyclist_hurt raw "NUMBER OF CYCLIST KILLED" r \/
  exists col t,
    In col BikeCrashDataset.vehicle_cols /\ has_column raw col = true /\
    In t ["bic"; "bik"] /\
    contains t (lower (BikeCrashDataset.astype_str (get col r))) = true.

Definition essential_cols : list string :=
  ["CRASH DATE"; "CRASH TIME"; "LATITUDE"; "LONGITUDE"].

(** What a row of the processed frame is, in terms of the raw table: its
    essential cells are present and are those of the raw row with its
    index label, its position is not at 0, and the raw row is a bike
    crash. *)
Definition processed_row (raw : DataFrame) (ir : Z * row) : Prop :=
  (forall c, In c essential_cols -> isna (get c (snd ir)) = false) /\
  BikeCrashDataset.ne0 (get "LATITUDE" (snd ir)) = true /\
  BikeCrashDataset.ne0 (get "LONGITUDE" (snd ir)) = true /\
  exists r0,
    In (fst ir, r0) (rows raw) /\
    (forall c, In c essential_cols -> get c (snd ir) = get c r0) /\
    bike_crash raw r0.

(** No value of the list repeats an earlier one. *)
Fixpoint pairwise_distinct (ids : list cell) : Prop :=
  match ids with
  | [] => True
  | a :: ids' =>
      Forall (fun b => same_value b a = false) ids' /\ pairwise_distinct ids'
  end.

(** The values of column [c], row by row. *)
Definition ids_of (c : string) (l : list (Z * row)) : list cell :=
  map (fun ir => get c (snd ir)) l.

(** A cell of a histogram: a count. *)
Definition is_count (c : Float.float) : Prop :=
  exists z, c = Float.of_Z z /\ 0 <= z.




Definition station_columns : list string :=
  ["start_station_id"; "start_station_name"; "start_lat"; "start_lng";
   "end_station_id"; "end_station_name"; "end_lat"; "end_lng"].

End Vocabulary.

(* ================================================================== *)
(** ** Vocabulary of the further properties *)

Section CrashVocabulary.
Import Py Pandas.
Context `{Libraries}.
Open Scope string_scope.
Open Scope list_scope.
Open Scope Z_scope.

(** A column that, when the frame has it, holds numbers only. *)
Definition numeric_column (df : DataFrame) (c : string) : bool :=
  negb (has_column df c) ||
  forallb (fun ir => Traffic.is_number (get c (snd ir))) (rows df).

(** The three row filters of [_process_dataset] on one raw row: the
    bike-crash mask, no essential cell missing, and a position off 0. *)
Definition kept (raw : DataFrame) (r : row) : bool :=
  (gt0_at raw "NUMBER OF CYCLIST INJURED" r
   || gt0_at raw "NUMBER OF CYCLIST KILLED" r
   || vehicle_at raw r)
  && negb (existsb (fun c => isna (get c r)) essential_cols)
  && (BikeCrashDataset.ne0 (get "LATITUDE" r)
      && BikeCrashDataset.ne0 (get "LONGITUDE" r)).

(** The float a numeric cell holds. *)
Definition float_of (c : cell) : Float.float :=
  match as_float c with
  | Returns x => x
  | Raises _ => Float.NaN
  end.

(** The text [date + ' ' + time] of a row. *)
Definition crash_text (r : row) : string :=
  match BikeCrashDataset.date_time_text (get "CRASH DATE" r)
                                        (get "CRASH TIME" r) with
  | Returns s => s
  | Raises _ => EmptyString
  end.

(** The projected position of a row. *)
Definition projected (r : row) : Float.float * Float.float :=
  transform (float_of (get "LONGITUDE" r)) (float_of (get "LATITUDE" r)).

(** The seven cells [_process_dataset] leaves of a raw row. *)
Definition processed (r : row) : row :=
  [("CRASH DATE", get "CRASH DATE" r); ("CRASH TIME", get "CRASH TIME" r);
   ("LATITUDE", get "LATITUDE" r); ("LONGITUDE", get "LONGITUDE" r);
   ("CRASH_DATETIME", T (to_datetime (S (crash_text r))));
   ("x", F (fst (projected r))); ("y", F (snd (projected r)))].

End CrashVocabulary.

Module MoreTables.

Import Pandas TestDoubles.
Open Scope string_scope.
Open Scope list_scope.
Open Scope Z_scope.

(** A raw crash table without the column 'LONGITUDE'. *)
Definition crashes_without_longitude : DataFrame :=
  Frame ["CRASH DATE"; "CRASH TIME"; "LATITUDE"; "NUMBER OF CYCLIST INJURED"]
        [(0, [("CRASH DATE", S "2023-01-01"); ("CRASH TIME", S "10:00");
              ("LATITUDE", num 40.7128);
              ("NUMBER OF CYCLIST INJURED", I 1)])].

End MoreTables.

Module Groups.

Import BikeCrashDataset.
Open Scope list_scope.
Open Scope Z_scope.

(** Two bin triples are the same bin. *)
Definition key_eqb (a b : key) : bool :=
  let '(ax, ay, at_) := a in
  let '(bx, by_, bt) := b in
  Z.eqb ax bx && Z.eqb ay by_ && Z.eqb at_ bt.

(** The number of rows whose bin triple is [k]. *)
Definition crashes_in_bin (k : key) (keys : list key) : Z :=
  Z.of_nat (List.length (filter (key_eqb k) keys)).

(** Each key is below, in the order of [key_compare], all later ones. *)
Fixpoint ascending (ks : list key) : Prop :=
  match ks with
  | [] => True
  | k :: ks' =>
      Forall (fun k' => key_compare k k' = Lt) ks' /\ ascending ks'
  end.

(** The counts of the groups of bin [k], added up. *)
Definition total (k : key) (groups : list (key * Z)) : Z :=
  sum_Z (map snd (filter (fun g => key_eqb k (fst g)) groups)).

(** One crash only. *)
Definition one_crash : Pandas.DataFrame :=
  Pandas.Frame ["x_centered"; "y_centered"; "CRASH TIME"]%string
               [(0, CrashData.row_t 3 4 "10:00")].

End Groups.

Module Histogram.

Import DensityEstimator.
Open Scope list_scope.
Open Scope Z_scope.

(** [H.sum()]: the cells of an array added up. *)
Definition np_sum (h : array) : Float.float :=
  fold_left Float.add (List.concat h) (Float.of_Z 0).

(** A cell that is 0 or 1. *)
Definition zero_or_one (c : Float.float) : Prop :=
  exists q, c = Float.Finite q /\ (q == 0 \/ q == 1)%Q.

End Histogram.

Module Usage.

Import Pandas.
Open Scope string_scope.
Open Scope list_scope.
Open Scope Z_scope.

(** The count a merge finds for a key, 0 without one. *)
Definition count_of (counts : list (cell * Z)) (id : cell) : Z :=
  match find (fun vn => same_value (fst vn) id) counts with
  | Some (_, n) => n
  | None => 0
  end.

(** [len(rides[rides[c] == id])]. *)
Definition rides_at (rides : DataFrame) (c : string) (id : cell) : Z :=
  Z.of_nat (List.length
    (filter (fun ir => eq_cell (get c (snd ir)) id) (rows rides))).

(** The columns [_process_stations] adds to the stations. *)
Definition added_columns : list string :=
  ["start_count"; "end_count"; "x"; "y"; "x_centered"; "y_centered"].

End Usage.

Section RideVocabulary.
Import Py Pandas CitibikeDataset.
Context `{Libraries}.
Open Scope string_scope.
Open Scope list_scope.
Open Scope Z_scope.

(** The columns the constructor assigns in the rides table. *)
Definition assigned_columns : list string :=
  ["end_station_id"; "started_at"; "ended_at"; "ride_duration";
   "ride_duration_normalized"].

(** What the constructor makes of one complete input row, given the mean
    and the standard deviation of the durations. *)
Definition cleaned_ride (mean deviation : Float.float) (r : row) : row :=
  let r := set "end_station_id" (astype_str (get "end_station_id" r)) r in
  let r := set "started_at" (T (to_datetime (get "started_at" r))) r in
  let r := set "ended_at" (T (to_datetime (get "ended_at" r))) r in
  let d := ride_duration r in
  set "ride_duration_normalized"
      (F (Float.div (Float.sub d mean) deviation))
      (set "ride_duration" (F d) r).

(** A row has all eight station cells. *)
Definition has_stations (r : row) : bool :=
  forallb (fun c => negb (isna (get c r))) station_columns.

End RideVocabulary.

Module PricedDataset.

Open Scope string_scope.
Open Scope list_scope.
Open Scope Z_scope.

(** The calculator of tests/modeling over the dataset [ds]. *)
Definition calculator_over (ds : CitibikeDataset.t) : PriceCalculator.t :=
  PriceCalculator.Calculator ds 30 (Float.Finite 5000)
                             (Float.Finite (1 # 1000)).

(** A directory with a file that does not read and the rides. *)
Definition mixed_directory : list (string * CitibikeDataset.file) :=
  [("notes.csv", TestRides.unreadable); ("RIDES.CSV", TestRides.rides_csv)].

End PricedDataset.

Module AlignedData.

Import Pandas TestDoubles.
Open Scope string_scope.
Open Scope list_scope.
Open Scope Z_scope.

Definition station (x y : Q) : row :=
  [("x_centered", num x); ("y_centered", num y)].

(** Two stations at the corners of a box of side 20, around the center
    (100, 200). *)
Definition two_stations : CitibikeDataset.t :=
  CitibikeDataset.Dataset
    (Frame [] []) (Frame [] [])
    (Frame ["x_centered"; "y_centered"]
           [(0, station (-10) (-10)); (1, station 10 10)])
    Float.NaN Float.NaN (Float.Finite 100) (Float.Finite 200).

(** The same center, and no station. *)
Definition no_station : CitibikeDataset.t :=
  CitibikeDataset.Dataset
    (Frame [] []) (Frame [] [])
    (Frame ["x_centered"; "y_centered"] [])
    Float.NaN Float.NaN (Float.Finite 100) (Float.Finite 200).

(** A crash inside the box of the stations and one outside. *)
Definition projected_crashes : DataFrame :=
  Frame ["x"; "y"]
        [(0, [("x", num 105); ("y", num 195)]);
         (1, [("x", num 150); ("y", num 200)])].

End AlignedData.

(* ================================================================== *)
(** * Properties *)

(** ** Calls that return *)

Lemma bind_Returns {A B} (c : Py.outcome A) (k : A -> Py.outcome B) (b : B) :
  Py.bind c k = Py.Returns b ->
  exists a, c = Py.Returns a /\ k a = Py.Returns b.
Proof.
  destruct c as [a|e]; simpl; intros E; [eauto | discriminate].
Qed.

Section Outcome.
Import Py.
Context {A B : Type}.

Lemma mapM_Forall2 (f : A -> outcome B) (l : list A) (bs : list B) :
  mapM f l = Returns bs -> Forall2 (fun a b => f a = Returns b) l bs.
Proof.
  revert bs; induction l as [|a l IH]; simpl; intros bs E.
  - injection E as <-. constructor.
  - apply bind_Returns in E as (b & Eb & E).
    destruct (mapM f l) as [bs'|e] eqn:El; simpl in E; [|discriminate].
    injection E as <-. constructor; auto.
Qed.

Lemma mapM_length (f : A -> outcome B) (l : list A) (bs : list B) :
  mapM f l = Returns bs -> List.length bs = List.length l.
Proof.
  intros E. apply mapM_Forall2 in E. symmetry.
  induction E; simpl; congruence.
Qed.

Lemma mapM_total (f : A -> outcome B) (l : list A) :
  (forall a, In a l -> exists b, f a = Returns b) ->
  exists bs, mapM f l = Returns bs.
Proof.
  induction l as [|a l IH]; simpl; intros Hf.
  - eauto.
  - destruct (Hf a (or_introl eq_refl)) as (b & ->).
    destruct IH as (bs & ->); [intros; apply Hf; auto|].
    simpl. eauto.
Qed.

Lemma mapM_pure (f : A -> outcome B) (g : A -> B) (l : list A) :
  (forall a, In a l -> f a = Returns (g a)) ->
  mapM f l = Returns (map g l).
Proof.
  induction l as [|a l IH]; simpl; intros Hf; [reflexivity|].
  rewrite Hf by auto. rewrite IH by auto. reflexivity.
Qed.

End Outcome.

(** ** Float reductions over finite values *)

Section FloatFacts.
Import Float.

Lemma ltb_Finite (x y : Q) : ltb (Finite x) (Finite y) = true <-> (x < y)%Q.
Proof.
  unfold ltb; simpl. rewrite Qlt_alt.
  destruct (x ?= y)%Q; intuition discriminate.
Qed.

Lemma ltb_Finite_false (x y : Q) :
  ltb (Finite x) (Finite y) = false <-> (y <= x)%Q.
Proof.
  rewrite <- not_true_iff_false, ltb_Finite. split.
  - apply Qnot_lt_le.
  - intros Hle Hlt. apply (Qlt_irrefl x). eapply Qlt_le_trans; eauto.
Qed.

(** The running minimum stays a member of what was read and below it. *)
Lemma fold_min2_finite (l : list float) (a : Q) :
  all_finite l ->
  exists m, fold_left min2 l (Finite a) = Finite m /\
            (m = a \/ In (Finite m) l) /\
            (m <= a)%Q /\
            forall x, In (Finite x) l -> (m <= x)%Q.
Proof.
  revert a; induction l as [|b l IH]; simpl; intros a Hl.
  - exists a. repeat split; auto using Qle_refl. tauto.
  - inversion Hl as [|b' l' Hb Hl']; subst.
    destruct b as [y| | |]; try discriminate. unfold min2; simpl.
    destruct (ltb (Finite y) (Finite a)) eqn:Hlt.
    + apply ltb_Finite in Hlt.
      destruct (IH y Hl') as (m & E & Hin & Hle & Hall).
      exists m. repeat split; auto.
      * destruct Hin as [->|Hin]; simpl; auto.
      * apply Qlt_le_weak in Hlt. eapply Qle_trans; eauto.
      * intros x [Hx|Hx]; [injection Hx as <-; auto | auto].
    + apply ltb_Finite_false in Hlt.
      destruct (IH a Hl') as (m & E & Hin & Hle & Hall).
      exists m. repeat split; auto.
      * destruct Hin as [->|Hin]; simpl; auto.
      * intros x [Hx|Hx]; [injection Hx as <-|auto].
        eapply Qle_trans; eauto.
Qed.

Lemma fold_max2_finite (l : list float) (a : Q) :
  all_finite l ->
  exists m, fold_left max2 l (Finite a) = Finite m /\
            (m = a \/ In (Finite m) l) /\
            (a <= m)%Q /\
            forall x, In (Finite x) l -> (x <= m)%Q.
Proof.
  revert a; induction l as [|b l IH]; simpl; intros a Hl.
  - exists a. repeat split; auto using Qle_refl. tauto.
  - inversion Hl as [|b' l' Hb Hl']; subst.
    destruct b as [y| | |]; try discriminate. unfold max2; simpl.
    destruct (ltb (Finite a) (Finite y)) eqn:Hlt.
    + apply ltb_Finite in Hlt.
      destruct (IH y Hl') as (m & E & Hin & Hle & Hall).
      exists m. repeat split; auto.
      * destruct Hin as [->|Hin]; simpl; auto.
      * apply Qlt_le_weak in Hlt. eapply Qle_trans; eauto.
      * intros x [Hx|Hx]; [injection Hx as <-; auto | auto].
    + apply ltb_Finite_false in Hlt.
      destruct (IH a Hl') as (m & E & Hin & Hle & Hall).
      exists m. repeat split; auto.
      * destruct Hin as [->|Hin]; simpl; auto.
      * intros x [Hx|Hx]; [injection Hx as <-|auto].
        eapply Qle_trans; eauto.
Qed.

Lemma min_finite (l : list float) :
  all_finite l -> l <> [] ->
  exists m, Float.min l = Finite m /\ In (Finite m) l /\
            forall x, In (Finite x) l -> (m <= x)%Q.
Proof.
  intros Hl Hne. destruct l as [|b l]; [congruence|].
  inversion Hl as [|b' l' Hb Hl']; subst.
  destruct b as [y| | |]; try discriminate.
  unfold Float.min; simpl.
  destruct (fold_min2_finite l y Hl') as (m & E & Hin & Hle & Hall).
  exists m. repeat split; auto.
  - destruct Hin as [->|Hin]; simpl; auto.
  - intros x [Hx|Hx]; [injection Hx as <-; auto | auto].
Qed.

Lemma max_finite (l : list float) :
  all_finite l -> l <> [] ->
  exists m, Float.max l = Finite m /\ In (Finite m) l /\
            forall x, In (Finite x) l -> (x <= m)%Q.
Proof.
  intros Hl Hne. destruct l as [|b l]; [congruence|].
  inversion Hl as [|b' l' Hb Hl']; subst.
  destruct b as [y| | |]; try discriminate.
  unfold Float.max; simpl.
  destruct (fold_max2_finite l y Hl') as (m & E & Hin & Hle & Hall).
  exists m. repeat split; auto.
  - destruct Hin as [->|Hin]; simpl; auto.
  - intros x [Hx|Hx]; [injection Hx as <-; auto | auto].
Qed.

End FloatFacts.

(** ** groupby(...).size() *)

Section GroupBy.
Import BikeCrashDataset.




Lemma count_key_occupied (keys : list key) (k : key) groups :
  Forall (occupied keys) groups ->
  Forall (occupied (k :: keys)) (count_key k groups).
Proof.
  assert (Hw : forall g, occupied keys g -> occupied (k :: keys) g).
  { intros g [Hin Hn]; split; simpl; auto. }
  induction groups as [|[k' n] groups IH]; simpl; intros Hg.
  - repeat constructor; simpl; auto. lia.
  - inversion Hg as [|g gs [Hin Hn] Hgs]; subst; simpl in *.
    destruct (key_compare k k').
    + constructor; [split; simpl; [right; exact Hin | lia]|].
      eapply Forall_impl; eauto.
    + constructor; [split; simpl; [left; reflexivity | lia]|].
      constructor; [split; simpl; [right; exact Hin | exact Hn]|].
      eapply Forall_impl; eauto.
    + constructor; [split; simpl; [right; exact Hin | exact Hn]|]. auto.
Qed.

Lemma fold_count_key_occupied (keys seen : list key) groups :
  Forall (occupied seen) groups ->
  Forall (occupied (rev keys ++ seen))
         (fold_left (fun g k => count_key k g) keys groups).
Proof.
  revert seen groups; induction keys as [|k keys IH]; intros seen groups Hg.
  - exact Hg.
  - cbn [fold_left rev]. rewrite <- app_assoc. simpl.
    apply IH. apply count_key_occupied, Hg.
Qed.

Lemma groupby_size_occupied (keys : list key) :
  Forall (occupied keys) (groupby_size keys).
Proof.
  pose proof (fold_count_key_occupied keys [] [] (Forall_nil _)) as Hf.
  rewrite app_nil_r in Hf. unfold groupby_size.
  eapply Forall_impl; [|exact Hf].
  intros g [Hin Hn]; split; auto. apply in_rev, Hin.
Qed.

End GroupBy.

(** ** The grid of spatio_temporal_rasterization *)

Section Binning.
Import Py Pandas BikeCrashDataset CrashData.
Open Scope string_scope.
Open Scope list_scope.
Open Scope Z_scope.

Lemma mapM_map {A B C} (f : B -> outcome C) (g : A -> B) (l : list A) :
  mapM f (map g l) = mapM (fun a => f (g a)) l.
Proof.
  induction l as [|a l IH]; simpl; [reflexivity|]. rewrite IH. reflexivity.
Qed.

Lemma as_float_finite (c : cell) (q : Q) :
  finite_value c = Some q -> as_float c = Returns (Float.Finite q).
Proof.
  destruct c as [[x| | |]|z|s|t]; simpl; intros E; try discriminate;
    injection E as <-; reflexivity.
Qed.

Lemma floats_carried (df : DataFrame) (c : string) :
  has_column df c = true ->
  (forall ir, In ir (rows df) -> finite_value (get c (snd ir)) <> None) ->
  floats df c = Returns (map (fun ir => Float.Finite (coord c ir)) (rows df)).
Proof.
  intros Hc Hfin. unfold floats, getitem. rewrite Hc. simpl.
  rewrite mapM_map. apply mapM_pure. intros ir Hin. unfold coord.
  specialize (Hfin ir Hin).
  destruct (finite_value (get c (snd ir))) as [q|] eqn:E; [|congruence].
  apply as_float_finite, E.
Qed.

Lemma all_finite_coords (c : string) (l : list (Z * row)) :
  all_finite (map (fun ir => Float.Finite (coord c ir)) l).
Proof. apply Forall_forall. intros a Ha. apply in_map_iff in Ha as (ir & <- & _). reflexivity. Qed.

Lemma In_Finite_coord (c : string) (l : list (Z * row)) (x : Q) :
  In (Float.Finite x) (map (fun ir => Float.Finite (coord c ir)) l) <->
  exists ir, In ir l /\ coord c ir = x.
Proof.
  rewrite in_map_iff. split.
  - intros (ir & E & Hin). injection E as <-. eauto.
  - intros (ir & Hin & <-). eauto.
Qed.

(** A column that is not constant has its minimum strictly below its
    maximum, and both are attained. *)
Lemma range_of_varying_column (df : DataFrame) (c : string) :
  not_all_equal c df = true ->
  exists lo hi,
    Float.min (map (fun ir => Float.Finite (coord c ir)) (rows df))
      = Float.Finite lo /\
    Float.max (map (fun ir => Float.Finite (coord c ir)) (rows df))
      = Float.Finite hi /\
    (lo < hi)%Q /\
    (exists ir, In ir (rows df) /\ coord c ir = hi) /\
    (forall ir, In ir (rows df) -> (lo <= coord c ir <= hi)%Q).
Proof.
  unfold not_all_equal. intros Hv.
  apply existsb_exists in Hv as (ir1 & Hin1 & Hv).
  apply existsb_exists in Hv as (ir2 & Hin2 & Hv).
  assert (Hne : map (fun ir => Float.Finite (coord c ir)) (rows df) <> []).
  { destruct (rows df); [contradiction | discriminate]. }
  destruct (min_finite _ (all_finite_coords c (rows df)) Hne)
    as (lo & Elo & _ & Hlo).
  destruct (max_finite _ (all_finite_coords c (rows df)) Hne)
    as (hi & Ehi & Hhi_in & Hhi).
  exists lo, hi. repeat split; auto.
  - assert (H1 : (lo <= coord c ir1 <= hi)%Q)
      by (split; [apply Hlo | apply Hhi]; apply In_Finite_coord; eauto).
    assert (H2 : (lo <= coord c ir2 <= hi)%Q)
      by (split; [apply Hlo | apply Hhi]; apply In_Finite_coord; eauto).
    destruct (Qlt_le_dec lo hi) as [Hlt|Hge]; [exact Hlt|exfalso].
    unfold differ, coord in *.
    destruct (finite_value (get c (snd ir1))) as [a|]; [|discriminate].
    destruct (finite_value (get c (snd ir2))) as [b|]; [|discriminate].
    apply negb_true_iff, Qeq_bool_neq in Hv. apply Hv.
    apply Qle_antisym.
    + apply Qle_trans with hi; [tauto|]. apply Qle_trans with lo; tauto.
    + apply Qle_trans with hi; [tauto|]. apply Qle_trans with lo; tauto.
  - apply In_Finite_coord, Hhi_in.
  - apply Hlo, In_Finite_coord; eauto.
  - apply Hhi, In_Finite_coord; eauto.
Qed.

Lemma inject_Z_nonzero (z : Z) : z <> 0 -> Qeq_bool (inject_Z z) 0 = false.
Proof.
  intros Hz. apply not_true_iff_false. intros E.
  apply Qeq_bool_eq in E. unfold Qeq in E; simpl in E. lia.
Qed.

Lemma Qsgn_pos (d : Q) : (0 < d)%Q -> Float.signed_inf (Float.Qsgn d) = Float.PosInf.
Proof.
  unfold Qlt, Float.Qsgn. simpl. intros Hd.
  destruct (Qnum d); try lia. reflexivity.
Qed.

(** The bin size of a non-degenerate range: +inf for [bins = 0] and a
    non-zero quotient otherwise. *)
Lemma bin_size_cases (lo hi : Q) (bins : Z) :
  (lo < hi)%Q ->
  (bins = 0 /\ bin_size lo hi bins = Float.PosInf) \/
  (bins <> 0 /\
   bin_size lo hi bins = Float.Finite ((hi + - lo) / inject_Z bins) /\
   Qeq_bool ((hi + - lo) / inject_Z bins) 0 = false).
Proof.
  intros Hlt. unfold bin_size, Float.sub, Float.of_Z.
  cbn [Float.neg Float.add Float.div].
  assert (Hd : (0 < hi + - lo)%Q).
  { apply (Qplus_lt_l _ _ lo). ring_simplify. exact Hlt. }
  destruct (Z.eq_dec bins 0) as [->|Hb].
  - left. split; [reflexivity|].
    change (Qeq_bool (inject_Z 0) 0) with true. cbv iota.
    apply Qsgn_pos, Hd.
  - right. split; [exact Hb|]. rewrite inject_Z_nonzero by exact Hb.
    split; [reflexivity|].
    apply not_true_iff_false. intros E. apply Qeq_bool_eq in E.
    apply Qmult_integral in E as [E|E].
    + rewrite E in Hd. apply (Qlt_irrefl 0), Hd.
    + assert (E' : inject_Z bins == 0).
      { rewrite <- (Qinv_involutive (inject_Z bins)), E. reflexivity. }
      unfold Qeq in E'; simpl in E'. lia.
Qed.

Lemma bin_of_returns (lo : Q) (size : Float.float) (x : Q) :
  size = Float.PosInf \/
  (exists s, size = Float.Finite s /\ Qeq_bool s 0 = false) ->
  exists k, bin_of (Float.Finite lo) size (Float.Finite x) = Returns k.
Proof.
  intros [->|(s & -> & Hs)]; unfold bin_of, Float.sub; simpl.
  - eauto.
  - rewrite Hs. simpl. eauto.
Qed.

Lemma bin_size_usable (lo hi : Q) (bins : Z) :
  (lo < hi)%Q ->
  bin_size lo hi bins = Float.PosInf \/
  (exists s, bin_size lo hi bins = Float.Finite s /\ Qeq_bool s 0 = false).
Proof.
  intros Hlt. destruct (bin_size_cases lo hi bins Hlt) as [[_ E]|(_ & E & Hs)];
    [left | right]; eauto.
Qed.

Lemma astype_int_inject (z : Z) :
  Float.astype_int (Float.Finite (inject_Z z)) = Returns z.
Proof. simpl. rewrite Z.quot_1_r. reflexivity. Qed.



Lemma clock_text_parses (c : cell) :
  clock_text c = true -> exists m, apply_time_to_minutes c = Returns m.
Proof.
  destruct c as [x|z|s|t]; simpl; try discriminate.
  unfold time_to_minutes, is_int.
  destruct (split ":" s) as [|h [|m [|? ?]]]; try discriminate.
  destruct (int h) as [hv|]; [|discriminate].
  destruct (int m) as [mv|]; [|intros E; rewrite andb_false_r in E; discriminate].
  simpl. eauto.
Qed.





Lemma Forall2_In_r {A B} (R : A -> B -> Prop) l l' b :
  Forall2 R l l' -> In b l' -> exists a, In a l /\ R a b.
Proof.
  induction 1 as [|x y l l' Hxy HF IH]; simpl; [tauto|].
  intros [<-|Hin]; [eauto|]. destruct (IH Hin) as (a & Ha & HR). eauto.
Qed.

Lemma Forall2_In_l {A B} (R : A -> B -> Prop) l l' a :
  Forall2 R l l' -> In a l -> exists b, In b l' /\ R a b.
Proof.
  induction 1 as [|x y l l' Hxy HF IH]; simpl; [tauto|].
  intros [<-|Hin]; [eauto|]. destruct (IH Hin) as (b & Hb & HR). eauto.
Qed.


End Binning.

(** ** spatio_temporal_rasterization *)

Section Rasterization.
Import Py Pandas BikeCrashDataset CrashData.
Open Scope string_scope.
Open Scope list_scope.
Open Scope Z_scope.

Lemma relabel_rows (i : Z) (l : list (Z * row)) :
  map snd (relabel i l) = map snd l.
Proof.
  revert i; induction l as [|[j r] l IH]; intros i; simpl;
    [reflexivity | rewrite IH; reflexivity].
Qed.

Lemma rasterization_unfold (df : DataFrame) (bins time_bin_size : Z) raster :
  spatio_temporal_rasterization df bins time_bin_size = Returns raster ->
  exists b,
    binning df bins time_bin_size = Returns b /\
    map snd (rows raster)
    = map (raster_row b time_bin_size) (groupby_size (bin_keys b)).
Proof.
  unfold spatio_temporal_rasterization. intros E.
  apply bind_Returns in E as (b & Eb & E). injection E as <-.
  exists b. split; [exact Eb|].
  unfold reset_index; simpl. rewrite relabel_rows, map_map. reflexivity.
Qed.

Lemma crash_count_of_raster_row (b : binned) (t : Z) (g : key * Z) :
  get "crash_count" (raster_row b t g) = I (snd g).
Proof. destruct g as [[[xb yb] tb] n]. reflexivity. Qed.

Lemma crash_counts_of_groups (raster : DataFrame) (b : binned) (t : Z) groups :
  map snd (rows raster) = map (raster_row b t) groups ->
  crash_counts raster = map snd groups.
Proof.
  unfold crash_counts. intros E.
  rewrite <- (map_map snd (fun r => match get "crash_count" r with
                                    | I n => n
                                    | _ => 0
                                    end)), E, map_map.
  apply map_ext. intros g. rewrite crash_count_of_raster_row. reflexivity.
Qed.




(** C9: every row of the raster that spatio_temporal_rasterization returns
    has an integer crash_count of at least 1, and is the row of a bin
    triple that some crash row of the frame falls in: bins without a
    crash do not occur in the output. *)
Theorem raster_has_no_empty_bin
  (df : DataFrame) (bins time_bin_size : Z) (raster : DataFrame) :
  spatio_temporal_rasterization df bins time_bin_size = Returns raster ->
  exists b,
    binning df bins time_bin_size = Returns b /\
    Forall (fun ir =>
              exists k n,
                snd ir = raster_row b time_bin_size (k, n) /\
                In k (bin_keys b) /\
                get "crash_count" (snd ir) = I n /\ 1 <= n)
           (rows raster).
Proof.
  intros Er. apply rasterization_unfold in Er as (b & Eb & Erows).
  exists b. split; [exact Eb|].
  apply Forall_forall. intros ir Hin.
  assert (Hr : In (snd ir) (map snd (rows raster))) by (apply in_map, Hin).
  rewrite Erows in Hr. apply in_map_iff in Hr as ([k n] & Er & Hg).
  pose proof (groupby_size_occupied (bin_keys b)) as Hocc.
  rewrite Forall_forall in Hocc. destruct (Hocc _ Hg) as [Hk Hn].
  exists k, n. rewrite <- Er. repeat split; auto.
  apply (crash_count_of_raster_row b time_bin_size (k, n)).
Qed.

Lemma raster_has_no_empty_bin_witness :
  exists raster b,
    spatio_temporal_rasterization three_crashes 8 15 = Returns raster /\
    binning three_crashes 8 15 = Returns b /\
    List.length (rows raster) = 2%nat /\
    Forall (fun ir =>
              exists k n,
                snd ir = raster_row b 15 (k, n) /\
                In k (bin_keys b) /\
                get "crash_count" (snd ir) = I n /\ 1 <= n)
           (rows raster).
Proof.
  destruct (spatio_temporal_rasterization three_crashes 8 15)
    as [raster|e] eqn:Er; [|discriminate Er].
  destruct (raster_has_no_empty_bin three_crashes 8 15 raster Er)
    as (b & Eb & Hrows).
  exists raster, b. repeat split; auto.
  vm_compute in Er. injection Er as <-. reflexivity.
Defined.





End Rasterization.

(** ** Boolean masks and column assignment *)

Section Masks.
Import Py Pandas BikeCrashDataset.
Context `{Libraries}.
Open Scope string_scope.
Open Scope list_scope.
Open Scope Z_scope.

Lemma mapM_as_map {A B} (d : B) (f : A -> outcome B) (l : list A) bs :
  mapM f l = Returns bs ->
  bs = map (fun a => match f a with Returns b => b | Raises _ => d end) l.
Proof.
  intros E. apply mapM_Forall2 in E.
  induction E as [|a b l bs Hab _ IH]; simpl; [reflexivity|].
  rewrite Hab, <- IH. reflexivity.
Qed.

Lemma or_mask_map {A} (f g : A -> bool) (l : list A) :
  or_mask (map f l) (map g l) = map (fun a => f a || g a) l.
Proof.
  unfold or_mask. induction l as [|a l IH]; simpl; [reflexivity|].
  rewrite IH. reflexivity.
Qed.

Lemma and_mask_map {A} (f g : A -> bool) (l : list A) :
  and_mask (map f l) (map g l) = map (fun a => f a && g a) l.
Proof.
  unfold and_mask. induction l as [|a l IH]; simpl; [reflexivity|].
  rewrite IH. reflexivity.
Qed.

Lemma repeat_as_map {A B} (b : B) (l : list A) :
  repeat b (List.length l) = map (fun _ => b) l.
Proof. induction l; simpl; congruence. Qed.

Lemma select_mask_map {A} (f : A -> bool) (l : list A) :
  select_mask (map f l) l = filter f l.
Proof.
  induction l as [|a l IH]; simpl; [reflexivity|].
  rewrite IH. reflexivity.
Qed.

Lemma get_gt0_as_map (df : DataFrame) (c : string) (m : list bool) :
  get_gt0 df c = Returns m ->
  m = map (fun ir => gt0_at df c (snd ir)) (rows df).
Proof.
  unfold get_gt0, gt0_at. destruct (has_column df c); intros E.
  - apply (mapM_as_map false) in E. exact E.
  - injection E as <-. apply repeat_as_map.
Qed.

Lemma fold_or_mask_columns {A} (p : string -> bool)
  (f : string -> A -> bool) (cols : list string) (g : A -> bool)
  (l : list A) :
  fold_left or_mask
    (flat_map (fun col => if p col then [map (f col) l] else []) cols)
    (map g l)
  = map (fun a => g a || existsb (fun col => p col && f col a) cols) l.
Proof.
  revert g; induction cols as [|col cols IH]; intros g; simpl.
  - apply map_ext. intros a. rewrite orb_false_r. reflexivity.
  - destruct (p col); simpl.
    + rewrite or_mask_map, IH. apply map_ext. intros a.
      rewrite orb_assoc. reflexivity.
    + apply IH.
Qed.

Lemma vehicle_condition_as_map (df : DataFrame) :
  vehicle_condition df = map (fun ir => vehicle_at df (snd ir)) (rows df).
Proof.
  unfold vehicle_condition, vehicle_conditions, vehicle_at.
  rewrite repeat_as_map.
  rewrite (fold_or_mask_columns (has_column df)
             (fun col ir => contains_bike (get col (snd ir)))).
  apply map_ext. intros ir. reflexivity.
Qed.

Lemma get_set_same (c : string) (v : cell) (r : row) :
  get c (set c v r) = v.
Proof.
  induction r as [|[c' v'] r IH]; simpl.
  - rewrite String.eqb_refl. reflexivity.
  - destruct (String.eqb c c') eqn:E; simpl.
    + rewrite String.eqb_refl. reflexivity.
    + rewrite E. exact IH.
Qed.

Lemma get_set_other (c c' : string) (v : cell) (r : row) :
  c' <> c -> get c' (set c v r) = get c' r.
Proof.
  intros Hne. induction r as [|[c0 v0] r IH]; simpl.
  - apply String.eqb_neq in Hne. rewrite Hne. reflexivity.
  - destruct (String.eqb c c0) eqn:E; simpl.
    + apply String.eqb_eq in E. subst c0.
      apply String.eqb_neq in Hne. rewrite Hne. reflexivity.
    + destruct (String.eqb c' c0); [reflexivity | exact IH].
Qed.

Lemma set_rows_length (c : string) (vals : list cell) (l : list (Z * row)) :
  List.length vals = List.length l ->
  List.length (set_rows c vals l) = List.length l.
Proof.
  revert vals; induction l as [|[i r] l IH]; intros [|v vals]; simpl;
    intros E; try discriminate; auto.
Qed.

(** A row after [df[c] = vals] is a row of [df] with only [c] changed. *)
Lemma set_rows_In (c : string) (vals : list cell) (l : list (Z * row)) ir :
  In ir (set_rows c vals l) ->
  exists r, In (fst ir, r) l /\
            forall c', c' <> c -> get c' (snd ir) = get c' r.
Proof.
  revert vals; induction l as [|[i r] l IH]; intros [|v vals]; simpl;
    try tauto.
  intros [<-|Hin].
  - exists r. split; [auto|]. intros c' Hne. apply get_set_other, Hne.
  - destruct (IH vals Hin) as (r' & Hr' & Hget). eauto.
Qed.

Lemma set_rows_get_In (c : string) vals l ir :
  In ir (set_rows c vals l) -> In (get c (snd ir)) vals.
Proof.
  revert vals; induction l as [|[i r] l IH]; intros [|v vals]; simpl;
    try tauto.
  intros [<-|Hin]; simpl.
  - left. symmetry. apply get_set_same.
  - right. apply (IH vals), Hin.
Qed.

Lemma In_fst_snd {A B} (p : A * B) (l : list (A * B)) :
  In p l -> In (fst p, snd p) l.
Proof. destruct p; auto. Qed.

End Masks.

(** ** BikeCrashDataset._process_dataset *)

Section ProcessDataset.
Import Py Pandas BikeCrashDataset.
Context `{Libraries}.
Open Scope string_scope.
Open Scope list_scope.
Open Scope Z_scope.

Lemma gt0_at_hurt (raw : DataFrame) (c : string) (r : row) :
  gt0_at raw c r = true -> cyclist_hurt raw c r.
Proof.
  unfold gt0_at, cyclist_hurt, gt0. intros E.
  apply andb_prop in E as [Hc E]. split; [exact Hc|].
  destruct (as_float (get c r)) as [x|e]; simpl in E; [|discriminate].
  eauto.
Qed.

Lemma vehicle_at_bike (raw : DataFrame) (r : row) :
  vehicle_at raw r = true ->
  exists col t,
    In col vehicle_cols /\ has_column raw col = true /\
    In t ["bic"; "bik"] /\
    contains t (lower (astype_str (get col r))) = true.
Proof.
  unfold vehicle_at. intros E.
  apply existsb_exists in E as (col & Hcol & E).
  apply andb_prop in E as [Hc E]. unfold contains_bike in E.
  apply orb_prop in E as [E|E]; [exists col, "bic" | exists col, "bik"];
    repeat split; simpl; auto.
Qed.

Lemma process_dataset_rows (raw df : DataFrame) :
  _process_dataset raw = Returns df ->
  columns df = REQUIRED_COLUMNS /\ Forall (processed_row raw) (rows df).
Proof.
  unfold _process_dataset. intros E.
  apply bind_Returns in E as (injured & Einj & E).
  apply bind_Returns in E as (killed & Ekil & E).
  apply get_gt0_as_map in Einj, Ekil. subst injured killed.
  rewrite vehicle_condition_as_map, !or_mask_map in E.
  unfold loc_mask in E. rewrite select_mask_map in E.
  apply bind_Returns in E as (df2 & E2 & E).
  unfold dropna_subset in E2. cbn [columns rows] in E2.
  match type of E2 with (if ?b then _ else _) = _ =>
    destruct b; [|discriminate] end.
  injection E2 as <-. cbn [columns rows] in E.
  rewrite and_mask_map, select_mask_map in E.
  apply bind_Returns in E as (texts & Etexts & E).
  apply mapM_length in Etexts.
  apply bind_Returns in E as (lng & Elng & E).
  apply bind_Returns in E as (lat & Elat & E).
  unfold floats in Elng, Elat.
  apply bind_Returns in Elng as (clng & Eclng & Elng).
  apply bind_Returns in Elat as (clat & Eclat & Elat).
  apply mapM_length in Elng, Elat.
  unfold getitem in Eclng, Eclat.
  match type of Eclng with (if ?b then _ else _) = _ =>
    destruct b; [|discriminate] end.
  match type of Eclat with (if ?b then _ else _) = _ =>
    destruct b; [|discriminate] end.
  injection Eclng as <-. injection Eclat as <-.
  rewrite length_map in Elng, Elat. cbn [setitem rows] in Elng, Elat.
  rewrite set_rows_length in Elng, Elat
    by (rewrite length_map; exact Etexts).
  unfold select in E.
  match type of E with (if ?b then _ else _) = _ =>
    destruct b; [|discriminate] end.
  injection E as <-. split; [reflexivity|].
  cbn [rows setitem]. apply Forall_forall. intros ir Hin.
  apply in_map_iff in Hin as (ir6 & <- & Hin).
  apply set_rows_In in Hin as (r5 & Hin & Hget6).
  apply set_rows_In in Hin as (r4 & Hin & Hget5).
  apply set_rows_In in Hin as (r3 & Hin & Hget4).
  cbn [fst] in Hin.
  apply filter_In in Hin as [Hin Hne0]. cbn [snd] in Hne0.
  apply filter_In in Hin as [Hin Hna]. cbn [snd] in Hna.
  apply filter_In in Hin as [Hin Hmask]. cbn [snd] in Hmask.
  assert (Hcell : forall c, In c essential_cols ->
            get c (map (fun c0 => (c0, get c0 (snd ir6)))
                       ["CRASH DATE"; "CRASH TIME"; "LATITUDE"; "LONGITUDE";
                        "CRASH_DATETIME"; "x"; "y"]) = get c r3).
  { intros c Hc. simpl in Hc.
    destruct Hc as [<-|[<-|[<-|[<-|[]]]]]; cbn [map get String.eqb
      Ascii.eqb Bool.eqb fst snd];
      (rewrite Hget6 by discriminate); (rewrite Hget5 by discriminate);
      (rewrite Hget4 by discriminate); reflexivity. }
  cbn [map] in Hcell.
  unfold processed_row. cbn [fst snd].
  apply andb_prop in Hne0 as [Hlat Hlng].
  apply negb_true_iff in Hna.
  split; [|split; [|split]].
  - intros c Hc. rewrite (Hcell c Hc).
    destruct (isna (get c r3)) eqn:Ena; [|reflexivity].
    assert (Hex : existsb (fun c => isna (get c r3)) essential_cols = true)
      by (apply existsb_exists; eauto).
    unfold essential_cols in Hex. cbn [existsb] in Hex. congruence.
  - rewrite (Hcell "LATITUDE") by (simpl; auto). exact Hlat.
  - rewrite (Hcell "LONGITUDE") by (simpl; auto). exact Hlng.
  - exists r3. split; [exact Hin|]. split; [exact Hcell|].
    apply orb_prop in Hmask as [Hmask|Hmask];
      [apply orb_prop in Hmask as [Hmask|Hmask]|].
    + left. apply gt0_at_hurt, Hmask.
    + right; left. apply gt0_at_hurt, Hmask.
    + right; right. apply vehicle_at_bike, Hmask.
Qed.

(** C6: for every raw crash table that does not already have all seven
    required columns, the frame that BikeCrashDataset construction leaves
    has exactly the columns CRASH DATE, CRASH TIME, LATITUDE, LONGITUDE,
    CRASH_DATETIME, x, y, and each of its rows has non-null CRASH DATE,
    CRASH TIME, LATITUDE and LONGITUDE, has LATITUDE != 0 and
    LONGITUDE != 0, and is, under its index label, a row of the raw table
    that meets the bike-crash condition. *)
Theorem constructed_rows_are_located_bike_crashes (raw df : DataFrame) :
  _has_required_columns raw = false ->
  __init__ raw = Returns df ->
  columns df = ["CRASH DATE"; "CRASH TIME"; "LATITUDE"; "LONGITUDE";
                "CRASH_DATETIME"; "x"; "y"] /\
  Forall (processed_row raw) (rows df).
Proof.
  unfold __init__. intros Hreq E. rewrite Hreq in E. simpl in E.
  apply process_dataset_rows, E.
Qed.

End ProcessDataset.

Lemma constructed_rows_are_located_bike_crashes_witness :
  exists df,
    BikeCrashDataset.__init__ (H := TestDoubles.libraries)
      TestDoubles.raw_crashes = Py.Returns df /\
    map fst (Pandas.rows df) = [1; 2] /\
    Pandas.columns df
    = ["CRASH DATE"; "CRASH TIME"; "LATITUDE"; "LONGITUDE";
       "CRASH_DATETIME"; "x"; "y"]%string /\
    Forall (processed_row (H := TestDoubles.libraries) TestDoubles.raw_crashes)
           (Pandas.rows df).
Proof.
  destruct (BikeCrashDataset.__init__ (H := TestDoubles.libraries)
              TestDoubles.raw_crashes) as [df|e] eqn:E; [|discriminate E].
  exists df. split; [reflexivity|]. split.
  - vm_compute in E. injection E as <-. reflexivity.
  - apply (constructed_rows_are_located_bike_crashes
             (H := TestDoubles.libraries) TestDoubles.raw_crashes df).
    + reflexivity.
    + exact E.
Defined.

(** ** BikeCrashDataset.citibike_alignment *)

Section Alignment.
Import Py Pandas BikeCrashDataset.
Open Scope string_scope.
Open Scope list_scope.
Open Scope Z_scope.

(** After the alignment the frame has its centered coordinates, and each
    row lies in the bounding box of the stations. *)
Lemma aligned_rows_lie_in_the_station_box
  (df : DataFrame) (ds : CitibikeDataset.t) (aligned : DataFrame) :
  citibike_alignment df ds = Returns aligned ->
  exists sx sy,
    floats (CitibikeDataset.stations ds) "x_centered" = Returns sx /\
    floats (CitibikeDataset.stations ds) "y_centered" = Returns sy /\
    has_column aligned "x_centered" = true /\
    has_column aligned "y_centered" = true /\
    Forall (fun ir =>
              exists x y,
                get "x_centered" (snd ir) = F x /\
                get "y_centered" (snd ir) = F y /\
                within (Float.min sx) (Float.max sx) x = true /\
                within (Float.min sy) (Float.max sy) y = true)
           (rows aligned).
Proof.
  unfold citibike_alignment. intros E.
  apply bind_Returns in E as (xs & _ & E).
  apply bind_Returns in E as (ys & _ & E).
  apply bind_Returns in E as (sx & Esx & E).
  apply bind_Returns in E as (sy & Esy & E).
  apply bind_Returns in E as (xc & Exc & E).
  apply bind_Returns in E as (yc & Eyc & E).
  injection E as <-. exists sx, sy.
  split; [exact Esx|]. split; [exact Esy|].
  unfold floats, getitem in Exc, Eyc.
  match type of Exc with bind (if ?b then _ else _) _ = _ =>
    destruct b eqn:Cx; [|discriminate] end.
  match type of Eyc with bind (if ?b then _ else _) _ = _ =>
    destruct b eqn:Cy; [|discriminate] end.
  split; [exact Cx|]. split; [exact Cy|].
  cbn [bind] in Exc, Eyc. rewrite mapM_map in Exc, Eyc.
  apply (mapM_as_map Float.NaN) in Exc, Eyc. subst xc yc.
  unfold loc_mask. cbn [rows].
  rewrite !map_map, and_mask_map, select_mask_map.
  apply Forall_forall. intros ir Hin.
  apply filter_In in Hin as [Hin Hbox]. apply andb_prop in Hbox as [Hx Hy].
  cbn [rows setitem] in Hin.
  assert (Ey : exists y, get "y_centered" (snd ir) = F y).
  { apply set_rows_get_In in Hin. apply in_map_iff in Hin as (y & <- & _).
    eauto. }
  assert (Ex : exists x, get "x_centered" (snd ir) = F x).
  { apply set_rows_In in Hin as (r & Hin & Hget).
    rewrite Hget by discriminate.
    apply set_rows_get_In in Hin. cbn [snd] in Hin.
    apply in_map_iff in Hin as (x & <- & _). eauto. }
  destruct Ex as (x & Ex). destruct Ey as (y & Ey).
  exists x, y. rewrite Ex in Hx. rewrite Ey in Hy. simpl in Hx, Hy. auto.
Qed.

End Alignment.

(** ** CitibikeDataset: the rows reported as dropped *)

Section DroppedRows.
Import Py Pandas CitibikeDataset.
Open Scope string_scope.
Open Scope list_scope.
Open Scope Z_scope.

Lemma relabel_length (i : Z) (l : list (Z * row)) :
  List.length (relabel i l) = List.length l.
Proof.
  revert i; induction l as [|[j r] l IH]; intros i; simpl; auto.
Qed.

Lemma relabel_idem (i : Z) (l : list (Z * row)) :
  relabel i (relabel i l) = relabel i l.
Proof.
  revert i; induction l as [|[j r] l IH]; intros i; simpl;
    [reflexivity | rewrite IH; reflexivity].
Qed.

(** The labels of a RangeIndex that starts at [i]. *)
Lemma relabel_labels (i : Z) (l : list (Z * row)) (j : Z) :
  existsb (Z.eqb j) (map fst (relabel i l))
  = (i <=? j) && (j <? i + Z.of_nat (List.length l)).
Proof.
  revert i; induction l as [|[j0 r] l IH]; intros i.
  - simpl. destruct (i <=? j) eqn:E1, (j <? i + 0) eqn:E2; try reflexivity.
    apply Z.leb_le in E1. apply Z.ltb_lt in E2. lia.
  - cbn [relabel map fst existsb List.length].
    rewrite IH, Nat2Z.inj_succ.
    destruct (Z.eqb_spec j i), (Z.leb_spec (i + 1) j), (Z.leb_spec i j),
      (Z.ltb_spec j (i + 1 + Z.of_nat (List.length l))),
      (Z.ltb_spec j (i + Z.succ (Z.of_nat (List.length l))));
      simpl; try reflexivity; lia.
Qed.

(** Under a RangeIndex, the rows whose label is not among the first [k]
    labels are the rows after the first [k]. *)
Lemma filter_labels_skipn (i0 : Z) (k : nat) (l : list (Z * row)) (i : Z) :
  i0 <= i ->
  filter (fun ir => negb ((i0 <=? fst ir) && (fst ir <? i0 + Z.of_nat k)))
         (relabel i l)
  = skipn (Z.to_nat (i0 + Z.of_nat k - i)) (relabel i l).
Proof.
  revert i; induction l as [|[j r] l IH]; intros i Hi.
  - simpl. rewrite skipn_nil. reflexivity.
  - cbn [relabel filter fst]. rewrite IH by lia.
    destruct (i0 <=? i) eqn:E1; [|apply Z.leb_gt in E1; lia].
    destruct (i <? i0 + Z.of_nat k) eqn:E2; simpl.
    + apply Z.ltb_lt in E2.
      replace (Z.to_nat (i0 + Z.of_nat k - i))
        with (Datatypes.S (Z.to_nat (i0 + Z.of_nat k - (i + 1)))) by lia.
      reflexivity.
    + apply Z.ltb_ge in E2.
      replace (Z.to_nat (i0 + Z.of_nat k - (i + 1))) with 0%nat by lia.
      replace (Z.to_nat (i0 + Z.of_nat k - i)) with 0%nat by lia.
      reflexivity.
Qed.

(** [dropped] keeps the tail of the original frame: as many rows as the
    cleaning removed, but the last ones, whatever they hold. *)
Lemma dropped_is_tail (cols : list string) (l : list (Z * row)) :
  let original_df := Frame cols (relabel 0 l) in
  let cleaned_df := reset_index (dropna original_df) in
  rows (dropped original_df cleaned_df)
  = skipn (List.length (rows cleaned_df)) (rows original_df).
Proof.
  intros original_df cleaned_df.
  unfold dropped, loc_mask, isin, index. cbn [rows].
  rewrite !map_map.
  rewrite (map_ext _ (fun ir : Z * row =>
             negb ((0 <=? fst ir) &&
                   (fst ir <? 0 + Z.of_nat (List.length (rows cleaned_df)))))).
  - rewrite select_mask_map.
    change (rows original_df) with (relabel 0 l).
    rewrite filter_labels_skipn by lia.
    f_equal. lia.
  - intros ir. unfold cleaned_df, reset_index. cbn [rows].
    rewrite relabel_labels, relabel_length. reflexivity.
Qed.

Lemma filter_length_le {A} (f : A -> bool) (l : list A) :
  (List.length (filter f l) <= List.length l)%nat.
Proof.
  induction l as [|a l IH]; simpl; [lia|]. destruct (f a); simpl; lia.
Qed.

(** The part of C5 that holds: the cleaned rows and the rows reported as
    dropped add up to the input rows. *)
Lemma dropped_count (cols : list string) (l : list (Z * row)) :
  let original_df := Frame cols (relabel 0 l) in
  let cleaned_df := reset_index (dropna original_df) in
  len cleaned_df + len (dropped original_df cleaned_df) = len original_df.
Proof.
  intros original_df cleaned_df. unfold len.
  pose proof (dropped_is_tail cols l) as E. cbv zeta in E.
  fold original_df in E. fold cleaned_df in E. rewrite E.
  rewrite length_skipn.
  assert (List.length (rows cleaned_df) <= List.length (rows original_df))%nat.
  { unfold cleaned_df, reset_index, dropna. cbn [rows].
    rewrite relabel_length. apply filter_length_le. }
  lia.
Qed.

End DroppedRows.

(** C5 fails on the code: the table has three rides, the first without an
    end station id and the other two complete.  Cleaning removes the first
    ride (df_rides keeps the rides "2" and "3"), yet dropped_rows holds the
    ride "3", which has no missing value and is still in df_rides; the
    ride that was removed is not in dropped_rows.  Only the count agrees:
    2 + 1 = 3. *)
Theorem dropped_rows_holds_a_kept_ride :
  exists ds,
    CitibikeDataset.__init__ (H := TestDoubles.libraries) "rides.csv"
      (CitibikeDataset.IsFile TestRides.rides_csv) = Py.Returns ds /\
    map (fun ir => Pandas.get "ride_id" (snd ir))
        (Pandas.rows (CitibikeDataset.df_rides ds))
    = [Pandas.S "2"; Pandas.S "3"] /\
    map (fun ir => Pandas.get "ride_id" (snd ir))
        (Pandas.rows (CitibikeDataset.dropped_rows ds))
    = [Pandas.S "3"] /\
    Forall (fun ir => Pandas.has_na (CitibikeDataset.dropped_rows ds) (snd ir)
                      = false)
           (Pandas.rows (CitibikeDataset.dropped_rows ds)) /\
    Pandas.len (CitibikeDataset.df_rides ds)
    + Pandas.len (CitibikeDataset.dropped_rows ds) = 3.
Proof.
  eexists. split; [vm_compute; reflexivity|].
  repeat split; try reflexivity.
  repeat constructor.
Qed.

(** ** CitibikeDataset: the stations table *)

(** Lengths of assigned columns against the rows they are assigned to. *)
Ltac solve_len :=
  repeat first [ rewrite length_map
               | rewrite length_combine
               | rewrite set_rows_length by solve_len ];
  first [ reflexivity | assumption | lia ].

Section Stations.
Import Py Pandas CitibikeDataset.
Context `{Libraries}.
Open Scope string_scope.
Open Scope list_scope.
Open Scope Z_scope.

Lemma drop_dup_rows_distinct (c : string) (l : list (Z * row)) :
  forall seen,
    pairwise_distinct (ids_of c (drop_dup_rows c seen l)) /\
    Forall (fun b => forall s, In s seen -> same_value b s = false)
           (ids_of c (drop_dup_rows c seen l)).
Proof.
  induction l as [|[i r] l IH]; intros seen; simpl.
  - split; [exact Logic.I | constructor].
  - destruct (existsb (same_value (get c r)) seen) eqn:E.
    + apply IH.
    + destruct (IH (get c r :: seen)) as [Hd Hs]. simpl. repeat split.
      * eapply Forall_impl; [|exact Hs]. intros b Hb. apply Hb. simpl; auto.
      * exact Hd.
      * constructor.
        -- intros s Hin.
           destruct (same_value (get c r) s) eqn:Es; [|reflexivity].
           assert (existsb (same_value (get c r)) seen = true)
             by (apply existsb_exists; eauto).
           congruence.
        -- eapply Forall_impl; [|exact Hs]. intros b Hb s Hin.
           apply Hb. simpl; auto.
Qed.

Lemma drop_duplicates_distinct (df : DataFrame) (c : string) :
  pairwise_distinct (ids_of c (rows (drop_duplicates df c))).
Proof. apply drop_dup_rows_distinct. Qed.

(** Assigning another column leaves the values of column [c'] alone. *)
Lemma set_rows_ids (c c' : string) (vals : list cell) (l : list (Z * row)) :
  c' <> c -> List.length vals = List.length l ->
  ids_of c' (set_rows c vals l) = ids_of c' l.
Proof.
  intros Hne. revert vals; induction l as [|[i r] l IH]; intros [|v vals];
    simpl; intros E; try discriminate; [reflexivity|].
  rewrite get_set_other by exact Hne. rewrite IH by lia. reflexivity.
Qed.

Lemma setitem_ids (df : DataFrame) (c c' : string) (vals : list cell) :
  c' <> c -> List.length vals = List.length (rows df) ->
  ids_of c' (rows (setitem df c vals)) = ids_of c' (rows df).
Proof. intros. apply set_rows_ids; auto. Qed.

Lemma setitem_length (df : DataFrame) (c : string) (vals : list cell) :
  List.length vals = List.length (rows df) ->
  List.length (rows (setitem df c vals)) = List.length (rows df).
Proof. intros. apply set_rows_length; auto. Qed.

Lemma merge_left_ids (df : DataFrame) (c : string) counts (name c' : string) :
  c' <> name ->
  ids_of c' (rows (merge_left df c counts name)) = ids_of c' (rows df).
Proof.
  intros Hne. apply setitem_ids; [exact Hne | apply length_map].
Qed.

Lemma merge_left_length (df : DataFrame) (c : string) counts (name : string) :
  List.length (rows (merge_left df c counts name)) = List.length (rows df).
Proof. apply setitem_length, length_map. Qed.

(** The station ids that [_process_stations] returns are those left by
    [drop_duplicates(subset='station_id')]. *)
Lemma process_stations_ids (df stations : DataFrame) (xc yc : Float.float) :
  _process_stations df = Returns (stations, xc, yc) ->
  exists st0 : DataFrame,
    ids_of "station_id" (rows stations)
    = ids_of "station_id" (rows (drop_duplicates st0 "station_id")).
Proof.
  unfold _process_stations. intros E.
  apply bind_Returns in E as (s & Es & E).
  apply bind_Returns in E as (e & Ee & E).
  apply bind_Returns in E as (start_ids & _ & E).
  apply bind_Returns in E as (end_ids & _ & E).
  apply bind_Returns in E as (sc & Esc & E).
  apply bind_Returns in E as (ec & Eec & E).
  apply bind_Returns in E as (lng & Elng & E).
  apply bind_Returns in E as (lat & Elat & E).
  apply mapM_length in Esc, Eec.
  unfold floats in Elng, Elat.
  apply bind_Returns in Elng as (clng & Eclng & Elng).
  apply bind_Returns in Elat as (clat & Eclat & Elat).
  apply mapM_length in Elng, Elat.
  unfold getitem in Eclng, Eclat.
  match type of Eclng with (if ?b then _ else _) = _ =>
    destruct b; [|discriminate] end.
  match type of Eclat with (if ?b then _ else _) = _ =>
    destruct b; [|discriminate] end.
  injection Eclng as <-. injection Eclat as <-.
  injection E as <- _ _.
  exists (concat [s; e]).
  unfold merge_left, drop_duplicates, concat in *.
  cbn [rows setitem flat_map] in *.
  rewrite ?length_map in *.
  rewrite !set_rows_length in Esc by solve_len.
  rewrite !set_rows_length in Eec by solve_len.
  rewrite !set_rows_length in Elng by solve_len.
  rewrite !set_rows_length in Elat by solve_len.
  repeat (rewrite set_rows_ids; [| discriminate | solve_len]).
  reflexivity.
Qed.

End Stations.

(** ** DensityEstimator.normalized_histogram2d *)

Section Density.
Import Py DensityEstimator.
Open Scope string_scope.
Open Scope list_scope.
Open Scope Z_scope.

Lemma np_histogram2d_counts sample bins xlo xhi ylo yhi (h : array) :
  np_histogram2d sample bins xlo xhi ylo yhi = Returns h ->
  Forall (Forall is_count) h.
Proof.
  unfold np_histogram2d. destruct (bins <? 1); [discriminate|].
  destruct (Qle_bool xlo xhi && Qle_bool ylo yhi); [|discriminate].
  intros E. injection E as <-.
  apply Forall_forall. intros r Hr. apply in_map_iff in Hr as (i & <- & _).
  apply Forall_forall. intros c Hc. apply in_map_iff in Hc as (j & <- & _).
  eexists. split; [reflexivity | lia].
Qed.

Lemma normalized_cell_finite (num den : Float.float) :
  is_count num -> is_count den ->
  Float.isfinite (normalized_cell num den) = true.
Proof.
  intros (n & -> & Hn) (d & -> & Hd). unfold normalized_cell.
  destruct (Float.ltb (Float.of_Z d) (Float.of_Z 1)) eqn:E; [reflexivity|].
  apply ltb_Finite_false in E. rewrite <- Zle_Qle in E.
  unfold Float.of_Z, Float.div. rewrite inject_Z_nonzero by lia. reflexivity.
Qed.

Lemma map2_Forall {A B C} (f : A -> B -> C) (P : A -> Prop) (Q : B -> Prop)
  (R : C -> Prop) (a : list A) (b : list B) :
  (forall x y, P x -> Q y -> R (f x y)) ->
  Forall P a -> Forall Q b -> Forall R (map2 f a b).
Proof.
  intros Hf Ha; revert b; induction Ha as [|x a Hx Ha IH]; intros b Hb;
    simpl; [constructor|].
  destruct Hb as [|y b Hy Hb]; constructor; auto.
Qed.

(** C3 fails on the code: whenever normalized_histogram2d returns, its
    value is None and not the normalized array.  The array itself is
    computed as the claim says (0 where the denominator count is below 1,
    the ratio of the counts elsewhere, every cell finite), but it is only
    handed to plot_heatmap. *)
Theorem normalized_histogram2d_returns_None
  (numerator denominator : t) (bins : Z) (title : string)
  (plots : list heatmap) (v : value) :
  normalized_histogram2d numerator denominator bins title
  = Returns (plots, v) ->
  v = PyNone /\
  exists H_num H_den,
    np_histogram2d (data numerator) bins
      (x_min denominator) (x_max denominator)
      (y_min denominator) (y_max denominator) = Returns H_num /\
    histogram2d denominator bins = Returns H_den /\
    map H plots = [map2 (map2 normalized_cell) H_num H_den] /\
    Forall (Forall (fun c => Float.isfinite c = true))
           (map2 (map2 normalized_cell) H_num H_den).
Proof.
  unfold normalized_histogram2d. intros E.
  apply bind_Returns in E as (H_num & En & E).
  apply bind_Returns in E as (H_den & Ed & E).
  injection E as <- <-. split; [reflexivity|].
  exists H_num, H_den. repeat split; auto.
  apply np_histogram2d_counts in En, Ed.
  eapply map2_Forall; [|exact En|exact Ed].
  intros r1 r2 H1 H2. eapply map2_Forall; [|exact H1|exact H2].
  apply normalized_cell_finite.
Qed.

Lemma normalized_histogram2d_returns_None_witness :
  exists numerator denominator,
    __init__ TestSamples.crash_points = Returns numerator /\
    __init__ TestSamples.station_points = Returns denominator /\
    normalized_histogram2d numerator denominator 2 "Histogram Heatmap"
    = Returns ([Heatmap [[Float.Finite (1 # 2); Float.Finite 0];
                         [Float.Finite 0; Float.Finite (1 # 3)]]
                        (0, 4, 0, 4)%Q "Histogram Heatmap" true],
               PyNone) /\
    PyNone <> NdArray [[Float.Finite (1 # 2); Float.Finite 0];
                       [Float.Finite 0; Float.Finite (1 # 3)]].
Proof.
  eexists. eexists. split; [reflexivity|]. split; [reflexivity|].
  assert (E : normalized_histogram2d
                (Estimator TestSamples.crash_points 0 3 0 3)
                (Estimator TestSamples.station_points 0 4 0 4)
                2 "Histogram Heatmap"
              = Returns ([Heatmap [[Float.Finite (1 # 2); Float.Finite 0];
                                   [Float.Finite 0; Float.Finite (1 # 3)]]
                                  (0, 4, 0, 4)%Q "Histogram Heatmap" true],
                         PyNone))
    by (vm_compute; reflexivity).
  split; [exact E|].
  destruct (normalized_histogram2d_returns_None _ _ _ _ _ _ E) as [Ev _].
  discriminate.
Defined.

End Density.

(** ** PriceCalculator: time bins *)

Section TimeBins.
Import Py Pandas PriceCalculator.
Open Scope string_scope.
Open Scope list_scope.
Open Scope Z_scope.

Lemma get_time_bin_center_value (self : t) (m : Z) :
  time_bin_size self <> 0 ->
  get_time_bin_center self m
  = Returns (Float.Finite
               (inject_Z (m / time_bin_size self * time_bin_size self)
                + inject_Z (time_bin_size self) / inject_Z 2)).
Proof.
  intros Ht. unfold get_time_bin_center, floordiv.
  destruct (Z.eqb_spec (time_bin_size self) 0); [contradiction|].
  reflexivity.
Qed.

(** C8: for every datetime dt (hour in 0..23, minute in 0..59) and every
    positive time_bin_size, m = convert_time_to_minutes(dt) equals
    dt.hour * 60 + dt.minute, lies in 0..1439, and the center c that
    get_time_bin_center returns for m satisfies
    c - time_bin_size / 2 <= m < c + time_bin_size / 2. *)
Theorem time_falls_in_the_bin_of_its_center (self : t) (dt : datetime) :
  TimeData.valid_time dt = true ->
  0 < time_bin_size self ->
  let m := convert_time_to_minutes dt in
  m = hour dt * 60 + minute dt /\
  0 <= m <= 1439 /\
  exists c,
    get_time_bin_center self m = Returns (Float.Finite c) /\
    (c - inject_Z (time_bin_size self) / 2 <= inject_Z m)%Q /\
    (inject_Z m < c + inject_Z (time_bin_size self) / 2)%Q.
Proof.
  intros Hv Ht m. unfold TimeData.valid_time in Hv.
  apply andb_prop in Hv as [Hv Hm2]. apply andb_prop in Hv as [Hv Hm1].
  apply andb_prop in Hv as [Hh1 Hh2].
  apply Z.leb_le in Hh1, Hm1. apply Z.ltb_lt in Hh2, Hm2.
  split; [reflexivity|]. split; [unfold m, convert_time_to_minutes; lia|].
  eexists. split; [apply get_time_bin_center_value; lia|].
  set (s := time_bin_size self) in *.
  pose proof (Z.mul_div_le m s Ht) as Hlo.
  pose proof (Z.mul_succ_div_gt m s Ht) as Hhi.
  split.
  - setoid_replace (inject_Z (m / s * s) + inject_Z s / inject_Z 2
                    - inject_Z s / 2)%Q
      with (inject_Z (m / s * s)) by (change (inject_Z 2) with 2%Q; ring).
    rewrite <- Zle_Qle. lia.
  - setoid_replace (inject_Z (m / s * s) + inject_Z s / inject_Z 2
                    + inject_Z s / 2)%Q
      with (inject_Z (m / s * s + s))
      by (rewrite inject_Z_plus; change (inject_Z 2) with 2%Q; field).
    rewrite <- Zlt_Qlt. lia.
Qed.

Lemma time_falls_in_the_bin_of_its_center_witness :
  convert_time_to_minutes TimeData.at_8_07 = 487 /\
  get_time_bin_center TimeData.calculator 487
  = Returns (Float.Finite (990 # 2)) /\
  exists c,
    get_time_bin_center TimeData.calculator 487 = Returns (Float.Finite c) /\
    (c - inject_Z 30 / 2 <= inject_Z 487)%Q /\
    (inject_Z 487 < c + inject_Z 30 / 2)%Q.
Proof.
  split; [reflexivity|]. split; [vm_compute; reflexivity|].
  apply (time_falls_in_the_bin_of_its_center TimeData.calculator
                                             TimeData.at_8_07).
  - reflexivity.
  - simpl. lia.
Defined.

End TimeBins.

(** ** PriceCalculator.predict_insurance_price *)

Section Pricing.
Import Py Pandas PriceCalculator Traffic.
Context `{Libraries}.
Open Scope string_scope.
Open Scope list_scope.
Open Scope Z_scope.

Lemma where_eq_rows (df : DataFrame) (c : string) (v : cell) :
  has_column df c = true ->
  where_eq df c v
  = Returns (Frame (columns df)
                   (filter (fun ir => eq_cell (get c (snd ir)) v) (rows df))).
Proof.
  intros Hc. unfold where_eq, getitem. rewrite Hc. simpl.
  unfold loc_mask. rewrite map_map, select_mask_map. reflexivity.
Qed.

Lemma filter_map_length {A B} (p : B -> bool) (f : A -> B) (l : list A) :
  List.length (filter p (map f l))
  = List.length (filter (fun a => p (f a)) l).
Proof.
  induction l as [|a l IH]; simpl; [reflexivity|].
  destruct (p (f a)); simpl; rewrite IH; reflexivity.
Qed.

Lemma filter_filter {A} (p q : A -> bool) (l : list A) :
  filter p (filter q l) = filter (fun a => q a && p a) l.
Proof.
  induction l as [|a l IH]; simpl; [reflexivity|].
  destruct (q a); simpl; [destruct (p a)|]; rewrite IH; reflexivity.
Qed.

(** Counting by [apply(time_bin).eq(bin_index).sum()] over the rides of
    a station counts the rides of the station in the bin. *)
Lemma count_in_bin_value (self : t) (df : DataFrame) (station time : string)
  (id : cell) (bin : Z) :
  time_bin_size self <> 0 ->
  has_column df time = true ->
  (forall ir, In ir (rows df) -> is_timestamp (get time (snd ir)) = true) ->
  count_in_bin self
    (Frame (columns df)
           (filter (fun ir => eq_cell (get station (snd ir)) id) (rows df)))
    time bin
  = Returns (Z.of_nat (List.length
      (filter (fun ir =>
                 eq_cell (get station (snd ir)) id &&
                 match bin_of_cell (time_bin_size self) (get time (snd ir)) with
                 | Some b => Z.eqb b bin
                 | None => false
                 end)
              (rows df)))).
Proof.
  intros Ht Hc Hts. unfold count_in_bin, getitem.
  unfold has_column in *. cbn [columns rows]. rewrite Hc. simpl.
  rewrite mapM_map.
  rewrite (mapM_pure _ (fun ir => bin_of_cell (time_bin_size self)
                                              (get time (snd ir)))).
  - simpl. rewrite filter_map_length, filter_filter. reflexivity.
  - intros ir Hin. apply filter_In in Hin as [Hin _].
    specialize (Hts ir Hin). unfold time_bin, bin_of_cell, floordiv.
    destruct (get time (snd ir)) as [x|z|s|[dt|]]; try discriminate;
      [|reflexivity].
    destruct (Z.eqb_spec (time_bin_size self) 0); [contradiction|].
    reflexivity.
Qed.

Lemma is_number_as_float (c : cell) :
  is_number c = true -> exists x, as_float c = Returns x.
Proof. destruct c; simpl; try discriminate; eauto. Qed.

(** C4, as amended: for a calculator with a non-zero time_bin_size over a
    well-formed dataset, every ride start time and every station id that
    is present exactly once in the stations table, predict_insurance_price
    returns a pair (insurance_price, risk_per_ride) with
    insurance_price = risk_per_ride * cost_per_accident * traffic_adjustment,
    where risk_per_ride is the model's prediction at the station's centered
    coordinates and the center of the ride's time bin, divided by the
    traffic (rides starting plus rides ending at that station in that time
    bin) when the traffic is positive, and the prediction itself when the
    traffic is zero. *)
Theorem insurance_price_is_risk_times_cost
  (self : t) (started_at : datetime) (start_station_id : cell)
  (station : Z * row) :
  time_bin_size self <> 0 ->
  well_formed (citibike_dataset self) = true ->
  station_rows (citibike_dataset self) start_station_id = [station] ->
  exists insurance_price risk_per_ride x y center,
    predict_insurance_price self started_at start_station_id
    = Returns (insurance_price, risk_per_ride) /\
    insurance_price
    = Float.mul (Float.mul risk_per_ride (cost_per_accident self))
                (traffic_adjustment self) /\
    as_float (get "x_centered" (snd station)) = Returns x /\
    as_float (get "y_centered" (snd station)) = Returns y /\
    get_time_bin_center self (convert_time_to_minutes started_at)
    = Returns center /\
    let predicted := predict x y center in
    let n := traffic (citibike_dataset self) (time_bin_size self)
                     start_station_id
                     (convert_time_to_minutes started_at / time_bin_size self)
    in
    0 <= n /\
    (0 < n -> risk_per_ride = Float.div predicted (Float.of_Z n)) /\
    (n = 0 -> risk_per_ride = predicted).
Proof.
  intros Ht Hwf Hst. unfold well_formed in Hwf.
  apply andb_prop in Hwf as [Hwf Hrides]. apply andb_prop in Hwf as [Hwf Hnum].
  apply andb_prop in Hwf as [Hsc Hrc].
  cbn [forallb] in Hsc, Hrc.
  repeat (apply andb_prop in Hsc as [? Hsc]).
  repeat (apply andb_prop in Hrc as [? Hrc]).
  rewrite forallb_forall in Hnum, Hrides.
  assert (Hin : In station (rows (CitibikeDataset.stations
                                    (citibike_dataset self)))).
  { assert (Hin : In station [station]) by (simpl; auto).
    rewrite <- Hst in Hin. unfold station_rows in Hin.
    apply filter_In in Hin. tauto. }
  destruct (andb_prop _ _ (Hnum station Hin)) as [Hx Hy].
  destruct (is_number_as_float _ Hx) as (x & Ex).
  destruct (is_number_as_float _ Hy) as (y & Ey).
  set (minutes := convert_time_to_minutes started_at).
  set (n := traffic (citibike_dataset self) (time_bin_size self)
                    start_station_id (minutes / time_bin_size self)).
  exists (Float.mul
            (Float.mul
               (if 0 <? n
                then Float.div
                       (predict x y
                          (Float.Finite
                             (inject_Z (minutes / time_bin_size self
                                        * time_bin_size self)
                              + inject_Z (time_bin_size self) / inject_Z 2)))
                       (Float.of_Z n)
                else predict x y
                       (Float.Finite
                          (inject_Z (minutes / time_bin_size self
                                     * time_bin_size self)
                           + inject_Z (time_bin_size self) / inject_Z 2)))
               (cost_per_accident self))
            (traffic_adjustment self)).
  eexists. exists x, y. eexists.
  split; [|split; [reflexivity|split; [exact Ex|split; [exact Ey|
           split; [apply get_time_bin_center_value, Ht|]]]]].
  - unfold predict_insurance_price. fold minutes.
    rewrite (get_time_bin_center_value self minutes Ht). cbn [bind].
    rewrite where_eq_rows by assumption. cbn [bind].
    fold (station_rows (citibike_dataset self) start_station_id).
    rewrite Hst.
    unfold iloc0, getitem, has_column in *. cbn [columns rows].
    repeat match goal with
           | E : existsb _ _ = true |- _ => rewrite E
           end.
    cbn [bind map]. rewrite Ex, Ey. cbn [bind].
    unfold floordiv at 1.
    destruct (Z.eqb_spec (time_bin_size self) 0); [contradiction|].
    cbn [bind].
    rewrite !where_eq_rows by assumption. cbn [bind].
    rewrite !count_in_bin_value;
      try assumption;
      try (intros ir Hir; apply Hrides in Hir; apply andb_prop in Hir; tauto).
    cbn [bind]. reflexivity.
  - cbv zeta. fold minutes. fold n. split; [unfold n, traffic, rides_in_bin; lia|].
    split.
    + intros Hn. apply Z.ltb_lt in Hn. rewrite Hn. reflexivity.
    + intros Hn. rewrite Hn. reflexivity.
Qed.

End Pricing.

Lemma insurance_price_is_risk_times_cost_witness :
  Traffic.traffic TimeData.one_ride_dataset 30 (Pandas.S "A1") 16 = 2 /\
  exists insurance_price risk_per_ride,
    PriceCalculator.predict_insurance_price (H := TestDoubles.libraries)
      TimeData.calculator TimeData.at_8_07 (Pandas.S "A1")
    = Py.Returns (insurance_price, risk_per_ride) /\
    risk_per_ride = Float.div (Float.Finite 2) (Float.of_Z 2) /\
    insurance_price
    = Float.mul (Float.mul risk_per_ride (Float.Finite 5000))
                (Float.Finite (1 # 1000)).
Proof.
  split; [reflexivity|].
  destruct (insurance_price_is_risk_times_cost (H := TestDoubles.libraries)
              TimeData.calculator TimeData.at_8_07 (Pandas.S "A1")
              (0, [("station_id", Pandas.S "A1");
                   ("x_centered", Pandas.F (Float.Finite 100));
                   ("y_centered", Pandas.F (Float.Finite 200))]%string))
    as (price & risk & x & y & c & E & Eprice & Ex & Ey & Ec & _ & Hpos & _).
  - simpl. lia.
  - reflexivity.
  - reflexivity.
  - exists price, risk. split; [exact E|]. split; [|exact Eprice].
    rewrite Hpos by (vm_compute; reflexivity). reflexivity.
Defined.

(** C4 as stated fails: a calculator built with time_bin_size = 0 raises
    ZeroDivisionError for a station that is present exactly once. *)
Lemma predict_insurance_price_raises_at_zero_time_bin :
  List.length (Traffic.station_rows TimeData.one_ride_dataset (Pandas.S "A1"))
  = 1%nat /\
  Traffic.well_formed TimeData.one_ride_dataset = true /\
  PriceCalculator.predict_insurance_price (H := TestDoubles.libraries)
    TimeData.calculator_with_empty_bins TimeData.at_8_07 (Pandas.S "A1")
  = Py.Raises Py.ZeroDivisionError.
Proof. repeat split; reflexivity. Qed.

(** ** Station ids are distinct *)

Section StationLookup.
Import Py Pandas CitibikeDataset Traffic.
Context `{Libraries}.
Open Scope string_scope.
Open Scope list_scope.
Open Scope Z_scope.

Lemma float_eqb_join (x y z : Float.float) :
  Float.eqb x z = true -> Float.eqb y z = true -> Float.eqb y x = true.
Proof.
  unfold Float.eqb.
  destruct x as [a| | |], y as [b| | |], z as [c| | |]; simpl;
    try discriminate; auto.
  destruct (Qcompare_spec a c) as [Eac| |]; try discriminate.
  destruct (Qcompare_spec b c) as [Ebc| |]; try discriminate.
  intros _ _. destruct (Qcompare_spec b a) as [|Hlt|Hlt]; auto;
    rewrite Eac, Ebc in Hlt; exfalso; apply (Qlt_irrefl c), Hlt.
Qed.

Lemma datetime_eqb_eq (a b : datetime) : datetime_eqb a b = true -> a = b.
Proof.
  unfold datetime_eqb. destruct a, b; simpl. intros E.
  repeat (apply andb_prop in E as [E ?]).
  repeat match goal with
         | E : (_ =? _) = true |- _ => apply Z.eqb_eq in E
         end.
  congruence.
Qed.

Lemma datetime_eqb_refl (a : datetime) : datetime_eqb a a = true.
Proof. unfold datetime_eqb. rewrite !Z.eqb_refl. reflexivity. Qed.

(** Two cells equal to a third are equal. *)
Lemma eq_cell_join (a b c : cell) :
  eq_cell a c = true -> eq_cell b c = true -> eq_cell b a = true.
Proof.
  unfold eq_cell.
  destruct a as [x|x|s|[t|]], b as [y|y|s'|[t'|]], c as [z|z|s''|[t''|]];
    simpl; try discriminate; try apply float_eqb_join.
  - intros E1 E2. apply String.eqb_eq in E1, E2. subst.
    apply String.eqb_refl.
  - intros E1 E2. apply datetime_eqb_eq in E1, E2. subst.
    apply datetime_eqb_refl.
Qed.

(** Among pairwise distinct ids, [== id] selects at most one row. *)
Lemma lookup_is_unique (c : string) (id : cell) (l : list (Z * row)) :
  pairwise_distinct (ids_of c l) ->
  filter (fun ir => eq_cell (get c (snd ir)) id) l <> [] ->
  exists ir, filter (fun ir => eq_cell (get c (snd ir)) id) l = [ir].
Proof.
  induction l as [|a l IH]; simpl; [congruence|].
  intros [Ha Hd] Hne.
  destruct (eq_cell (get c (snd a)) id) eqn:Ea.
  - exists a. f_equal.
    destruct (filter (fun ir => eq_cell (get c (snd ir)) id) l)
      as [|b rest] eqn:Ef; [reflexivity|exfalso].
    assert (Hb : In b (filter (fun ir => eq_cell (get c (snd ir)) id) l))
      by (rewrite Ef; simpl; auto).
    apply filter_In in Hb as [Hb Eb].
    rewrite Forall_forall in Ha.
    assert (Hs : same_value (get c (snd b)) (get c (snd a)) = false).
    { apply Ha. unfold ids_of. apply in_map_iff. eauto. }
    unfold same_value in Hs. apply orb_false_iff in Hs as [Hs _].
    rewrite (eq_cell_join _ _ _ Ea Eb) in Hs. discriminate.
  - apply IH; assumption.
Qed.

Lemma build_stations (df : DataFrame) (ds : CitibikeDataset.t) :
  build df = Returns ds ->
  exists cleaned xc yc,
    _process_stations cleaned = Returns (stations ds, xc, yc).
Proof.
  unfold build. destruct (missing_columns df); [|discriminate].
  intros E. apply bind_Returns in E as ([[st xc] yc] & Es & E).
  injection E as <-. cbn [stations]. eauto.
Qed.

(** C10: after CitibikeDataset construction no station_id of the stations
    table repeats an earlier one, so the rows that
    [stations["station_id"] == id] selects are exactly one row for any id
    present in the table. *)
Theorem station_ids_are_pairwise_distinct
  (path : string) (n : node) (ds : CitibikeDataset.t) :
  __init__ path n = Returns ds ->
  pairwise_distinct (ids_of "station_id" (rows (stations ds))) /\
  forall id, station_rows ds id <> [] ->
             exists station, station_rows ds id = [station].
Proof.
  unfold __init__. intros E.
  apply bind_Returns in E as (df & _ & E).
  apply build_stations in E as (cleaned & xc & yc & E).
  apply process_stations_ids in E as (st0 & E).
  assert (Hd : pairwise_distinct (ids_of "station_id" (rows (stations ds))))
    by (rewrite E; apply drop_duplicates_distinct).
  split; [exact Hd|].
  intros id Hne. apply lookup_is_unique; assumption.
Qed.

End StationLookup.

Lemma station_ids_are_pairwise_distinct_witness :
  exists ds,
    CitibikeDataset.__init__ (H := TestDoubles.libraries) "rides.csv"
      (CitibikeDataset.IsFile TestRides.rides_csv) = Py.Returns ds /\
    ids_of "station_id" (Pandas.rows (CitibikeDataset.stations ds))
    = [Pandas.S "B1"; Pandas.S "A1"; Pandas.S "C1"] /\
    pairwise_distinct
      (ids_of "station_id" (Pandas.rows (CitibikeDataset.stations ds))) /\
    exists station, Traffic.station_rows ds (Pandas.S "A1") = [station].
Proof.
  destruct (CitibikeDataset.__init__ (H := TestDoubles.libraries) "rides.csv"
              (CitibikeDataset.IsFile TestRides.rides_csv))
    as [ds|e] eqn:E; [|discriminate E].
  exists ds. split; [reflexivity|].
  destruct (station_ids_are_pairwise_distinct
              (H := TestDoubles.libraries) _ _ _ E) as [Hd Hu].
  assert (Eids : ids_of "station_id" (Pandas.rows (CitibikeDataset.stations ds))
                 = [Pandas.S "B1"; Pandas.S "A1"; Pandas.S "C1"]).
  { vm_compute in E. injection E as <-. reflexivity. }
  split; [exact Eids|]. split; [exact Hd|].
  apply Hu. vm_compute in E. injection E as <-. discriminate.
Defined.

(** ** CitibikeDataset.__init__: validation and completion *)

Section Construction.
Import Py Pandas CitibikeDataset RideTable.
Context `{Libraries}.
Open Scope string_scope.
Open Scope list_scope.
Open Scope Z_scope.


Lemma drop_dup_rows_In (c : string) seen l ir :
  In ir (drop_dup_rows c seen l) -> In ir l.
Proof.
  revert seen; induction l as [|[i r] l IH]; intros seen; simpl; [tauto|].
  destruct (existsb (same_value (get c r)) seen); simpl.
  - intros Hin. right. eapply IH, Hin.
  - intros [<-|Hin]; [auto|]. right. eapply IH, Hin.
Qed.



Lemma has_column_setitem (df : DataFrame) (c c' : string) vals :
  has_column df c' = true -> has_column (setitem df c vals) c' = true.
Proof.
  unfold setitem. intros Hc. unfold has_column at 1. cbn [columns].
  destruct (has_column df c); [exact Hc|].
  rewrite existsb_app. unfold has_column in Hc. rewrite Hc. reflexivity.
Qed.










Lemma pd_read_csv_frame (f : file) (tbl : table) :
  read_csv_of f = Returns tbl ->
  pd_read_csv f
  = Returns (Frame (fst tbl) (relabel 0 (map (fun r => (0, r)) (snd tbl)))).
Proof. unfold pd_read_csv. intros ->. reflexivity. Qed.

Lemma relabel_snd (i : Z) (l : list row) :
  map snd (relabel i (map (fun r => (0, r)) l)) = l.
Proof.
  rewrite relabel_rows, map_map. simpl. apply map_id.
Qed.



End Construction.



(** ** The rows reported as dropped, for every constructed dataset *)

Section DroppedRowsOfInit.
Import Py Pandas CitibikeDataset.
Context `{Libraries}.
Open Scope string_scope.
Open Scope list_scope.
Open Scope Z_scope.

Lemma load_range_index (path : string) (n : node) (df : DataFrame) :
  load path n = Returns df -> rows df = relabel 0 (rows df).
Proof.
  destruct n as [|f|files|]; simpl; try discriminate.
  - destruct (endswith (lower path) ".csv"); [|discriminate].
    unfold pd_read_csv. destruct (read_csv_of f) as [tbl|]; simpl;
      [|discriminate].
    intros E. injection E as <-. simpl. symmetry. apply relabel_idem.
  - destruct (read_all (fold_left extract files files)) as [|d ds];
      [discriminate|].
    intros E. injection E as <-. unfold concat. cbn [rows].
    symmetry. apply relabel_idem.
Qed.

(** X19: whatever the table holds, dropped_rows is made of its last rows,
    as many as the cleaning removed. *)
Lemma init_dropped_rows (path : string) (n : node) (ds : CitibikeDataset.t) :
  __init__ path n = Returns ds ->
  exists df,
    load path n = Returns df /\
    rows (dropped_rows ds)
    = skipn (List.length (rows (df_rides ds))) (rows df) /\
    len (df_rides ds) + len (dropped_rows ds) = len df.
Proof.
  unfold __init__. intros E. apply bind_Returns in E as (df & El & E).
  exists df. split; [exact El|].
  apply load_range_index in El. destruct df as [cols l]. cbn [rows] in El.
  unfold build in E. destruct (missing_columns (Frame cols l)); [|discriminate].
  apply bind_Returns in E as ([[st xc] yc] & _ & E). injection E as <-.
  cbn [dropped_rows df_rides]. unfold len, update. cbn [rows setitem].
  rewrite !set_rows_length by solve_len.
  rewrite El.
  pose proof (dropped_is_tail cols l) as Et. cbv zeta in Et.
  pose proof (dropped_count cols l) as Ec. cbv zeta in Ec. unfold len in Ec.
  cbn [rows] in Et, Ec |- *.
  split; [exact Et | exact Ec].
Qed.

End DroppedRowsOfInit.

(** ** Every constructed dataset is well formed for pricing *)

Section WellFormed.
Import Py Pandas CitibikeDataset.
Context `{Libraries}.
Open Scope string_scope.
Open Scope list_scope.
Open Scope Z_scope.

Lemma has_column_setitem_same (df : DataFrame) (c : string) vals :
  has_column (setitem df c vals) c = true.
Proof.
  unfold setitem. destruct (has_column df c) eqn:E.
  - exact E.
  - unfold has_column. cbn [columns]. rewrite existsb_app. simpl.
    rewrite String.eqb_refl. apply orb_true_r.
Qed.

Lemma union_columns_keeps (c : string) (cs acc : list string) :
  existsb (String.eqb c) acc = true ->
  existsb (String.eqb c) (union_columns acc cs) = true.
Proof.
  revert acc; induction cs as [|c' cs IH]; intros acc Hc; simpl; [exact Hc|].
  destruct (existsb (String.eqb c') acc); apply IH; [exact Hc|].
  rewrite existsb_app, Hc. reflexivity.
Qed.

Lemma union_columns_head (c : string) (cs : list string) :
  existsb (String.eqb c) (union_columns [] (c :: cs)) = true.
Proof.
  simpl. apply union_columns_keeps. simpl.
  rewrite String.eqb_refl. reflexivity.
Qed.

Lemma stations_at_station_id (df st : DataFrame) (id name lat lng : string) :
  stations_at df id name lat lng = Returns st ->
  exists cs, columns st = "station_id" :: cs.
Proof.
  unfold stations_at. intros E. apply bind_Returns in E as (sel & Es & E).
  unfold select in Es.
  destruct (forallb (has_column df) [id; name; lat; lng]); [|discriminate].
  injection Es as <-. injection E as <-.
  cbn [rename columns drop_duplicates dropna map renamed].
  rewrite String.eqb_refl. eauto.
Qed.

Lemma missing_columns_none (df : DataFrame) (c : string) :
  missing_columns df = [] -> In c required_columns ->
  has_column df c = true.
Proof.
  unfold missing_columns. intros E Hin.
  destruct (has_column df c) eqn:Hc; [reflexivity|].
  assert (Hm : In c (filter (fun col => negb (has_column df col))
                            required_columns))
    by (apply filter_In; rewrite Hc; auto).
  rewrite E in Hm. contradiction.
Qed.

Lemma sub_center_is_number (center : Float.float) (c : cell) :
  Traffic.is_number (sub_center center c) = true.
Proof. destruct c; reflexivity. Qed.

(** The stations table of [_process_stations] has its id column and
    numbers in its centered coordinates. *)
Lemma process_stations_well_formed (df st : DataFrame) (xc yc : Float.float) :
  _process_stations df = Returns (st, xc, yc) ->
  forallb (has_column st) ["station_id"; "x_centered"; "y_centered"] = true /\
  forallb (fun ir => Traffic.is_number (get "x_centered" (snd ir)) &&
                     Traffic.is_number (get "y_centered" (snd ir)))
          (rows st) = true.
Proof.
  unfold _process_stations. intros E.
  apply bind_Returns in E as (s & Es & E).
  apply bind_Returns in E as (e & Ee & E).
  apply bind_Returns in E as (start_ids & _ & E).
  apply bind_Returns in E as (end_ids & _ & E).
  apply bind_Returns in E as (sc & _ & E).
  apply bind_Returns in E as (ec & _ & E).
  apply bind_Returns in E as (lng & _ & E).
  apply bind_Returns in E as (lat & _ & E).
  injection E as <- _ _.
  apply stations_at_station_id in Es as (cs & Cs). split.
  - apply forallb_forall. intros c [<-|[<-|[<-|[]]]].
    + unfold merge_left. repeat apply has_column_setitem.
      unfold has_column, drop_duplicates, concat. cbn [columns fold_left].
      apply union_columns_keeps. rewrite Cs. apply union_columns_head.
    + apply has_column_setitem, has_column_setitem_same.
    + apply has_column_setitem_same.
  - apply forallb_forall. intros ir Hin. cbn [rows setitem] in Hin.
    apply andb_true_iff. split.
    + apply set_rows_In in Hin as (r & Hin & Hget).
      rewrite Hget by discriminate.
      apply set_rows_get_In in Hin. cbn [snd] in Hin.
      apply in_map_iff in Hin as (ir0 & <- & _). apply sub_center_is_number.
    + apply set_rows_get_In in Hin.
      apply in_map_iff in Hin as (ir0 & <- & _). apply sub_center_is_number.
Qed.

(** The hypothesis of C4 on the dataset holds of every dataset that
    CitibikeDataset construction returns. *)
Lemma constructed_dataset_is_well_formed
  (path : string) (n : node) (ds : CitibikeDataset.t) :
  __init__ path n = Returns ds -> Traffic.well_formed ds = true.
Proof.
  unfold __init__. intros E. apply bind_Returns in E as (df & _ & E).
  unfold build in E. destruct (missing_columns df) eqn:Em; [|discriminate].
  apply bind_Returns in E as ([[st xc] yc] & Es & E). injection E as <-.
  apply process_stations_well_formed in Es as [Hcols Hnum].
  unfold Traffic.well_formed. cbn [stations df_rides].
  apply andb_true_iff; split;
    [apply andb_true_iff; split;
     [apply andb_true_iff; split; [exact Hcols|] | exact Hnum]|].
  - unfold update. apply forallb_forall. intros c Hc.
    repeat apply has_column_setitem.
    unfold reset_index, dropna, has_column. cbn [columns].
    apply (missing_columns_none df c Em).
    simpl in Hc. unfold required_columns. simpl.
    repeat destruct Hc as [<-|Hc]; tauto.
  - apply forallb_forall. intros ir Hin. unfold update in Hin.
    cbn [rows setitem] in Hin.
    apply set_rows_In in Hin as (r5 & Hin & Hget5).
    apply set_rows_In in Hin as (r4 & Hin & Hget4).
    rewrite !Hget5, !Hget4 by discriminate.
    apply andb_true_iff. split.
    + apply set_rows_In in Hin as (r3 & Hin & Hget3).
      rewrite Hget3 by discriminate.
      apply set_rows_get_In in Hin. cbn [snd] in Hin.
      apply in_map_iff in Hin as (ir0 & <- & _). reflexivity.
    + apply set_rows_get_In in Hin. cbn [snd] in Hin.
      apply in_map_iff in Hin as (ir0 & <- & _). reflexivity.
Qed.

End WellFormed.

(** ** What the tests of the repository expect, on the model *)

Section RepositoryTests.
Import Py Pandas.
Open Scope string_scope.
Open Scope list_scope.
Open Scope Z_scope.

(** test_process_dataset_cyclist_filter: one row is kept, then two. *)
Example test_process_dataset_cyclist_filter :
  option_map len
    (match BikeCrashDataset.__init__ (H := TestDoubles.libraries)
             TestTables.one_cyclist with
     | Returns df => Some df
     | Raises _ => None
     end) = Some 1 /\
  option_map len
    (match BikeCrashDataset.__init__ (H := TestDoubles.libraries)
             TestTables.two_cyclists with
     | Returns df => Some df
     | Raises _ => None
     end) = Some 2.
Proof. split; vm_compute; reflexivity. Qed.

(** test_no_empty_values_and_dropped_rows: one dropped row, and the
    dropped and the kept rows add up to the three rows of the file.  Here
    the ride with the missing value is the last one, and so the same as
    the tail of the table. *)
Example test_no_empty_values_and_dropped_rows :
  match CitibikeDataset.__init__ (H := TestDoubles.libraries) "rides.csv"
          (CitibikeDataset.IsFile TestTables.test_rides) with
  | Returns ds =>
      len (CitibikeDataset.dropped_rows ds) = 1 /\
      len (CitibikeDataset.df_rides ds)
      + len (CitibikeDataset.dropped_rows ds) = 3 /\
      map (fun ir => get "ride_id" (snd ir))
          (rows (CitibikeDataset.dropped_rows ds)) = [S "3"]
  | Raises _ => False
  end.
Proof. vm_compute. repeat split; reflexivity. Qed.

(** test_predict_insurance_price: a risk of 1.0 and a price of 5.0. *)
Example test_predict_insurance_price :
  match PriceCalculator.predict_insurance_price (H := TestDoubles.libraries)
          TimeData.calculator TimeData.at_8_07 (S "A1") with
  | Returns (Float.Finite price, Float.Finite risk) =>
      (risk == 1)%Q /\ (price == 5)%Q
  | _ => False
  end.
Proof. vm_compute. split; reflexivity. Qed.

(** test_file_not_found and test_unsupported_file_format. *)
Example test_file_not_found :
  CitibikeDataset.__init__ (H := TestDoubles.libraries)
    "non_existent_file.csv" CitibikeDataset.Absent
  = Raises FileNotFoundError.
Proof. reflexivity. Qed.

Example test_unsupported_file_format :
  CitibikeDataset.__init__ (H := TestDoubles.libraries) "tmp.txt"
    (CitibikeDataset.IsFile TestRides.unreadable)
  = Raises ValueError.
Proof. reflexivity. Qed.

(** A time of day in minutes, as the rasterization reads it. *)
Example time_to_minutes_10_05 :
  BikeCrashDataset.time_to_minutes "10:05" = Returns 605.
Proof. reflexivity. Qed.

End RepositoryTests.

(* ================================================================== *)
(** ** BikeCrashDataset: construction and alignment, row by row *)

Section RowByRow.
Import Py Pandas BikeCrashDataset.
Context `{Libraries}.
Open Scope string_scope.
Open Scope list_scope.
Open Scope Z_scope.

Lemma mapM_In_returns {A B} (f : A -> outcome B) (l : list A) bs :
  mapM f l = Returns bs -> forall a, In a l -> exists b, f a = Returns b.
Proof.
  intros E a Hin. apply mapM_Forall2 in E.
  destruct (Forall2_In_l _ _ _ _ E Hin) as (b & _ & Hb). eauto.
Qed.

Lemma set_rows_map {A} (c : string) (f : A -> cell) (g : A -> Z * row)
  (l : list A) :
  set_rows c (map f l) (map g l)
  = map (fun a => (fst (g a), set c (f a) (snd (g a)))) l.
Proof.
  induction l as [|a l IH]; [reflexivity|].
  cbn [map set_rows]. destruct (g a) as [i r] eqn:E. cbn [fst snd].
  rewrite IH. reflexivity.
Qed.

Lemma set_rows_map_id (c : string) (f : Z * row -> cell)
  (l : list (Z * row)) :
  set_rows c (map f l) l = map (fun a => (fst a, set c (f a) (snd a))) l.
Proof.
  rewrite <- (map_id l) at 2. rewrite set_rows_map. reflexivity.
Qed.

Lemma combine_map_same {A B C} (f : A -> B) (g : A -> C) (l : list A) :
  combine (map f l) (map g l) = map (fun a => (f a, g a)) l.
Proof.
  induction l as [|a l IH]; [reflexivity|]. cbn [map combine].
  rewrite IH. reflexivity.
Qed.

Lemma process_dataset_row_by_row (raw df : DataFrame) :
  _process_dataset raw = Returns df ->
  rows df = map (fun ir => (fst ir, processed (snd ir)))
                (filter (fun ir => kept raw (snd ir)) (rows raw)) /\
  forall ir, In ir (rows raw) -> kept raw (snd ir) = true ->
    exists d t lng lat,
      get "CRASH DATE" (snd ir) = S d /\ get "CRASH TIME" (snd ir) = S t /\
      as_float (get "LONGITUDE" (snd ir)) = Returns lng /\
      as_float (get "LATITUDE" (snd ir)) = Returns lat.
Proof.
  unfold _process_dataset. intros E.
  apply bind_Returns in E as (injured & Einj & E).
  apply bind_Returns in E as (killed & Ekil & E).
  apply get_gt0_as_map in Einj, Ekil. subst injured killed.
  rewrite vehicle_condition_as_map, !or_mask_map in E.
  unfold loc_mask in E. rewrite select_mask_map in E.
  apply bind_Returns in E as (df2 & E2 & E).
  unfold dropna_subset in E2. cbn [columns rows] in E2.
  match type of E2 with (if ?b then _ else _) = _ =>
    destruct b; [|discriminate] end.
  injection E2 as <-. cbn [columns rows] in E.
  rewrite and_mask_map, select_mask_map, !filter_filter in E.
  match type of E with context [filter ?p (rows raw)] =>
    assert (Ekept : filter p (rows raw)
                    = filter (fun ir => kept raw (snd ir)) (rows raw))
      by (apply filter_ext; intros ir; unfold kept, essential_cols;
          cbn [existsb]; rewrite andb_assoc; reflexivity);
    rewrite Ekept in E; clear Ekept end.
  set (l := filter (fun ir => kept raw (snd ir)) (rows raw)) in *.
  apply bind_Returns in E as (texts & Etexts & E).
  pose proof (mapM_In_returns _ _ _ Etexts) as Htexts.
  apply (mapM_as_map EmptyString) in Etexts. subst texts.
  rewrite map_map in E.
  apply bind_Returns in E as (lng & Elng & E).
  apply bind_Returns in E as (lat & Elat & E).
  unfold floats in Elng, Elat.
  apply bind_Returns in Elng as (clng & Eclng & Elng).
  apply bind_Returns in Elat as (clat & Eclat & Elat).
  unfold getitem in Eclng, Eclat.
  match type of Eclng with (if ?b then _ else _) = _ =>
    destruct b; [|discriminate] end.
  match type of Eclat with (if ?b then _ else _) = _ =>
    destruct b; [|discriminate] end.
  injection Eclng as <-. injection Eclat as <-.
  cbn [setitem rows] in Elng, Elat.
  rewrite set_rows_map_id, map_map, mapM_map in Elng, Elat.
  cbn [fst snd] in Elng, Elat.
  pose proof (mapM_In_returns _ _ _ Elng) as Hlng.
  pose proof (mapM_In_returns _ _ _ Elat) as Hlat.
  apply (mapM_as_map Float.NaN) in Elng, Elat. subst lng lat.
  rewrite combine_map_same, map_map in E.
  unfold select in E.
  match type of E with (if ?b then _ else _) = _ =>
    destruct b; [|discriminate] end.
  injection E as <-. cbn [rows setitem].
  split.
  - rewrite set_rows_map_id, !map_map.
    rewrite set_rows_map, set_rows_map.
    rewrite map_map. apply map_ext. intros [i r]. cbn [fst snd].
    f_equal. unfold processed, projected, crash_text, float_of.
    cbn [map]. 
    repeat (rewrite ?get_set_same; rewrite ?get_set_other by discriminate).
    reflexivity.
  - intros ir Hin Hk.
    assert (Hl : In ir l) by (apply filter_In; auto).
    destruct (Htexts ir Hl) as (s & Hs).
    destruct (Hlng ir Hl) as (x & Hx). destruct (Hlat ir Hl) as (y & Hy).
    cbn [fst snd] in Hx, Hy.
    rewrite get_set_other in Hx, Hy by discriminate.
    unfold date_time_text in Hs.
    destruct (get "CRASH DATE" (snd ir)) as [| |d|]; try discriminate.
    destruct (get "CRASH TIME" (snd ir)) as [| |t|]; try discriminate.
    exists d, t, x, y. auto.
Qed.

End RowByRow.

Section CrashConstruction.
Import Py Pandas BikeCrashDataset.
Context `{Libraries}.
Open Scope string_scope.
Open Scope list_scope.
Open Scope Z_scope.

(** X1: a frame that BikeCrashDataset construction returns is itself
    accepted unchanged by the construction: it has the seven required
    columns, so it is not processed a second time. *)
Theorem processed_frame_is_loaded_unchanged (raw df : DataFrame) :
  __init__ raw = Returns df -> __init__ df = Returns df.
Proof.
  unfold __init__. destruct (_has_required_columns raw) eqn:Hreq; cbn [negb].
  - intros E. injection E as <-. rewrite Hreq. reflexivity.
  - intros E. apply process_dataset_rows in E as [Hcols _].
    assert (Hdf : _has_required_columns df = true).
    { unfold _has_required_columns, has_column. rewrite Hcols. reflexivity. }
    rewrite Hdf. reflexivity.
Qed.

Lemma get_gt0_numeric (raw : DataFrame) (c : string) :
  numeric_column raw c = true -> exists m, get_gt0 raw c = Returns m.
Proof.
  unfold numeric_column, get_gt0. intros Hn.
  destruct (has_column raw c); [|eauto]. cbn [negb orb] in Hn.
  apply mapM_total. intros ir Hin.
  rewrite forallb_forall in Hn. specialize (Hn ir Hin).
  unfold gt0. destruct (get c (snd ir)); try discriminate; simpl; eauto.
Qed.

(** X2: when the raw table lacks one of CRASH DATE, CRASH TIME, LATITUDE
    and LONGITUDE, and its cyclist count columns (if present) hold numbers,
    the construction raises KeyError. *)
Theorem missing_essential_column_raises_KeyError
  (raw : DataFrame) (c : string) :
  In c essential_cols -> has_column raw c = false ->
  numeric_column raw "NUMBER OF CYCLIST INJURED" = true ->
  numeric_column raw "NUMBER OF CYCLIST KILLED" = true ->
  __init__ raw = Raises KeyError.
Proof.
  intros Hc Hmiss Hinj Hkil. unfold __init__.
  assert (Hreq : _has_required_columns raw = false).
  { unfold _has_required_columns. apply not_true_is_false. intros E.
    rewrite forallb_forall in E.
    assert (In c REQUIRED_COLUMNS)
      by (unfold essential_cols in Hc; simpl in Hc; simpl; tauto).
    rewrite (E c) in Hmiss by assumption. discriminate. }
  rewrite Hreq. cbn [negb]. unfold _process_dataset.
  destruct (get_gt0_numeric _ _ Hinj) as (mi & ->).
  destruct (get_gt0_numeric _ _ Hkil) as (mk & ->). cbn [bind].
  unfold dropna_subset.
  match goal with |- context [forallb ?f ?cs] =>
    assert (Hall : forallb f cs = false) end.
  { apply not_true_is_false. intros E. rewrite forallb_forall in E.
    specialize (E c Hc). unfold has_column, loc_mask in E, Hmiss.
    cbn [columns] in E. congruence. }
  rewrite Hall. reflexivity.
Qed.

(** X3: the index of the constructed frame is the index of the raw rows
    that pass the three filters (bike-crash mask, no essential cell
    missing, latitude and longitude not 0), in the order of the raw table:
    no such row is lost and the labels are not renumbered. *)
Theorem kept_rows_are_all_the_located_bike_crashes (raw df : DataFrame) :
  _has_required_columns raw = false ->
  __init__ raw = Returns df ->
  index df = map fst (filter (fun ir => kept raw (snd ir)) (rows raw)).
Proof.
  unfold __init__. intros Hreq E. rewrite Hreq in E. cbn [negb] in E.
  apply process_dataset_row_by_row in E as [E _].
  unfold index. rewrite E, map_map. reflexivity.
Qed.

(** X4: in every row of the constructed frame, CRASH_DATETIME is
    to_datetime of the row's date and time joined by a blank, and (x, y) is
    the projection of the row's (LONGITUDE, LATITUDE), in this order. *)
Theorem processed_rows_hold_timestamp_and_projection (raw df : DataFrame) :
  _has_required_columns raw = false ->
  __init__ raw = Returns df ->
  Forall (fun ir =>
            exists d t lng lat,
              get "CRASH DATE" (snd ir) = S d /\
              get "CRASH TIME" (snd ir) = S t /\
              as_float (get "LONGITUDE" (snd ir)) = Returns lng /\
              as_float (get "LATITUDE" (snd ir)) = Returns lat /\
              get "CRASH_DATETIME" (snd ir)
              = T (to_datetime (S (d ++ " " ++ t)%string)) /\
              get "x" (snd ir) = F (fst (transform lng lat)) /\
              get "y" (snd ir) = F (snd (transform lng lat)))
         (rows df).
Proof.
  unfold __init__. intros Hreq E. rewrite Hreq in E. cbn [negb] in E.
  apply process_dataset_row_by_row in E as [E Hrows].
  rewrite E. apply Forall_forall. intros ir Hin.
  apply in_map_iff in Hin as (ir0 & <- & Hin).
  apply filter_In in Hin as [Hin Hk].
  destruct (Hrows ir0 Hin Hk) as (d & t & lng & lat & Hd & Ht & Hlng & Hlat).
  exists d, t, lng, lat. cbn [snd].
  unfold processed, projected, crash_text, float_of.
  rewrite Hd, Ht, Hlng, Hlat.
  cbn [get String.eqb Ascii.eqb Bool.eqb date_time_text].
  rewrite Hlng, Hlat. repeat split; reflexivity.
Qed.

End CrashConstruction.

Lemma processed_frame_is_loaded_unchanged_witness :
  exists df,
    BikeCrashDataset.__init__ (H := TestDoubles.libraries)
      TestDoubles.raw_crashes = Py.Returns df /\
    BikeCrashDataset.__init__ (H := TestDoubles.libraries) df
    = Py.Returns df.
Proof.
  destruct (BikeCrashDataset.__init__ (H := TestDoubles.libraries)
              TestDoubles.raw_crashes) as [df|e] eqn:E; [|discriminate E].
  exists df. split; [reflexivity|].
  exact (processed_frame_is_loaded_unchanged (H := TestDoubles.libraries)
           TestDoubles.raw_crashes df E).
Defined.

Lemma missing_essential_column_raises_KeyError_witness :
  BikeCrashDataset.__init__ (H := TestDoubles.libraries)
    MoreTables.crashes_without_longitude = Py.Raises Py.KeyError.
Proof.
  apply (missing_essential_column_raises_KeyError
           (H := TestDoubles.libraries)
           MoreTables.crashes_without_longitude "LONGITUDE"%string).
  - simpl. tauto.
  - reflexivity.
  - reflexivity.
  - reflexivity.
Defined.

Lemma kept_rows_are_all_the_located_bike_crashes_witness :
  exists df,
    BikeCrashDataset.__init__ (H := TestDoubles.libraries)
      TestDoubles.raw_crashes = Py.Returns df /\
    Pandas.index df = [1; 2] /\
    Pandas.index df
    = map fst (filter (fun ir => kept (H := TestDoubles.libraries)
                                      TestDoubles.raw_crashes (snd ir))
                      (Pandas.rows TestDoubles.raw_crashes)).
Proof.
  destruct (BikeCrashDataset.__init__ (H := TestDoubles.libraries)
              TestDoubles.raw_crashes) as [df|e] eqn:E; [|discriminate E].
  exists df. split; [reflexivity|]. split.
  - vm_compute in E. injection E as <-. reflexivity.
  - apply (kept_rows_are_all_the_located_bike_crashes
             (H := TestDoubles.libraries) TestDoubles.raw_crashes df).
    + reflexivity.
    + exact E.
Defined.

Lemma processed_rows_hold_timestamp_and_projection_witness :
  exists df,
    BikeCrashDataset.__init__ (H := TestDoubles.libraries)
      TestDoubles.raw_crashes = Py.Returns df /\
    Forall (fun ir =>
              exists d t lng lat,
                Pandas.get "CRASH DATE" (snd ir) = Pandas.S d /\
                Pandas.get "CRASH TIME" (snd ir) = Pandas.S t /\
                Pandas.as_float (Pandas.get "LONGITUDE" (snd ir))
                = Py.Returns lng /\
                Pandas.as_float (Pandas.get "LATITUDE" (snd ir))
                = Py.Returns lat /\
                Pandas.get "CRASH_DATETIME" (snd ir)
                = Pandas.T (to_datetime (Libraries := TestDoubles.libraries)
                              (Pandas.S (d ++ " " ++ t)%string)) /\
                Pandas.get "x" (snd ir)
                = Pandas.F (fst (transform (Libraries := TestDoubles.libraries)
                                           lng lat)) /\
                Pandas.get "y" (snd ir)
                = Pandas.F (snd (transform (Libraries := TestDoubles.libraries)
                                           lng lat)))
           (Pandas.rows df).
Proof.
  destruct (BikeCrashDataset.__init__ (H := TestDoubles.libraries)
              TestDoubles.raw_crashes) as [df|e] eqn:E; [|discriminate E].
  exists df. split; [reflexivity|].
  apply (processed_rows_hold_timestamp_and_projection
           (H := TestDoubles.libraries) TestDoubles.raw_crashes df).
  - reflexivity.
  - exact E.
Defined.

Section AlignmentRows.
Import Py Pandas BikeCrashDataset.
Open Scope string_scope.
Open Scope list_scope.
Open Scope Z_scope.

Lemma floats_as_map (df : DataFrame) (c : string) (xs : list Float.float) :
  floats df c = Returns xs ->
  has_column df c = true /\
  xs = map (fun ir => float_of (get c (snd ir))) (rows df) /\
  forall ir, In ir (rows df) ->
             as_float (get c (snd ir)) = Returns (float_of (get c (snd ir))).
Proof.
  unfold floats, getitem. intros E.
  destruct (has_column df c); [|discriminate]. cbn [bind] in E.
  rewrite mapM_map in E. split; [reflexivity|]. split.
  - apply (mapM_as_map Float.NaN) in E. exact E.
  - intros ir Hin. destruct (mapM_In_returns _ _ _ E ir Hin) as (x & Hx).
    unfold float_of. rewrite Hx. reflexivity.
Qed.

Lemma alignment_row_by_row
  (df : DataFrame) (ds : CitibikeDataset.t) (aligned : DataFrame) :
  citibike_alignment df ds = Returns aligned ->
  exists sx sy,
    floats (CitibikeDataset.stations ds) "x_centered" = Returns sx /\
    floats (CitibikeDataset.stations ds) "y_centered" = Returns sy /\
    (forall ir, In ir (rows df) ->
       as_float (get "x" (snd ir)) = Returns (float_of (get "x" (snd ir))) /\
       as_float (get "y" (snd ir)) = Returns (float_of (get "y" (snd ir)))) /\
    rows aligned
    = filter (fun ir =>
                within (Float.min sx) (Float.max sx)
                       (float_of (get "x_centered" (snd ir))) &&
                within (Float.min sy) (Float.max sy)
                       (float_of (get "y_centered" (snd ir))))
        (map (fun ir =>
                (fst ir,
                 set "y_centered"
                   (F (Float.sub (float_of (get "y" (snd ir)))
                                 (CitibikeDataset.y_center ds)))
                   (set "x_centered"
                      (F (Float.sub (float_of (get "x" (snd ir)))
                                    (CitibikeDataset.x_center ds)))
                      (snd ir))))
             (rows df)).
Proof.
  unfold citibike_alignment. intros E.
  apply bind_Returns in E as (xs & Exs & E).
  apply floats_as_map in Exs as (_ & -> & Hx).
  rewrite map_map in E.
  apply bind_Returns in E as (ys & Eys & E).
  apply floats_as_map in Eys as (_ & -> & Hy).
  cbn [rows setitem] in Hy. rewrite set_rows_map_id in Hy.
  cbn [rows setitem] in E. rewrite set_rows_map_id, !map_map in E.
  cbn [fst snd] in E.
  apply bind_Returns in E as (sx & Esx & E).
  apply bind_Returns in E as (sy & Esy & E).
  apply bind_Returns in E as (xc & Exc & E).
  apply bind_Returns in E as (yc & Eyc & E).
  apply floats_as_map in Exc as (_ & -> & _).
  apply floats_as_map in Eyc as (_ & -> & _).
  injection E as <-. exists sx, sy.
  split; [exact Esx|]. split; [exact Esy|]. split.
  - intros ir Hin. split; [apply Hx, Hin|].
    specialize (Hy _ (in_map _ _ _ Hin)). cbn [fst snd] in Hy.
    rewrite get_set_other in Hy by discriminate. exact Hy.
  - unfold loc_mask. cbn [rows setitem].
    rewrite !map_map, and_mask_map, select_mask_map.
    rewrite set_rows_map_id, set_rows_map.
    cbn [fst snd].
    match goal with |- filter _ ?l = filter _ ?l' =>
      assert (El : l = l') end.
    { apply map_ext. intros ir.
      rewrite get_set_other by discriminate. reflexivity. }
    rewrite El. reflexivity.
Qed.

(** X5: every row that citibike_alignment keeps is a row of the frame
    under its index label, with x_centered = x - x_center and
    y_centered = y - y_center added and its other cells unchanged, and its
    centered position lies in the bounding box of the stations' centered
    positions. *)
Theorem aligned_rows_are_centered_and_in_the_station_box
  (df : DataFrame) (ds : CitibikeDataset.t) (aligned : DataFrame) :
  citibike_alignment df ds = Returns aligned ->
  exists sx sy,
    floats (CitibikeDataset.stations ds) "x_centered" = Returns sx /\
    floats (CitibikeDataset.stations ds) "y_centered" = Returns sy /\
    Forall (fun ir =>
              exists r0 x y,
                In (fst ir, r0) (rows df) /\
                as_float (get "x" r0) = Returns x /\
                as_float (get "y" r0) = Returns y /\
                (forall c, c <> "x_centered" -> c <> "y_centered" ->
                           get c (snd ir) = get c r0) /\
                get "x_centered" (snd ir)
                = F (Float.sub x (CitibikeDataset.x_center ds)) /\
                get "y_centered" (snd ir)
                = F (Float.sub y (CitibikeDataset.y_center ds)) /\
                within (Float.min sx) (Float.max sx)
                       (Float.sub x (CitibikeDataset.x_center ds)) = true /\
                within (Float.min sy) (Float.max sy)
                       (Float.sub y (CitibikeDataset.y_center ds)) = true)
           (rows aligned).
Proof.
  intros E. apply alignment_row_by_row in E as (sx & sy & Esx & Esy & Hxy & E).
  exists sx, sy. split; [exact Esx|]. split; [exact Esy|].
  rewrite E. apply Forall_forall. intros ir Hin.
  apply filter_In in Hin as [Hin Hbox].
  apply in_map_iff in Hin as ([i r0] & <- & Hin).
  cbn [fst snd] in *. destruct (Hxy _ Hin) as [Hx Hy]. cbn [snd] in Hx, Hy.
  exists r0, (float_of (get "x" r0)), (float_of (get "y" r0)).
  rewrite get_set_same in Hbox.
  rewrite get_set_other, get_set_same in Hbox by discriminate.
  unfold float_of at 1 3 in Hbox. cbn [as_float] in Hbox.
  apply andb_prop in Hbox as [Bx By].
  repeat split; auto.
  - intros c Hc1 Hc2. rewrite !get_set_other by auto. reflexivity.
  - rewrite get_set_other, get_set_same by discriminate. reflexivity.
  - apply get_set_same.
Qed.

(** X6: against a Citibike dataset whose stations table has no row, the
    alignment keeps no crash: the bounds of the box are NaN and every
    comparison with them is false. *)
Theorem alignment_without_stations_keeps_nothing
  (df : DataFrame) (ds : CitibikeDataset.t) (aligned : DataFrame) :
  rows (CitibikeDataset.stations ds) = [] ->
  citibike_alignment df ds = Returns aligned ->
  rows aligned = [].
Proof.
  intros Hst E.
  apply alignment_row_by_row in E as (sx & sy & Esx & _ & _ & E).
  apply floats_as_map in Esx as (_ & -> & _). rewrite Hst in E.
  rewrite E. clear E. cbn [map]. unfold Float.min, Float.max.
  cbn [fold_left].
  match goal with |- filter _ ?l = [] => generalize l end.
  assert (Hf : forall v, Float.geb v Float.NaN = false)
    by (intros []; reflexivity).
  intros l. induction l as [|ir l IH]; [reflexivity|].
  cbn [filter]. unfold within at 1. rewrite Hf. cbn [andb]. exact IH.
Qed.

End AlignmentRows.

Section AlignmentForward.
Import Py Pandas BikeCrashDataset.
Context `{Libraries}.
Open Scope string_scope.
Open Scope list_scope.
Open Scope Z_scope.

Lemma float_of_number (c : cell) :
  Traffic.is_number c = true -> as_float c = Returns (float_of c).
Proof. destruct c; try discriminate; reflexivity. Qed.

Lemma as_float_number (c : cell) (x : Float.float) :
  as_float c = Returns x -> Traffic.is_number c = true.
Proof. destruct c; try discriminate; reflexivity. Qed.

Lemma floats_returns (df : DataFrame) (c : string) :
  has_column df c = true ->
  (forall ir, In ir (rows df) -> Traffic.is_number (get c (snd ir)) = true) ->
  floats df c = Returns (map (fun ir => float_of (get c (snd ir))) (rows df)).
Proof.
  intros Hc Hnum. unfold floats, getitem. rewrite Hc. cbn [bind].
  rewrite mapM_map. apply mapM_pure. intros ir Hin.
  apply float_of_number, Hnum, Hin.
Qed.

(** The frame [citibike_alignment] returns, from a frame with numbers
    for x and y. *)
Lemma alignment_returns
  (df : DataFrame) (ds : CitibikeDataset.t) (sx sy : list Float.float) :
  has_column df "x" = true -> has_column df "y" = true ->
  (forall ir, In ir (rows df) ->
     Traffic.is_number (get "x" (snd ir)) = true /\
     Traffic.is_number (get "y" (snd ir)) = true) ->
  floats (CitibikeDataset.stations ds) "x_centered" = Returns sx ->
  floats (CitibikeDataset.stations ds) "y_centered" = Returns sy ->
  citibike_alignment df ds
  = Returns
      (Frame (columns (setitem (setitem df "x_centered" []) "y_centered" []))
         (filter (fun ir =>
                    within (Float.min sx) (Float.max sx)
                           (float_of (get "x_centered" (snd ir))) &&
                    within (Float.min sy) (Float.max sy)
                           (float_of (get "y_centered" (snd ir))))
            (map (fun ir =>
                    (fst ir,
                     set "y_centered"
                       (F (Float.sub (float_of (get "y" (snd ir)))
                                     (CitibikeDataset.y_center ds)))
                       (set "x_centered"
                          (F (Float.sub (float_of (get "x" (snd ir)))
                                        (CitibikeDataset.x_center ds)))
                          (snd ir))))
                 (rows df)))).
Proof.
  intros Hx Hy Hnum Esx Esy. unfold citibike_alignment.
  rewrite (floats_returns df "x" Hx) by (intros ir Hin; apply Hnum, Hin).
  cbn [bind]. rewrite map_map.
  rewrite floats_returns.
  2:{ apply has_column_setitem, Hy. }
  2:{ intros ir Hin. cbn [rows setitem] in Hin. rewrite set_rows_map_id in Hin.
      apply in_map_iff in Hin as (ir0 & <- & Hin). cbn [snd].
      rewrite get_set_other by discriminate. apply Hnum, Hin. }
  cbn [bind]. rewrite Esx, Esy. cbn [bind].
  rewrite floats_returns.
  2:{ apply has_column_setitem, has_column_setitem_same. }
  2:{ intros ir Hin. cbn [rows setitem] in Hin.
      apply set_rows_In in Hin as (r & Hin & Hget).
      rewrite Hget by discriminate.
      apply set_rows_get_In in Hin. cbn [snd] in Hin.
      apply in_map_iff in Hin as (x & <- & _). reflexivity. }
  cbn [bind].
  rewrite floats_returns.
  2:{ apply has_column_setitem_same. }
  2:{ intros ir Hin. cbn [rows setitem] in Hin.
      apply set_rows_get_In in Hin.
      apply in_map_iff in Hin as (x & <- & _). reflexivity. }
  cbn [bind]. unfold loc_mask. f_equal. f_equal.
  cbn [rows setitem].
  rewrite !map_map, and_mask_map, select_mask_map.
  rewrite !set_rows_map_id, ?map_map. cbn [fst snd].
  match goal with |- filter _ ?l = filter _ ?l' =>
    assert (El : l = l') end.
  { apply map_ext. intros ir.
    rewrite get_set_other by discriminate. reflexivity. }
  rewrite El. reflexivity.
Qed.

Lemma set_same (c : string) (v w : cell) (r : row) :
  set c v (set c w r) = set c v r.
Proof.
  induction r as [|[k u] r IH]; cbn [set].
  - rewrite String.eqb_refl. reflexivity.
  - destruct (String.eqb c k) eqn:E; cbn [set]; rewrite ?String.eqb_refl, ?E;
      [reflexivity|]. rewrite IH. reflexivity.
Qed.

Lemma set_fixed_other (c c' : string) (v w : cell) (r : row) :
  c <> c' -> set c v r = r -> set c v (set c' w r) = set c' w r.
Proof.
  intros Hne. induction r as [|[k u] r IH]; cbn [set]; [discriminate|].
  destruct (String.eqb_spec c k) as [->|Hck].
  - intros E. injection E as ->.
    destruct (String.eqb_spec c' k) as [->|Hc'k]; [congruence|].
    cbn [set]. rewrite String.eqb_refl. reflexivity.
  - intros E. injection E as E.
    destruct (String.eqb_spec c' k) as [->|Hc'k]; cbn [set].
    + destruct (String.eqb_spec c k); [congruence|]. rewrite E. reflexivity.
    + destruct (String.eqb_spec c k); [congruence|]. rewrite (IH E).
      reflexivity.
Qed.

Lemma columns_setitem_present (df : DataFrame) (c : string) vals :
  has_column df c = true -> columns (setitem df c vals) = columns df.
Proof. intros E. unfold setitem. rewrite E. reflexivity. Qed.

Lemma map_fixed {A} (g : A -> A) (l : list A) :
  (forall a, In a l -> g a = a) -> map g l = l.
Proof.
  induction l as [|a l IH]; intros Hfix; [reflexivity|]. cbn [map].
  rewrite (Hfix a) by (left; reflexivity). rewrite IH; [reflexivity|].
  intros b Hb. apply Hfix. right. exact Hb.
Qed.

Lemma filter_idem {A} (p : A -> bool) (l : list A) :
  filter p (filter p l) = filter p l.
Proof.
  rewrite filter_filter. apply filter_ext. intros a. apply andb_diag.
Qed.

(** X7: aligning an aligned frame again, against the same dataset,
    changes nothing. *)
Theorem citibike_alignment_is_idempotent
  (df : DataFrame) (ds : CitibikeDataset.t) (aligned : DataFrame) :
  citibike_alignment df ds = Returns aligned ->
  citibike_alignment aligned ds = Returns aligned.
Proof.
  intros E. pose proof E as E'.
  apply alignment_row_by_row in E' as (sx & sy & Esx & Esy & Hxy & Erows).
  assert (Hcx : has_column df "x" = true /\ has_column df "y" = true).
  { unfold citibike_alignment in E.
    apply bind_Returns in E as (xs & Exs & E).
    apply floats_as_map in Exs as (Hx & _ & _).
    apply bind_Returns in E as (ys & Eys & _).
    apply floats_as_map in Eys as (Hy & _ & _).
    split; [exact Hx|].
    unfold has_column in Hy |- *. unfold setitem in Hy.
    cbn [columns] in Hy.
    destruct (has_column df "x_centered"); [exact Hy|].
    rewrite existsb_app in Hy. apply orb_prop in Hy as [Hy|Hy]; [exact Hy|].
    cbn in Hy. discriminate. }
  destruct Hcx as [Hx Hy].
  assert (Hnum : forall ir, In ir (rows df) ->
            Traffic.is_number (get "x" (snd ir)) = true /\
            Traffic.is_number (get "y" (snd ir)) = true).
  { intros ir Hin. destruct (Hxy ir Hin) as [H1 H2].
    split; eapply as_float_number; eauto. }
  rewrite (alignment_returns df ds sx sy Hx Hy Hnum Esx Esy) in E.
  injection E as <-.
  set (G := fun ir : Z * row =>
              (fst ir,
               set "y_centered"
                 (F (Float.sub (float_of (get "y" (snd ir)))
                               (CitibikeDataset.y_center ds)))
                 (set "x_centered"
                    (F (Float.sub (float_of (get "x" (snd ir)))
                                  (CitibikeDataset.x_center ds)))
                    (snd ir)))) in *.
  set (box := fun ir : Z * row =>
                within (Float.min sx) (Float.max sx)
                       (float_of (get "x_centered" (snd ir))) &&
                within (Float.min sy) (Float.max sy)
                       (float_of (get "y_centered" (snd ir)))) in *.
  assert (HG : forall ir, G (G ir) = G ir).
  { intros [i r]. unfold G. cbn [fst snd]. f_equal.
    rewrite !get_set_other by discriminate.
    rewrite (set_fixed_other "x_centered" "y_centered")
      by (try discriminate; apply set_same).
    apply set_same. }
  set (A := Frame (columns (setitem (setitem df "x_centered" [])
                                    "y_centered" []))
                  (filter box (map G (rows df)))).
  assert (Cx : has_column A "x_centered" = true)
    by (exact (has_column_setitem (setitem df "x_centered" [])
                 "y_centered" "x_centered" []
                 (has_column_setitem_same df "x_centered" []))).
  assert (Cy : has_column A "y_centered" = true)
    by (exact (has_column_setitem_same (setitem df "x_centered" [])
                 "y_centered" [])).
  assert (Ecols : columns (setitem (setitem A "x_centered" [])
                                   "y_centered" []) = columns A).
  { rewrite (columns_setitem_present (setitem A "x_centered" [])
               "y_centered" []
               (has_column_setitem A "x_centered" "y_centered" [] Cy)).
    apply (columns_setitem_present A "x_centered" [] Cx). }
  change (citibike_alignment A ds = Returns A).
  rewrite (alignment_returns A ds sx sy).
  - rewrite Ecols. unfold A at 2 3. cbn [rows columns]. fold G. fold box.
    rewrite (map_fixed G).
    + rewrite filter_idem. reflexivity.
    + intros ir Hin. apply filter_In in Hin as [Hin _].
      apply in_map_iff in Hin as (ir0 & <- & _). apply HG.
  - exact (has_column_setitem (setitem df "x_centered" []) "y_centered" "x"
             [] (has_column_setitem df "x_centered" "x" [] Hx)).
  - exact (has_column_setitem (setitem df "x_centered" []) "y_centered" "y"
             [] (has_column_setitem df "x_centered" "y" [] Hy)).
  - intros ir Hin. unfold A in Hin. cbn [rows] in Hin.
    apply filter_In in Hin as [Hin _].
    apply in_map_iff in Hin as (ir0 & <- & Hin). unfold G. cbn [snd].
    rewrite !get_set_other by discriminate. apply Hnum, Hin.
  - exact Esx.
  - exact Esy.
Qed.
(** X8: a crash frame that the construction has processed can be
    aligned with every constructed Citibike dataset: the alignment
    returns, and the frame it returns has the seven columns and the two
    centered ones. *)
Theorem processed_crashes_can_be_aligned
  (raw df : DataFrame) (path : string) (n : CitibikeDataset.node)
  (ds : CitibikeDataset.t) :
  _has_required_columns raw = false ->
  __init__ raw = Returns df ->
  CitibikeDataset.__init__ path n = Returns ds ->
  exists aligned,
    citibike_alignment df ds = Returns aligned /\
    columns aligned
    = ["CRASH DATE"; "CRASH TIME"; "LATITUDE"; "LONGITUDE"; "CRASH_DATETIME";
       "x"; "y"; "x_centered"; "y_centered"].
Proof.
  intros Hreq E Eds. unfold __init__ in E. rewrite Hreq in E.
  cbn [negb] in E.
  pose proof (process_dataset_rows _ _ E) as [Hcols _].
  apply process_dataset_row_by_row in E as [Erows _].
  apply constructed_dataset_is_well_formed in Eds.
  unfold Traffic.well_formed in Eds.
  apply andb_prop in Eds as [Eds _]. apply andb_prop in Eds as [Eds Hnum].
  apply andb_prop in Eds as [Hst _]. cbn [forallb] in Hst.
  apply andb_prop in Hst as [_ Hst]. apply andb_prop in Hst as [Hsx Hst].
  apply andb_prop in Hst as [Hsy _]. rewrite forallb_forall in Hnum.
  eexists. split.
  - apply (alignment_returns df ds).
    + unfold has_column. rewrite Hcols. reflexivity.
    + unfold has_column. rewrite Hcols. reflexivity.
    + intros ir Hin. rewrite Erows in Hin.
      apply in_map_iff in Hin as (ir0 & <- & _). split; reflexivity.
    + apply floats_returns; [exact Hsx|]. intros ir Hin.
      apply Hnum in Hin. apply andb_prop in Hin. tauto.
    + apply floats_returns; [exact Hsy|]. intros ir Hin.
      apply Hnum in Hin. apply andb_prop in Hin. tauto.
  - cbn [columns]. unfold setitem, has_column. cbn [columns].
    rewrite Hcols. reflexivity.
Qed.

End AlignmentForward.

Lemma aligned_rows_are_centered_and_in_the_station_box_witness :
  exists aligned sx sy,
    BikeCrashDataset.citibike_alignment AlignedData.projected_crashes
      AlignedData.two_stations = Py.Returns aligned /\
    Pandas.index aligned = [0] /\
    Pandas.floats (CitibikeDataset.stations AlignedData.two_stations)
                  "x_centered" = Py.Returns sx /\
    Pandas.floats (CitibikeDataset.stations AlignedData.two_stations)
                  "y_centered" = Py.Returns sy /\
    Forall (fun ir =>
              exists r0 x y,
                In (fst ir, r0) (Pandas.rows AlignedData.projected_crashes) /\
                Pandas.as_float (Pandas.get "x" r0) = Py.Returns x /\
                Pandas.as_float (Pandas.get "y" r0) = Py.Returns y /\
                (forall c, c <> "x_centered"%string ->
                           c <> "y_centered"%string ->
                           Pandas.get c (snd ir) = Pandas.get c r0) /\
                Pandas.get "x_centered" (snd ir)
                = Pandas.F (Float.sub x (Float.Finite 100)) /\
                Pandas.get "y_centered" (snd ir)
                = Pandas.F (Float.sub y (Float.Finite 200)) /\
                BikeCrashDataset.within (Float.min sx) (Float.max sx)
                  (Float.sub x (Float.Finite 100)) = true /\
                BikeCrashDataset.within (Float.min sy) (Float.max sy)
                  (Float.sub y (Float.Finite 200)) = true)
           (Pandas.rows aligned).
Proof.
  destruct (BikeCrashDataset.citibike_alignment AlignedData.projected_crashes
              AlignedData.two_stations) as [aligned|e] eqn:E;
    [|vm_compute in E; discriminate E].
  destruct (aligned_rows_are_centered_and_in_the_station_box
              AlignedData.projected_crashes AlignedData.two_stations
              aligned E) as (sx & sy & Esx & Esy & Hrows).
  exists aligned, sx, sy. split; [reflexivity|].
  split; [|split; [exact Esx|split; [exact Esy|exact Hrows]]].
  clear - E. vm_compute in E. injection E as <-. reflexivity.
Defined.

Lemma alignment_without_stations_keeps_nothing_witness :
  exists aligned,
    BikeCrashDataset.citibike_alignment AlignedData.projected_crashes
      AlignedData.no_station = Py.Returns aligned /\
    Pandas.rows aligned = [].
Proof.
  destruct (BikeCrashDataset.citibike_alignment AlignedData.projected_crashes
              AlignedData.no_station) as [aligned|e] eqn:E;
    [|vm_compute in E; discriminate E].
  exists aligned. split; [reflexivity|].
  apply (alignment_without_stations_keeps_nothing
           AlignedData.projected_crashes AlignedData.no_station aligned).
  - reflexivity.
  - exact E.
Defined.

Lemma citibike_alignment_is_idempotent_witness :
  exists aligned,
    BikeCrashDataset.citibike_alignment AlignedData.projected_crashes
      AlignedData.two_stations = Py.Returns aligned /\
    Pandas.index aligned = [0] /\
    BikeCrashDataset.citibike_alignment aligned AlignedData.two_stations
    = Py.Returns aligned.
Proof.
  destruct (BikeCrashDataset.citibike_alignment AlignedData.projected_crashes
              AlignedData.two_stations) as [aligned|e] eqn:E;
    [|vm_compute in E; discriminate E].
  exists aligned. split; [reflexivity|]. split.
  - clear - E. vm_compute in E. injection E as <-. reflexivity.
  - exact (citibike_alignment_is_idempotent AlignedData.projected_crashes
             AlignedData.two_stations aligned E).
Defined.

Lemma processed_crashes_can_be_aligned_witness :
  exists df ds aligned,
    BikeCrashDataset.__init__ (H := TestDoubles.libraries)
      TestDoubles.raw_crashes = Py.Returns df /\
    CitibikeDataset.__init__ (H := TestDoubles.libraries) "rides.csv"
      (CitibikeDataset.IsFile TestRides.rides_csv) = Py.Returns ds /\
    BikeCrashDataset.citibike_alignment df ds = Py.Returns aligned /\
    Pandas.columns aligned
    = ["CRASH DATE"; "CRASH TIME"; "LATITUDE"; "LONGITUDE"; "CRASH_DATETIME";
       "x"; "y"; "x_centered"; "y_centered"]%string.
Proof.
  destruct (BikeCrashDataset.__init__ (H := TestDoubles.libraries)
              TestDoubles.raw_crashes) as [df|e] eqn:E;
    [|vm_compute in E; discriminate E].
  destruct (CitibikeDataset.__init__ (H := TestDoubles.libraries) "rides.csv"
              (CitibikeDataset.IsFile TestRides.rides_csv))
    as [ds|e] eqn:Eds; [|vm_compute in Eds; discriminate Eds].
  destruct (processed_crashes_can_be_aligned (H := TestDoubles.libraries)
              TestDoubles.raw_crashes df "rides.csv"
              (CitibikeDataset.IsFile TestRides.rides_csv) ds)
    as (aligned & Ha).
  - reflexivity.
  - exact E.
  - exact Eds.
  - exists df, ds, aligned. split; [reflexivity|]. split; [reflexivity|].
    exact Ha.
Defined.

(* ================================================================== *)
(** ** The raster: order, counts and degenerate grids *)

Section GroupOrder.
Import Py Pandas BikeCrashDataset Groups.
Open Scope string_scope.
Open Scope list_scope.
Open Scope Z_scope.

Lemma key_compare_Lt (a b : key) :
  key_compare a b = Lt <->
  fst (fst a) < fst (fst b) \/
  fst (fst a) = fst (fst b) /\
  (snd (fst a) < snd (fst b) \/
   snd (fst a) = snd (fst b) /\ snd a < snd b).
Proof.
  destruct a as [[ax ay] at_], b as [[bx by_] bt]. cbn [fst snd key_compare].
  destruct (Z.compare_spec ax bx), (Z.compare_spec ay by_),
    (Z.compare_spec at_ bt); split; intros E; try discriminate;
    try reflexivity; try lia.
Qed.

Lemma key_compare_Gt (a b : key) :
  key_compare a b = Gt <-> key_compare b a = Lt.
Proof.
  rewrite key_compare_Lt.
  destruct a as [[ax ay] at_], b as [[bx by_] bt]. cbn [fst snd key_compare].
  destruct (Z.compare_spec ax bx), (Z.compare_spec ay by_),
    (Z.compare_spec at_ bt); split; intros E; try discriminate;
    try reflexivity; try lia.
Qed.

Lemma key_compare_Eq (a b : key) : key_compare a b = Eq <-> a = b.
Proof.
  destruct a as [[ax ay] at_], b as [[bx by_] bt]. cbn [key_compare].
  destruct (Z.compare_spec ax bx), (Z.compare_spec ay by_),
    (Z.compare_spec at_ bt); split; intros E; try discriminate;
    try reflexivity; try (injection E; intros; lia); subst; reflexivity.
Qed.

Lemma key_eqb_eq (a b : key) : key_eqb a b = true <-> a = b.
Proof.
  destruct a as [[ax ay] at_], b as [[bx by_] bt]. unfold key_eqb.
  rewrite !andb_true_iff, !Z.eqb_eq. split.
  - intros [[-> ->] ->]. reflexivity.
  - intros E. injection E as -> -> ->. auto.
Qed.

Lemma key_eqb_refl (a : key) : key_eqb a a = true.
Proof. apply key_eqb_eq. reflexivity. Qed.

Lemma key_eqb_Lt (a b : key) : key_compare a b = Lt -> key_eqb b a = false.
Proof.
  intros E. apply not_true_is_false. intros Eb. apply key_eqb_eq in Eb.
  subst b. apply key_compare_Lt in E. lia.
Qed.

Lemma key_compare_trans (a b c : key) :
  key_compare a b = Lt -> key_compare b c = Lt -> key_compare a c = Lt.
Proof. rewrite !key_compare_Lt. lia. Qed.

Lemma total_cons (k : key) (g : key * Z) (groups : list (key * Z)) :
  total k (g :: groups)
  = (if key_eqb k (fst g) then snd g else 0) + total k groups.
Proof.
  unfold total. cbn [filter]. destruct (key_eqb k (fst g)); reflexivity.
Qed.

Lemma total_count_key (k k' : key) (groups : list (key * Z)) :
  total k (count_key k' groups)
  = total k groups + (if key_eqb k k' then 1 else 0).
Proof.
  induction groups as [|[k0 n] groups IH].
  - cbn [count_key]. rewrite total_cons. cbn [fst snd]. unfold total.
    cbn [filter map sum_Z fold_right]. lia.
  - cbn [count_key]. destruct (key_compare k' k0) eqn:C.
    + apply key_compare_Eq in C. subst k0. rewrite !total_cons.
      cbn [fst snd]. destruct (key_eqb k k'); lia.
    + rewrite (total_cons k (k', 1)). cbn [fst snd].
      destruct (key_eqb k k'); lia.
    + rewrite !total_cons, IH. lia.
Qed.

Lemma total_fold (k : key) (keys : list key) (groups : list (key * Z)) :
  total k (fold_left (fun g k' => count_key k' g) keys groups)
  = total k groups + crashes_in_bin k keys.
Proof.
  revert groups. induction keys as [|k' keys IH]; intros groups.
  - unfold crashes_in_bin. cbn [fold_left filter List.length]. lia.
  - cbn [fold_left]. rewrite IH, total_count_key. unfold crashes_in_bin.
    cbn [filter]. destruct (key_eqb k k'); cbn [List.length]; lia.
Qed.

Lemma count_key_keys (k x : key) (groups : list (key * Z)) :
  In x (map fst (count_key k groups)) -> x = k \/ In x (map fst groups).
Proof.
  induction groups as [|[k0 n] groups IH]; cbn [count_key].
  - cbn [map In fst]. intuition.
  - destruct (key_compare k k0); cbn [map In fst]; intuition.
Qed.

Lemma count_key_keeps (k x : key) (groups : list (key * Z)) :
  x = k \/ In x (map fst groups) -> In x (map fst (count_key k groups)).
Proof.
  induction groups as [|[k0 n] groups IH]; cbn [count_key].
  - cbn [map In fst]. intuition.
  - destruct (key_compare k k0) eqn:C; cbn [map In fst]; try solve [intuition].
    apply key_compare_Eq in C. subst k0. intuition.
Qed.

Lemma count_key_ascending (k : key) (groups : list (key * Z)) :
  ascending (map fst groups) -> ascending (map fst (count_key k groups)).
Proof.
  induction groups as [|[k0 n] groups IH]; cbn [count_key].
  - cbn [map ascending]. auto.
  - cbn [map ascending fst]. intros [Hall Hasc].
    destruct (key_compare k k0) eqn:C; cbn [map ascending fst].
    + auto.
    + split; [|auto]. constructor; [exact C|].
      eapply Forall_impl; [|exact Hall]. intros x Hx.
      eapply key_compare_trans; eauto.
    + split; [|auto]. apply Forall_forall. intros x Hx.
      apply count_key_keys in Hx as [->|Hx].
      * apply key_compare_Gt, C.
      * rewrite Forall_forall in Hall. auto.
Qed.

Lemma groupby_size_ascending (keys : list key) :
  ascending (map fst (groupby_size keys)).
Proof.
  unfold groupby_size.
  assert (G : forall groups, ascending (map fst groups) ->
            ascending (map fst (fold_left (fun g k => count_key k g)
                                          keys groups))).
  { induction keys as [|k keys IH]; intros groups Hg; [exact Hg|].
    cbn [fold_left]. apply IH, count_key_ascending, Hg. }
  apply G. exact Logic.I.
Qed.

Lemma groupby_size_keeps (keys : list key) (k : key) :
  In k keys -> In k (map fst (groupby_size keys)).
Proof.
  unfold groupby_size.
  assert (G : forall groups,
            In k keys \/ In k (map fst groups) ->
            In k (map fst (fold_left (fun g k' => count_key k' g)
                                     keys groups))).
  { induction keys as [|k' keys IH]; intros groups Hk.
    - destruct Hk as [[]|Hk]. exact Hk.
    - cbn [fold_left]. apply IH.
      destruct Hk as [[->|Hk]|Hk]; auto;
        right; apply count_key_keeps; auto. }
  intros Hk. apply G. auto.
Qed.

Lemma ascending_total (groups : list (key * Z)) (g : key * Z) :
  ascending (map fst groups) -> In g groups -> total (fst g) groups = snd g.
Proof.
  induction groups as [|g0 groups IH]; [contradiction|].
  cbn [map ascending]. intros [Hall Hasc] Hin. rewrite total_cons.
  assert (Hrest : forall x, In x groups -> key_eqb (fst x) (fst g0) = false).
  { intros x Hx. apply key_eqb_Lt. rewrite Forall_forall in Hall.
    apply Hall, in_map, Hx. }
  destruct Hin as [->|Hin].
  - rewrite key_eqb_refl.
    assert (E : total (fst g) groups = 0).
    { unfold total.
      assert (F : filter (fun x => key_eqb (fst g) (fst x)) groups = []).
      { clear IH Hasc Hall. induction groups as [|x groups IH]; [reflexivity|].
        cbn [filter].
        assert (Ex : key_eqb (fst g) (fst x) = false).
        { apply not_true_is_false. intros E. apply key_eqb_eq in E.
          specialize (Hrest x (or_introl eq_refl)). rewrite <- E in Hrest.
          rewrite key_eqb_refl in Hrest. discriminate. }
        rewrite Ex. apply IH. intros y Hy. apply Hrest. right. exact Hy. }
      rewrite F. reflexivity. }
    lia.
  - rewrite (Hrest g Hin). rewrite (IH Hasc Hin). lia.
Qed.

(** X9: the rows of a raster come from the groups of the bin triples in
    ascending order of (x_bin, y_bin, time_bin); every bin triple of a
    crash has exactly one group, and the crash_count of a group is the
    number of crashes with its bin triple. *)
Theorem raster_lists_each_occupied_bin_once_in_order
  (df : DataFrame) (bins time_bin_size : Z) (raster : DataFrame) :
  spatio_temporal_rasterization df bins time_bin_size = Returns raster ->
  exists b groups,
    binning df bins time_bin_size = Returns b /\
    map snd (rows raster) = map (raster_row b time_bin_size) groups /\
    crash_counts raster = map snd groups /\
    ascending (map fst groups) /\
    (forall k, In k (bin_keys b) ->
               In (k, crashes_in_bin k (bin_keys b)) groups) /\
    (forall g, In g groups ->
               In (fst g) (bin_keys b) /\
               snd g = crashes_in_bin (fst g) (bin_keys b)).
Proof.
  intros E. apply rasterization_unfold in E as (b & Eb & Erows).
  exists b, (groupby_size (bin_keys b)).
  pose proof (groupby_size_ascending (bin_keys b)) as Hasc.
  assert (Hcount : forall g, In g (groupby_size (bin_keys b)) ->
                             snd g = crashes_in_bin (fst g) (bin_keys b)).
  { intros g Hg. rewrite <- (ascending_total _ g Hasc Hg).
    unfold groupby_size. rewrite total_fold. unfold total. simpl. lia. }
  split; [exact Eb|]. split; [exact Erows|].
  split; [eapply crash_counts_of_groups, Erows|].
  split; [exact Hasc|]. split.
  - intros k Hk. apply groupby_size_keeps in Hk.
    apply in_map_iff in Hk as ([k' n] & Ek & Hin). cbn [fst] in Ek. subst k'.
    pose proof (Hcount _ Hin) as Hn. cbn [fst snd] in Hn.
    rewrite <- Hn. exact Hin.
  - intros g Hg. split; [|apply Hcount, Hg].
    pose proof (groupby_size_occupied (bin_keys b)) as Hocc.
    rewrite Forall_forall in Hocc. apply (Hocc g Hg).
Qed.

End GroupOrder.

Lemma raster_lists_each_occupied_bin_once_in_order_witness :
  exists raster,
    BikeCrashDataset.spatio_temporal_rasterization CrashData.three_crashes
      8 15 = Py.Returns raster /\
    BikeCrashDataset.crash_counts raster = [1; 2] /\
    exists b groups,
      BikeCrashDataset.binning CrashData.three_crashes 8 15 = Py.Returns b /\
      map snd (Pandas.rows raster)
      = map (BikeCrashDataset.raster_row b 15) groups /\
      BikeCrashDataset.crash_counts raster = map snd groups /\
      Groups.ascending (map fst groups) /\
      (forall k, In k (BikeCrashDataset.bin_keys b) ->
                 In (k, Groups.crashes_in_bin k (BikeCrashDataset.bin_keys b))
                    groups) /\
      (forall g, In g groups ->
                 In (fst g) (BikeCrashDataset.bin_keys b) /\
                 snd g = Groups.crashes_in_bin (fst g)
                           (BikeCrashDataset.bin_keys b)).
Proof.
  destruct (BikeCrashDataset.spatio_temporal_rasterization
              CrashData.three_crashes 8 15) as [raster|e] eqn:E;
    [|discriminate E].
  exists raster. split; [reflexivity|]. split.
  - vm_compute in E. injection E as <-. reflexivity.
  - exact (raster_lists_each_occupied_bin_once_in_order
             CrashData.three_crashes 8 15 raster E).
Defined.

Section DegenerateGrid.
Import Py Pandas BikeCrashDataset CrashData.
Open Scope string_scope.
Open Scope list_scope.
Open Scope Z_scope.

Lemma Qsgn_zero (d : Q) : (d == 0)%Q -> Float.Qsgn d = 0.
Proof.
  unfold Qeq, Float.Qsgn. cbn [Qnum Qden]. intros E.
  assert (Qnum d = 0) by lia. rewrite H. reflexivity.
Qed.

(** A column of equal values has bin size 0 (or NaN, for no bins), and
    no value has a bin. *)
Lemma bin_of_degenerate (lo hi x : Q) (bins : Z) :
  (hi == lo)%Q -> (x == lo)%Q ->
  bin_of (Float.Finite lo) (bin_size lo hi bins) (Float.Finite x)
  = Raises ValueError.
Proof.
  intros Hhi Hx. unfold bin_of, bin_size, Float.sub, Float.neg, Float.add,
    Float.div, Float.of_Z.
  assert (Hd : (hi + - lo == 0)%Q) by (rewrite Hhi; ring).
  assert (Hxd : (x + - lo == 0)%Q) by (rewrite Hx; ring).
  destruct (Qeq_bool (inject_Z bins) 0) eqn:Eb.
  - rewrite (Qsgn_zero _ Hd). reflexivity.
  - unfold Float.floordiv.
    assert (Es : Qeq_bool ((hi + - lo) / inject_Z bins) 0 = true).
    { apply Qeq_bool_iff. rewrite Hd. unfold Qdiv. ring. }
    rewrite Es, (Qsgn_zero _ Hxd). reflexivity.
Qed.

Lemma mapM_raises_at_head {A B} (f : A -> outcome B) (a : A) (l : list A)
  (e : exn) :
  f a = Raises e -> mapM f (a :: l) = Raises e.
Proof. intros E. cbn [mapM]. rewrite E. reflexivity. Qed.

Lemma constant_column (df : DataFrame) (c : string) :
  (forall ir, In ir (rows df) -> finite_value (get c (snd ir)) <> None) ->
  not_all_equal c df = false ->
  forall ir1 ir2, In ir1 (rows df) -> In ir2 (rows df) ->
                  (coord c ir1 == coord c ir2)%Q.
Proof.
  intros Hf Hc ir1 ir2 H1 H2. unfold not_all_equal in Hc.
  destruct (Qeq_bool (coord c ir1) (coord c ir2)) eqn:E;
    [apply Qeq_bool_iff, E|exfalso].
  assert (Hex : existsb (fun ir1 => existsb (fun ir2 =>
                  differ c (snd ir1) (snd ir2)) (rows df)) (rows df) = true).
  { apply existsb_exists. exists ir1. split; [exact H1|].
    apply existsb_exists. exists ir2. split; [exact H2|].
    unfold differ. unfold coord in E.
    pose proof (Hf _ H1) as F1. pose proof (Hf _ H2) as F2.
    destruct (finite_value (get c (snd ir1))); [|contradiction].
    destruct (finite_value (get c (snd ir2))); [|contradiction].
    rewrite E. reflexivity. }
  congruence.
Qed.

Lemma constant_column_range (df : DataFrame) (c : string) :
  rows df <> [] ->
  (forall ir, In ir (rows df) -> finite_value (get c (snd ir)) <> None) ->
  not_all_equal c df = false ->
  exists lo hi,
    Float.min (map (fun ir => Float.Finite (coord c ir)) (rows df))
      = Float.Finite lo /\
    Float.max (map (fun ir => Float.Finite (coord c ir)) (rows df))
      = Float.Finite hi /\
    (hi == lo)%Q /\
    forall ir, In ir (rows df) -> (coord c ir == lo)%Q.
Proof.
  intros Hne Hf Hc.
  assert (Hne' : map (fun ir => Float.Finite (coord c ir)) (rows df) <> []).
  { destruct (rows df); [contradiction | discriminate]. }
  destruct (min_finite _ (all_finite_coords c (rows df)) Hne')
    as (lo & Elo & Hlo_in & _).
  destruct (max_finite _ (all_finite_coords c (rows df)) Hne')
    as (hi & Ehi & Hhi_in & _).
  apply In_Finite_coord in Hlo_in as (irl & Hl & <-).
  apply In_Finite_coord in Hhi_in as (irh & Hh & <-).
  exists (coord c irl), (coord c irh).
  split; [exact Elo|]. split; [exact Ehi|]. split.
  - apply (constant_column df c Hf Hc); assumption.
  - intros ir Hin. apply (constant_column df c Hf Hc); assumption.
Qed.

(** X10: a frame with at least one crash whose x_centered values are all
    equal, or whose y_centered values are all equal (a single crash, for
    one), cannot be rasterized: the bin size is 0, the bin index is NaN
    and the conversion to int raises ValueError, for every number of bins
    and every time bin size. *)
Theorem rasterization_of_a_constant_coordinate_raises
  (df : DataFrame) (bins time_bin_size : Z) :
  rows df <> [] ->
  carries_bin_columns df = true ->
  not_all_equal "x_centered" df = false \/
  not_all_equal "y_centered" df = false ->
  spatio_temporal_rasterization df bins time_bin_size = Raises ValueError.
Proof.
  intros Hne Hc Hconst. unfold carries_bin_columns in Hc.
  apply andb_prop in Hc as [Hc Hrows]. apply andb_prop in Hc as [Hc Hct].
  apply andb_prop in Hc as [Hcx Hcy].
  rewrite forallb_forall in Hrows.
  assert (Hfx : forall ir, In ir (rows df) ->
                           finite_value (get "x_centered" (snd ir)) <> None).
  { intros ir Hin E. specialize (Hrows ir Hin). rewrite E in Hrows.
    discriminate. }
  assert (Hfy : forall ir, In ir (rows df) ->
                           finite_value (get "y_centered" (snd ir)) <> None).
  { intros ir Hin E. specialize (Hrows ir Hin). rewrite E in Hrows.
    destruct (finite_value (get "x_centered" (snd ir))); discriminate. }
  assert (Hck : forall ir, In ir (rows df) ->
                           clock_text (get "CRASH TIME" (snd ir)) = true).
  { intros ir Hin. specialize (Hrows ir Hin).
    destruct (finite_value (get "x_centered" (snd ir))); [|discriminate].
    destruct (finite_value (get "y_centered" (snd ir))); [|discriminate].
    exact Hrows. }
  destruct (mapM_total (fun ir => apply_time_to_minutes
                                    (get "CRASH TIME" (snd ir))) (rows df))
    as (tn & Etn).
  { intros ir Hin. apply clock_text_parses, Hck, Hin. }
  unfold spatio_temporal_rasterization, binning, getitem. rewrite Hct.
  cbn [bind]. rewrite mapM_map, Etn. cbn [bind].
  rewrite (floats_carried df "x_centered" Hcx Hfx). cbn [bind].
  rewrite (floats_carried df "y_centered" Hcy Hfy). cbn [bind].
  rewrite !mapM_map.
  destruct (not_all_equal "x_centered" df) eqn:Vx.
  - (* x varies, so y is constant *)
    destruct Hconst as [Hx|Hy]; [discriminate|].
    destruct (range_of_varying_column df _ Vx)
      as (lox & hix & Eminx & Emaxx & Hltx & _ & _).
    destruct (constant_column_range df _ Hne Hfy Hy)
      as (lo & hi & Emin & Emax & Hhi & Hall).
    rewrite Eminx, Emaxx, Emin, Emax.
    fold (bin_size lox hix bins). fold (bin_size lo hi bins).
    destruct (mapM_total (fun ir => bin_of (Float.Finite lox)
                                      (bin_size lox hix bins)
                                      (Float.Finite (coord "x_centered" ir)))
                         (rows df)) as (xb & Exb).
    { intros ir _. apply bin_of_returns, bin_size_usable, Hltx. }
    rewrite Exb. cbn [bind].
    destruct (rows df) as [|ir0 l] eqn:El; [contradiction|].
    rewrite (mapM_raises_at_head _ ir0 l ValueError); [reflexivity|].
    apply bin_of_degenerate; [exact Hhi|]. apply Hall. left. reflexivity.
  - destruct (constant_column_range df _ Hne Hfx Vx)
      as (lo & hi & Emin & Emax & Hhi & Hall).
    rewrite Emin, Emax. fold (bin_size lo hi bins).
    destruct (rows df) as [|ir0 l] eqn:El; [contradiction|].
    rewrite (mapM_raises_at_head _ ir0 l ValueError); [reflexivity|].
    apply bin_of_degenerate; [exact Hhi|]. apply Hall. left. reflexivity.
Qed.

(** X11: a frame without rows that has the three columns is rasterized,
    for every number of bins other than 0 and every time bin size, to the
    raster without rows.  (Without bins the bin size is NaN / 0 on the
    bounds of an empty column, which is left aside here.) *)
Theorem rasterization_of_no_crash_is_empty
  (df : DataFrame) (bins time_bin_size : Z) :
  rows df = [] ->
  forallb (has_column df) ["CRASH TIME"; "x_centered"; "y_centered"] = true ->
  bins <> 0 ->
  spatio_temporal_rasterization df bins time_bin_size
  = Returns (Frame ["x_center"; "y_center"; "time_center"; "crash_count"]
                   []).
Proof.
  intros Hrows Hcols _. cbn [forallb] in Hcols.
  apply andb_prop in Hcols as [Ht Hcols].
  apply andb_prop in Hcols as [Hx Hcols]. apply andb_prop in Hcols as [Hy _].
  unfold spatio_temporal_rasterization, binning, floats, getitem.
  rewrite Ht, Hx, Hy, Hrows. reflexivity.
Qed.

End DegenerateGrid.

Lemma rasterization_of_a_constant_coordinate_raises_witness :
  BikeCrashDataset.spatio_temporal_rasterization Groups.one_crash 100 15
  = Py.Raises Py.ValueError.
Proof.
  apply (rasterization_of_a_constant_coordinate_raises Groups.one_crash
           100 15).
  - discriminate.
  - reflexivity.
  - left. reflexivity.
Defined.

Lemma rasterization_of_no_crash_is_empty_witness :
  BikeCrashDataset.spatio_temporal_rasterization
    (Pandas.Frame ["CRASH TIME"; "x_centered"; "y_centered"]%string []) 100 15
  = Py.Returns
      (Pandas.Frame ["x_center"; "y_center"; "time_center";
                     "crash_count"]%string []).
Proof.
  apply (rasterization_of_no_crash_is_empty
           (Pandas.Frame ["CRASH TIME"; "x_centered"; "y_centered"]%string [])
           100 15).
  - reflexivity.
  - reflexivity.
  - discriminate.
Defined.

Section CellsOfTheGrid.
Import Py Pandas BikeCrashDataset CrashData.
Open Scope string_scope.
Open Scope list_scope.
Open Scope Z_scope.




End CellsOfTheGrid.


(* ================================================================== *)
(** ** DensityEstimator: what the histograms count *)

Section HistogramTotals.
Import Py DensityEstimator Histogram.
Open Scope string_scope.
Open Scope list_scope.
Open Scope Z_scope.

Lemma Qmin_list_spec (l : list Q) (a : Q) :
  (Qmin_list a l <= a)%Q /\
  forall x, In x l -> (Qmin_list a l <= x)%Q.
Proof.
  unfold Qmin_list. revert a. induction l as [|y l IH]; intros a.
  - cbn [fold_left]. split; [apply Qle_refl | contradiction].
  - cbn [fold_left]. destruct (Qle_bool y a) eqn:E.
    + apply Qle_bool_iff in E. destruct (IH y) as [H1 H2]. split.
      * eapply Qle_trans; eauto.
      * intros x [<-|Hx]; auto.
    + destruct (IH a) as [H1 H2]. split; [exact H1|].
      intros x [Ex|Hx]; [subst x|auto].
      apply Qle_trans with a; [exact H1|].
      destruct (Qlt_le_dec a y) as [Hlt|Hle]; [apply Qlt_le_weak, Hlt|].
      apply Qle_bool_iff in Hle. congruence.
Qed.

Lemma Qmax_list_spec (l : list Q) (a : Q) :
  (a <= Qmax_list a l)%Q /\
  forall x, In x l -> (x <= Qmax_list a l)%Q.
Proof.
  unfold Qmax_list. revert a. induction l as [|y l IH]; intros a.
  - cbn [fold_left]. split; [apply Qle_refl | contradiction].
  - cbn [fold_left]. destruct (Qle_bool a y) eqn:E.
    + apply Qle_bool_iff in E. destruct (IH y) as [H1 H2]. split.
      * eapply Qle_trans; eauto.
      * intros x [<-|Hx]; auto.
    + destruct (IH a) as [H1 H2]. split; [exact H1|].
      intros x [Ex|Hx]; [subst x|auto].
      apply Qle_trans with a; [|exact H1].
      destruct (Qlt_le_dec y a) as [Hlt|Hle]; [apply Qlt_le_weak, Hlt|].
      apply Qle_bool_iff in Hle. congruence.
Qed.

(** The bounding box of a fitted estimator holds its sample. *)
Lemma init_box (sample : list (Q * Q)) (self : t) :
  __init__ sample = Returns self ->
  data self = sample /\
  forall p, In p sample ->
    (x_min self <= fst p <= x_max self)%Q /\
    (y_min self <= snd p <= y_max self)%Q.
Proof.
  unfold __init__. destruct sample as [|[x y] rest]; [discriminate|].
  intros E. injection E as <-. cbn [data x_min x_max y_min y_max].
  split; [reflexivity|].
  destruct (Qmin_list_spec (map fst rest) x) as [Ax Bx].
  destruct (Qmax_list_spec (map fst rest) x) as [Cx Dx].
  destruct (Qmin_list_spec (map snd rest) y) as [Ay By].
  destruct (Qmax_list_spec (map snd rest) y) as [Cy Dy].
  intros p [<-|Hp]; cbn [fst snd].
  - auto.
  - repeat split; [apply Bx | apply Dx | apply By | apply Dy];
      apply in_map, Hp.
Qed.

Lemma floor_of_share (lo hi x : Q) (bins : Z) :
  (lo <= x)%Q -> (x < hi)%Q -> 1 <= bins ->
  0 <= Qfloor ((x - lo) / ((hi - lo) / inject_Z bins)) < bins.
Proof.
  intros Hlo Hhi Hb.
  assert (Hw : (0 < hi - lo)%Q).
  { apply (Qplus_lt_l _ _ lo). ring_simplify.
    eapply Qle_lt_trans; eauto. }
  assert (HB : (0 < inject_Z bins)%Q).
  { change (inject_Z 0 < inject_Z bins)%Q. rewrite <- Zlt_Qlt. lia. }
  assert (Hs : (0 < (hi - lo) / inject_Z bins)%Q).
  { apply Qlt_shift_div_l; [exact HB|]. ring_simplify. exact Hw. }
  set (q := ((x - lo) / ((hi - lo) / inject_Z bins))%Q).
  assert (H0 : (0 <= q)%Q).
  { unfold q. apply Qle_shift_div_l; [exact Hs|]. ring_simplify.
    apply (Qplus_le_l _ _ lo). ring_simplify. exact Hlo. }
  assert (H1 : (q < inject_Z bins)%Q).
  { unfold q. apply Qlt_shift_div_r; [exact Hs|].
    assert (E : (inject_Z bins * ((hi - lo) / inject_Z bins) == hi - lo)%Q).
    { field. intros E. rewrite E in HB. apply (Qlt_irrefl 0), HB. }
    rewrite E. apply (Qplus_lt_l _ _ lo). ring_simplify. exact Hhi. }
  split.
  - change 0 with (Qfloor 0). apply Qfloor_resp_le, H0.
  - rewrite Zlt_Qlt.
    eapply Qle_lt_trans; [apply Qfloor_le|exact H1].
Qed.

Lemma bin_index_in_range (lo hi x : Q) (bins : Z) :
  (lo <= x <= hi)%Q -> 1 <= bins ->
  exists i, bin_index lo hi bins x = Some i /\ 0 <= i < bins.
Proof.
  intros [Hlo Hhi] Hb. unfold bin_index, outer_edges.
  destruct (Qeq_bool lo hi) eqn:E.
  - apply Qeq_bool_iff in E.
    assert (H1 : (lo - (1 # 2) <= x)%Q).
    { apply Qle_trans with lo; [|exact Hlo].
      apply (Qplus_le_l _ _ (1 # 2)). ring_simplify.
      rewrite <- (Qplus_0_r lo) at 1. apply Qplus_le_r. discriminate. }
    assert (H2 : (x < hi + (1 # 2))%Q).
    { apply Qle_lt_trans with hi; [exact Hhi|].
      rewrite <- (Qplus_0_r hi) at 1. apply Qplus_lt_r. reflexivity. }
    assert (L1 : Qle_bool (lo - (1 # 2)) x = true)
      by (apply Qle_bool_iff, H1).
    assert (L2 : Qle_bool x (hi + (1 # 2)) = true)
      by (apply Qle_bool_iff, Qlt_le_weak, H2).
    rewrite L1, L2. cbn [andb].
    destruct (Qeq_bool x (hi + (1 # 2))) eqn:Ex.
    + apply Qeq_bool_iff in Ex. rewrite Ex in H2.
      exfalso. apply (Qlt_irrefl _ H2).
    + eexists. split; [reflexivity|]. apply floor_of_share; assumption.
  - assert (L1 : Qle_bool lo x = true) by (apply Qle_bool_iff, Hlo).
    assert (L2 : Qle_bool x hi = true) by (apply Qle_bool_iff, Hhi).
    rewrite L1, L2. cbn [andb].
    destruct (Qeq_bool x hi) eqn:Ex.
    + eexists. split; [reflexivity|]. lia.
    + eexists. split; [reflexivity|]. apply floor_of_share; try assumption.
      apply Qle_lteq in Hhi as [Hlt|Heq]; [exact Hlt|].
      apply Qeq_bool_iff in Heq. congruence.
Qed.

Lemma add_of_Z (a b : Z) :
  Float.add (Float.of_Z a) (Float.of_Z b) = Float.of_Z (a + b).
Proof.
  unfold Float.add, Float.of_Z, inject_Z, Qplus. cbn [Qnum Qden].
  f_equal. f_equal. lia.
Qed.

Lemma fold_add_of_Z (zs : list Z) (a : Z) :
  fold_left Float.add (map Float.of_Z zs) (Float.of_Z a)
  = Float.of_Z (a + fold_right Z.add 0 zs).
Proof.
  revert a. induction zs as [|z zs IH]; intros a; cbn [map fold_left
    fold_right].
  - f_equal. lia.
  - rewrite add_of_Z, IH. f_equal. lia.
Qed.

Lemma sum_app (a b : list Z) :
  fold_right Z.add 0 (a ++ b) = fold_right Z.add 0 a + fold_right Z.add 0 b.
Proof.
  induction a as [|x a IH]; cbn [app fold_right]; [reflexivity|].
  rewrite IH. lia.
Qed.

(** The number of indices of [seq s n] equal to [a]. *)
Lemma sum_indicator_seq (a : Z) (n s : nat) :
  fold_right Z.add 0
    (map (fun k => if Z.eqb a (Z.of_nat k) then 1 else 0) (seq s n))
  = if (Z.of_nat s <=? a) && (a <? Z.of_nat (s + n)) then 1 else 0.
Proof.
  revert s. induction n as [|n IH]; intros s; cbn [seq map fold_right].
  - destruct (Z.leb_spec (Z.of_nat s) a), (Z.ltb_spec a (Z.of_nat (s + 0)));
      cbn [andb]; try reflexivity; lia.
  - rewrite IH.
    destruct (Z.eqb_spec a (Z.of_nat s)),
      (Z.leb_spec (Z.of_nat (Datatypes.S s)) a),
      (Z.ltb_spec a (Z.of_nat (Datatypes.S s + n))),
      (Z.leb_spec (Z.of_nat s) a),
      (Z.ltb_spec a (Z.of_nat (s + Datatypes.S n)));
      cbn [andb]; try reflexivity; lia.
Qed.

Lemma sum_indicator_range (a bins : Z) :
  0 <= a < bins ->
  fold_right Z.add 0 (map (fun i => if Z.eqb a i then 1 else 0) (range bins))
  = 1.
Proof.
  intros Ha. unfold range. rewrite map_map, sum_indicator_seq.
  cbn [Nat.add]. rewrite Z2Nat.id by lia.
  destruct (Z.leb_spec (Z.of_nat 0) a), (Z.ltb_spec a bins); cbn [andb];
    try reflexivity; lia.
Qed.

Lemma sum_zero {A} (l : list A) :
  fold_right Z.add 0 (map (fun _ => 0) l) = 0.
Proof. induction l; cbn [map fold_right]; lia. Qed.

Lemma sum_plus {A} (f g : A -> Z) (l : list A) :
  fold_right Z.add 0 (map (fun a => f a + g a) l)
  = fold_right Z.add 0 (map f l) + fold_right Z.add 0 (map g l).
Proof. induction l; cbn [map fold_right]; lia. Qed.

(** Over the grid, exactly one cell is the cell of a point that has a bin
    on each axis. *)
Lemma one_cell_of_the_grid (a b bins : Z) :
  0 <= a < bins -> 0 <= b < bins ->
  fold_right Z.add 0
    (flat_map (fun i =>
       map (fun j => if in_cell (Some a) (Some b) i j then 1 else 0)
           (range bins))
       (range bins))
  = 1.
Proof.
  intros Ha Hb.
  assert (G : forall l,
    fold_right Z.add 0
      (flat_map (fun i =>
         map (fun j => if in_cell (Some a) (Some b) i j then 1 else 0)
             (range bins)) l)
    = fold_right Z.add 0 (map (fun i => if Z.eqb a i then 1 else 0) l)).
  { induction l as [|i l IH]; [reflexivity|].
    cbn [flat_map map fold_right]. rewrite sum_app, IH. f_equal.
    unfold in_cell. destruct (Z.eqb a i); cbn [andb].
    - apply sum_indicator_range, Hb.
    - apply sum_zero. }
  rewrite G. apply sum_indicator_range, Ha.
Qed.

Lemma grid_total (bx by_ : Q * Q -> option Z) (bins : Z)
  (sample : list (Q * Q)) :
  (forall p, In p sample ->
     exists a b, bx p = Some a /\ by_ p = Some b /\
                 0 <= a < bins /\ 0 <= b < bins) ->
  fold_right Z.add 0
    (flat_map (fun i =>
       map (fun j => Z.of_nat (List.length
              (filter (fun p => in_cell (bx p) (by_ p) i j) sample)))
           (range bins))
       (range bins))
  = Z.of_nat (List.length sample).
Proof.
  induction sample as [|p sample IH]; intros Hall.
  - cbn [filter List.length Z.of_nat].
    induction (range bins) as [|i l IHl] at 2; [reflexivity|].
    cbn [flat_map]. rewrite sum_app, IHl, sum_zero. reflexivity.
  - destruct (Hall p (or_introl eq_refl)) as (a & b & Ea & Eb & Ha & Hb).
    assert (IH' := IH (fun q Hq => Hall q (or_intror Hq))). clear IH.
    assert (G : forall l,
      fold_right Z.add 0
        (flat_map (fun i =>
           map (fun j => Z.of_nat (List.length
                  (filter (fun p => in_cell (bx p) (by_ p) i j)
                          (p :: sample))))
               (range bins)) l)
      = fold_right Z.add 0
          (flat_map (fun i =>
             map (fun j => Z.of_nat (List.length
                    (filter (fun p => in_cell (bx p) (by_ p) i j) sample)))
                 (range bins)) l)
        + fold_right Z.add 0
            (flat_map (fun i =>
               map (fun j => if in_cell (Some a) (Some b) i j then 1 else 0)
                   (range bins)) l)).
    { induction l as [|i l IHl]; [reflexivity|].
      cbn [flat_map]. rewrite !sum_app, IHl.
      assert (E : forall l',
        fold_right Z.add 0
          (map (fun j => Z.of_nat (List.length
                  (filter (fun p => in_cell (bx p) (by_ p) i j)
                          (p :: sample)))) l')
        = fold_right Z.add 0
            (map (fun j => Z.of_nat (List.length
                    (filter (fun p => in_cell (bx p) (by_ p) i j) sample)))
                 l')
          + fold_right Z.add 0
              (map (fun j => if in_cell (Some a) (Some b) i j then 1 else 0)
                   l')).
      { induction l' as [|j l' IHl']; [reflexivity|].
        cbn [map fold_right]. rewrite IHl'. cbn [filter].
        rewrite Ea, Eb.
        destruct (in_cell (Some a) (Some b) i j); cbn [List.length]; lia. }
      rewrite E. lia. }
    rewrite G, IH', (one_cell_of_the_grid a b bins Ha Hb).
    cbn [List.length]. rewrite Nat2Z.inj_succ. lia.
Qed.

Lemma concat_of_Z {A B} (f : A -> B -> Z) (l : list A) (l2 : list B) :
  List.concat (map (fun a => map (fun b => Float.of_Z (f a b)) l2) l)
  = map Float.of_Z (flat_map (fun a => map (f a) l2) l).
Proof.
  induction l as [|a l IH]; [reflexivity|].
  cbn [map List.concat flat_map]. rewrite IH, map_app, map_map. reflexivity.
Qed.

Lemma range_length (n : Z) : List.length (range n) = Z.to_nat n.
Proof. unfold range. rewrite length_map, length_seq. reflexivity. Qed.

(** X13: for a fitted estimator and at least one bin per axis,
    histogram2d returns an array of bins rows of bins cells whose cells
    add up to the number of sample points: every point of the sample is
    counted in exactly one cell. *)
Theorem histogram2d_counts_every_sample
  (sample : list (Q * Q)) (self : t) (bins : Z) :
  __init__ sample = Returns self ->
  1 <= bins ->
  exists h,
    histogram2d self bins = Returns h /\
    List.length h = Z.to_nat bins /\
    Forall (fun r => List.length r = Z.to_nat bins) h /\
    np_sum h = Float.of_Z (Z.of_nat (List.length sample)).
Proof.
  intros Einit Hb.
  assert (Hne : sample <> []) by (intros ->; discriminate Einit).
  apply init_box in Einit as [Edata Hbox].
  unfold histogram2d, np_histogram2d. rewrite Edata.
  destruct (bins <? 1) eqn:Eb; [apply Z.ltb_lt in Eb; lia|].
  destruct (Qle_bool (x_min self) (x_max self) &&
            Qle_bool (y_min self) (y_max self)) eqn:Ebox.
  - eexists. split; [reflexivity|]. split; [|split].
    + rewrite length_map. apply range_length.
    + apply Forall_forall. intros r Hr.
      apply in_map_iff in Hr as (i & <- & _).
      rewrite length_map. apply range_length.
    + unfold np_sum.
      rewrite (concat_of_Z
        (fun i j => Z.of_nat (List.length
            (filter (fun p => in_cell (bin_index (x_min self) (x_max self)
                                                 bins (fst p))
                                      (bin_index (y_min self) (y_max self)
                                                 bins (snd p)) i j)
                    sample)))).
      rewrite fold_add_of_Z, grid_total; [reflexivity|].
      intros p Hp. destruct (Hbox p Hp) as [Hx Hy].
      destruct (bin_index_in_range _ _ _ bins Hx Hb) as (a & Ea & Ha).
      destruct (bin_index_in_range _ _ _ bins Hy Hb) as (b & Eb' & Hb').
      exists a, b. auto.
  - exfalso. destruct sample as [|p sample].
    + contradiction.
    + destruct (Hbox p (or_introl eq_refl)) as [[H1 H2] [H3 H4]].
      apply andb_false_iff in Ebox as [E|E];
        apply not_true_iff_false in E; apply E, Qle_bool_iff;
        eapply Qle_trans; eauto.
Qed.

Lemma map2_same {A C} (f : A -> A -> C) (l : list A) :
  map2 f l l = map (fun a => f a a) l.
Proof. induction l as [|a l IH]; cbn [map2 map]; congruence. Qed.

Lemma normalized_by_itself (c : Float.float) :
  is_count c -> zero_or_one (normalized_cell c c).
Proof.
  intros (z & -> & Hz). unfold normalized_cell, zero_or_one.
  destruct (Float.ltb (Float.of_Z z) (Float.of_Z 1)) eqn:E.
  - exists 0%Q. split; [reflexivity|]. left. reflexivity.
  - unfold Float.of_Z in E. apply ltb_Finite_false in E.
    change 1%Q with (inject_Z 1) in E. rewrite <- Zle_Qle in E.
    unfold Float.div, Float.of_Z.
    rewrite inject_Z_nonzero by lia.
    eexists. split; [reflexivity|]. right. field.
    intros E0. unfold Qeq, inject_Z in E0. cbn [Qnum Qden] in E0. lia.
Qed.

(** X14: normalizing the histogram of an estimator by itself draws one
    heat map whose cells are all 0 or 1. *)
Theorem normalizing_a_sample_by_itself_gives_zeros_and_ones
  (self : t) (bins : Z) (title : string)
  (plots : list heatmap) (v : value) :
  normalized_histogram2d self self bins title = Returns (plots, v) ->
  exists plot,
    plots = [plot] /\ Forall (Forall zero_or_one) (H plot).
Proof.
  unfold normalized_histogram2d. intros E.
  apply bind_Returns in E as (h1 & E1 & E).
  apply bind_Returns in E as (h2 & E2 & E).
  assert (h2 = h1) by congruence. subst h2.
  injection E as <- _. eexists. split; [reflexivity|]. cbn [H].
  apply np_histogram2d_counts in E1.
  rewrite map2_same. apply Forall_forall. intros r Hr.
  apply in_map_iff in Hr as (r0 & <- & Hr0).
  rewrite Forall_forall in E1. specialize (E1 r0 Hr0).
  rewrite map2_same. apply Forall_forall. intros c Hc.
  apply in_map_iff in Hc as (c0 & <- & Hc0).
  rewrite Forall_forall in E1. apply normalized_by_itself, E1, Hc0.
Qed.
End HistogramTotals.

Lemma histogram2d_counts_every_sample_witness :
  exists self h,
    DensityEstimator.__init__ TestSamples.station_points = Py.Returns self /\
    DensityEstimator.histogram2d self 2 = Py.Returns h /\
    List.length h = Z.to_nat 2 /\
    Forall (fun r => List.length r = Z.to_nat 2) h /\
    Histogram.np_sum h = Float.of_Z (Z.of_nat 5).
Proof.
  destruct (DensityEstimator.__init__ TestSamples.station_points)
    as [self|e] eqn:E; [|discriminate E].
  destruct (histogram2d_counts_every_sample TestSamples.station_points
              self 2 E) as (h & Hh); [lia|].
  exists self, h. split; [reflexivity|]. exact Hh.
Defined.

Lemma normalizing_a_sample_by_itself_gives_zeros_and_ones_witness :
  exists self plots v plot,
    DensityEstimator.__init__ TestSamples.station_points = Py.Returns self /\
    DensityEstimator.normalized_histogram2d self self 2 "Stations"
    = Py.Returns (plots, v) /\
    plots = [plot] /\
    Forall (Forall Histogram.zero_or_one) (DensityEstimator.H plot).
Proof.
  destruct (DensityEstimator.__init__ TestSamples.station_points)
    as [self|e] eqn:E; [|discriminate E].
  destruct (DensityEstimator.normalized_histogram2d self self 2 "Stations")
    as [[plots v]|e] eqn:En.
  - destruct (normalizing_a_sample_by_itself_gives_zeros_and_ones
                self 2 "Stations" plots v En) as (plot & Hp).
    exists self, plots, v, plot. split; [reflexivity|].
    split; [exact En|]. exact Hp.
  - exfalso. vm_compute in E. injection E as <-. vm_compute in En.
    discriminate En.
Defined.

(* ================================================================== *)
(** ** PriceCalculator: unknown stations and time bins *)

Section PricingEdges.
Import Py Pandas PriceCalculator.
Context `{Libraries}.
Open Scope string_scope.
Open Scope list_scope.
Open Scope Z_scope.

(** X15: for a station id that no row of the stations table carries,
    predict_insurance_price raises IndexError (the [iloc[0]] of an empty
    selection), whatever the start time. *)
Theorem unknown_station_raises_IndexError
  (self : t) (started_at : datetime) (start_station_id : cell) :
  time_bin_size self <> 0 ->
  Traffic.well_formed (citibike_dataset self) = true ->
  Traffic.station_rows (citibike_dataset self) start_station_id = [] ->
  predict_insurance_price self started_at start_station_id
  = Raises IndexError.
Proof.
  intros Ht Hwf Hrows. unfold Traffic.well_formed in Hwf.
  apply andb_prop in Hwf as [Hwf _]. apply andb_prop in Hwf as [Hwf _].
  apply andb_prop in Hwf as [Hst _]. cbn [forallb] in Hst.
  apply andb_prop in Hst as [Hid Hst]. apply andb_prop in Hst as [Hx _].
  unfold predict_insurance_price.
  rewrite (get_time_bin_center_value self _ Ht). cbn [bind].
  rewrite (where_eq_rows _ _ _ Hid). cbn [bind].
  unfold Traffic.station_rows in Hrows. rewrite Hrows.
  unfold iloc0, getitem, has_column. cbn [columns rows].
  unfold has_column in Hx. rewrite Hx. reflexivity.
Qed.

(** X16: two start times whose minutes since midnight fall in the same
    time bin get the same result from predict_insurance_price, for every
    calculator and station id: the same price and risk, or the same
    exception. *)
Theorem rides_in_one_time_bin_are_priced_alike
  (self : t) (t1 t2 : datetime) (start_station_id : cell) :
  convert_time_to_minutes t1 / time_bin_size self
  = convert_time_to_minutes t2 / time_bin_size self ->
  predict_insurance_price self t1 start_station_id
  = predict_insurance_price self t2 start_station_id.
Proof.
  intros E. unfold predict_insurance_price, get_time_bin_center, floordiv.
  rewrite E. reflexivity.
Qed.

End PricingEdges.

Section TimeCenters.
Import Py Pandas.
Open Scope string_scope.
Open Scope list_scope.
Open Scope Z_scope.

(** X17: the time the calculator passes to the model for a ride is the
    time_center that the rasterization, run with the same time bin size,
    gives the raster rows of the ride's time bin. *)
Theorem calculator_time_is_the_raster_time_center
  (self : PriceCalculator.t) (minutes : Z) (center : Float.float)
  (b : BikeCrashDataset.binned) (x_bin y_bin count : Z) :
  PriceCalculator.get_time_bin_center self minutes = Returns center ->
  get "time_center"
      (BikeCrashDataset.raster_row b (PriceCalculator.time_bin_size self)
         ((x_bin, y_bin, minutes / PriceCalculator.time_bin_size self),
          count))
  = F center.
Proof.
  unfold PriceCalculator.get_time_bin_center, floordiv.
  destruct (PriceCalculator.time_bin_size self =? 0); [discriminate|].
  cbn [bind]. intros E. injection E as <-. reflexivity.
Qed.

End TimeCenters.

Lemma unknown_station_raises_IndexError_witness :
  PriceCalculator.predict_insurance_price (H := TestDoubles.libraries)
    TimeData.calculator TimeData.at_8_07 (Pandas.S "Z9")
  = Py.Raises Py.IndexError.
Proof.
  apply (unknown_station_raises_IndexError (H := TestDoubles.libraries)
           TimeData.calculator TimeData.at_8_07 (Pandas.S "Z9")).
  - discriminate.
  - reflexivity.
  - reflexivity.
Defined.

Lemma rides_in_one_time_bin_are_priced_alike_witness :
  PriceCalculator.predict_insurance_price (H := TestDoubles.libraries)
    TimeData.calculator TimeData.at_8_05 (Pandas.S "A1")
  = PriceCalculator.predict_insurance_price (H := TestDoubles.libraries)
      TimeData.calculator TimeData.at_8_07 (Pandas.S "A1").
Proof.
  apply (rides_in_one_time_bin_are_priced_alike (H := TestDoubles.libraries)
           TimeData.calculator TimeData.at_8_05 TimeData.at_8_07
           (Pandas.S "A1")).
  reflexivity.
Defined.

Lemma calculator_time_is_the_raster_time_center_witness :
  PriceCalculator.get_time_bin_center TimeData.calculator 487
  = Py.Returns (Float.Finite (990 # 2)) /\
  Pandas.get "time_center"
    (BikeCrashDataset.raster_row
       (BikeCrashDataset.Binned (Float.Finite 0) (Float.Finite 0)
                                (Float.Finite 1) (Float.Finite 1) [])
       30 ((0, 0, 16), 1))
  = Pandas.F (Float.Finite (990 # 2)).
Proof.
  split; [reflexivity|].
  apply (calculator_time_is_the_raster_time_center TimeData.calculator 487
           (Float.Finite (990 # 2))
           (BikeCrashDataset.Binned (Float.Finite 0) (Float.Finite 0)
                                    (Float.Finite 1) (Float.Finite 1) [])
           0 0 1).
  reflexivity.
Defined.

(* ================================================================== *)
(** ** CitibikeDataset: rides, stations and their counts *)

Section CellEquality.
Import Py Pandas.
Open Scope string_scope.
Open Scope list_scope.
Open Scope Z_scope.

Lemma eq_cell_notna (a b : cell) :
  eq_cell a b = true -> isna a = false /\ isna b = false.
Proof.
  destruct a as [[]| | |[]], b as [[]| | |[]]; cbn; try discriminate; auto.
Qed.

Lemma float_eqb_refl_l (x y : Float.float) :
  Float.eqb x y = true -> Float.eqb y y = true.
Proof.
  destruct x, y; cbn; try discriminate; try reflexivity.
  intros _. unfold Float.eqb, Float.compare.
  rewrite (proj1 (Qeq_alt q0 q0) (Qeq_refl q0)). reflexivity.
Qed.

Lemma eq_cell_refl_r (a b : cell) :
  eq_cell a b = true -> eq_cell b b = true.
Proof.
  unfold eq_cell.
  destruct a as [x|x|s|[t|]], b as [y|y|s'|[t'|]]; cbn [number];
    try discriminate; try apply float_eqb_refl_l.
  - intros _. apply String.eqb_refl.
  - intros _. apply datetime_eqb_refl.
Qed.

Lemma eq_cell_sym (a b : cell) : eq_cell a b = true -> eq_cell b a = true.
Proof.
  intros E. apply (eq_cell_join a b b E). eapply eq_cell_refl_r, E.
Qed.

Lemma eq_cell_trans (a b c : cell) :
  eq_cell a b = true -> eq_cell b c = true -> eq_cell a c = true.
Proof.
  intros E1 E2. apply (eq_cell_join c a b); [apply eq_cell_sym, E2|exact E1].
Qed.

Lemma same_value_notna (a b : cell) :
  isna a = false -> same_value a b = eq_cell a b.
Proof.
  intros E. unfold same_value. rewrite E. cbn [andb]. apply orb_false_r.
Qed.

Lemma same_value_notna_r (a b : cell) :
  isna b = false -> same_value a b = eq_cell a b.
Proof.
  intros E. unfold same_value. rewrite E, andb_false_r. apply orb_false_r.
Qed.

Lemma same_value_refl (a : cell) : same_value a a = true.
Proof.
  unfold same_value, eq_cell.
  destruct a as [[q| | |]|z|s|[t|]]; cbn; try reflexivity.
  - unfold Float.eqb, Float.compare.
    rewrite (proj1 (Qeq_alt q q) (Qeq_refl q)). reflexivity.
  - unfold Float.eqb, Float.compare.
    rewrite (proj1 (Qeq_alt _ _) (Qeq_refl (inject_Z z))). reflexivity.
  - rewrite String.eqb_refl. reflexivity.
  - rewrite datetime_eqb_refl. reflexivity.
Qed.

(** Cells equal to one cell are equal to the same cells. *)
Lemma eq_cell_same (v id x : cell) :
  eq_cell v id = true -> eq_cell v x = eq_cell x id.
Proof.
  intros E. destruct (eq_cell v x) eqn:E1, (eq_cell x id) eqn:E2;
    try reflexivity.
  - rewrite (eq_cell_trans x v id (eq_cell_sym _ _ E1) E) in E2.
    discriminate.
  - rewrite (eq_cell_trans v id x E (eq_cell_sym _ _ E2)) in E1.
    discriminate.
Qed.

Lemma find_over_map {A B} (p : B -> bool) (g : A -> B) (l : list A) :
  find p (map g l) = option_map g (find (fun a => p (g a)) l).
Proof.
  induction l as [|a l IH]; [reflexivity|]. cbn [map find].
  destruct (p (g a)); [reflexivity|exact IH].
Qed.

Lemma distinct_In (v : cell) (col seen : list cell) :
  In v (distinct seen col) -> In v col.
Proof.
  revert seen. induction col as [|x col IH]; intros seen; cbn [distinct].
  - contradiction.
  - destruct (existsb (same_value x) seen).
    + intros Hin. right. eapply IH, Hin.
    + intros [->|Hin]; [left; reflexivity|right; eapply IH, Hin].
Qed.

Lemma distinct_complete (x : cell) (col seen : list cell) :
  In x col ->
  existsb (same_value x) seen = true \/
  exists v, In v (distinct seen col) /\ same_value x v = true.
Proof.
  revert seen. induction col as [|y col IH]; intros seen; [contradiction|].
  cbn [distinct]. intros [->|Hin].
  - destruct (existsb (same_value x) seen) eqn:E; [left; reflexivity|].
    right. exists x. split; [left; reflexivity|apply same_value_refl].
  - destruct (existsb (same_value y) seen) eqn:E.
    + apply IH, Hin.
    + destruct (IH (y :: seen) Hin) as [Hs|(v & Hv & Hxv)].
      * cbn [existsb] in Hs. apply orb_prop in Hs as [Hs|Hs].
        -- right. exists y. split; [left; reflexivity|exact Hs].
        -- left. exact Hs.
      * right. exists v. split; [right; exact Hv|exact Hxv].
Qed.

(** The count that a merge on [id] finds among the value counts of a
    column is the number of cells of the column equal to [id]. *)
Lemma count_of_value_counts (col : list cell) (id : cell) :
  isna id = false ->
  Usage.count_of (value_counts col) id
  = Z.of_nat (List.length (filter (fun x => eq_cell x id) col)).
Proof.
  intros Hid. unfold Usage.count_of, value_counts.
  rewrite find_over_map. cbn [fst].
  destruct (find (fun a => same_value a id)
                 (distinct [] (filter (fun v => negb (isna v)) col)))
    as [v|] eqn:Ef; cbn [option_map].
  - apply find_some in Ef as [_ Ev].
    rewrite same_value_notna_r in Ev by exact Hid.
    unfold occurrences. f_equal. f_equal. apply filter_ext. intros x.
    destruct (eq_cell_notna _ _ Ev) as [Hv _].
    rewrite same_value_notna by exact Hv. apply eq_cell_same, Ev.
  - destruct (filter (fun x => eq_cell x id) col) as [|x rest] eqn:F;
      [reflexivity|exfalso].
    assert (Hx : In x (filter (fun x => eq_cell x id) col))
      by (rewrite F; left; reflexivity).
    apply filter_In in Hx as [Hx Ex].
    destruct (eq_cell_notna _ _ Ex) as [Hnx _].
    assert (Hx' : In x (filter (fun v => negb (isna v)) col))
      by (apply filter_In; rewrite Hnx; auto).
    destruct (distinct_complete x _ [] Hx') as [Hs|(v & Hv & Hxv)];
      [discriminate|].
    rewrite same_value_notna in Hxv by exact Hnx.
    pose proof (find_none _ _ Ef v Hv) as Hnone. cbn beta in Hnone.
    rewrite same_value_notna_r in Hnone by exact Hid.
    rewrite (eq_cell_trans v x id (eq_cell_sym _ _ Hxv) Ex) in Hnone.
    discriminate.
Qed.

End CellEquality.

Section StationRows.
Import Py Pandas CitibikeDataset Usage.
Context `{Libraries}.
Open Scope string_scope.
Open Scope list_scope.
Open Scope Z_scope.

Ltac rows_as_maps E :=
  cbn [rows setitem] in E;
  repeat progress (rewrite ?combine_map_same, ?map_map, ?set_rows_map_id,
                     ?set_rows_map in E).

Lemma Forall2_map_l {A B} (P : B -> A -> Prop) (g : A -> B) (l : list A) :
  (forall a, In a l -> P (g a) a) -> Forall2 P (map g l) l.
Proof.
  induction l as [|a l IH]; intros Hall; cbn [map]; constructor.
  - apply Hall. left. reflexivity.
  - apply IH. intros b Hb. apply Hall. right. exact Hb.
Qed.

Lemma fill_count (counts : list (cell * Z)) (id : cell) :
  match
    fillna0_int match find (fun vn => same_value (fst vn) id) counts with
                | Some (_, n) => F (Float.of_Z n)
                | None => NA
                end
  with
  | Returns c => c
  | Raises _ => I 0
  end = I (count_of counts id).
Proof.
  unfold count_of. destruct (find _ counts) as [[v n]|]; [|reflexivity].
  unfold fillna0_int, Float.of_Z. rewrite astype_int_inject. reflexivity.
Qed.

Lemma process_stations_row_by_row
  (df stations : DataFrame) (xc yc : Float.float) :
  _process_stations df = Returns (stations, xc, yc) ->
  exists s e start_ids end_ids,
    stations_at df "start_station_id" "start_station_name"
                "start_lat" "start_lng" = Returns s /\
    stations_at df "end_station_id" "end_station_name"
                "end_lat" "end_lng" = Returns e /\
    getitem df "start_station_id" = Returns start_ids /\
    getitem df "end_station_id" = Returns end_ids /\
    xc = Float.mean
           (map (fun ir0 =>
                   fst (transform (float_of (get "lng" (snd ir0)))
                                  (float_of (get "lat" (snd ir0)))))
                (rows (drop_duplicates (concat [s; e]) "station_id"))) /\
    yc = Float.mean
           (map (fun ir0 =>
                   snd (transform (float_of (get "lng" (snd ir0)))
                                  (float_of (get "lat" (snd ir0)))))
                (rows (drop_duplicates (concat [s; e]) "station_id"))) /\
    Forall2
      (fun ir ir0 =>
         fst ir = fst ir0 /\
         as_float (get "lng" (snd ir0))
         = Returns (float_of (get "lng" (snd ir0))) /\
         as_float (get "lat" (snd ir0))
         = Returns (float_of (get "lat" (snd ir0))) /\
         (forall c, ~ In c added_columns ->
                    get c (snd ir) = get c (snd ir0)) /\
         get "start_count" (snd ir)
         = I (count_of (value_counts start_ids)
                       (get "station_id" (snd ir0))) /\
         get "end_count" (snd ir)
         = I (count_of (value_counts end_ids)
                       (get "station_id" (snd ir0))) /\
         get "x" (snd ir)
         = F (fst (transform (float_of (get "lng" (snd ir0)))
                             (float_of (get "lat" (snd ir0))))) /\
         get "y" (snd ir)
         = F (snd (transform (float_of (get "lng" (snd ir0)))
                             (float_of (get "lat" (snd ir0))))) /\
         get "x_centered" (snd ir) = sub_center xc (get "x" (snd ir)) /\
         get "y_centered" (snd ir) = sub_center yc (get "y" (snd ir)))
      (rows stations)
      (rows (drop_duplicates (concat [s; e]) "station_id")).
Proof.
  unfold _process_stations. intros E.
  apply bind_Returns in E as (s & Es & E).
  apply bind_Returns in E as (e & Ee & E).
  apply bind_Returns in E as (start_ids & Esi & E).
  apply bind_Returns in E as (end_ids & Eei & E).
  exists s, e, start_ids, end_ids.
  split; [exact Es|]. split; [exact Ee|].
  split; [exact Esi|]. split; [exact Eei|].
  set (st0 := drop_duplicates (concat [s; e]) "station_id") in *.
  unfold merge_left in E. rows_as_maps E.
  apply bind_Returns in E as (sc & Esc & E).
  apply (mapM_as_map (I 0)) in Esc. subst sc. rows_as_maps E.
  apply bind_Returns in E as (ec & Eec & E).
  apply (mapM_as_map (I 0)) in Eec. subst ec. rows_as_maps E.
  apply bind_Returns in E as (lng & Elng & E).
  apply floats_as_map in Elng as (_ & -> & Hlng).
  apply bind_Returns in E as (lat & Elat & E).
  apply floats_as_map in Elat as (_ & -> & Hlat). rows_as_maps E.
  rows_as_maps Hlng. rows_as_maps Hlat.
  cbn [fst snd] in E.
  assert (Hlng0 : forall ir0, In ir0 (rows st0) ->
            as_float (get "lng" (snd ir0))
            = Returns (float_of (get "lng" (snd ir0)))).
  { intros ir0 Hin. specialize (Hlng _ (in_map _ _ _ Hin)).
    cbn [fst snd] in Hlng.
    rewrite !get_set_other in Hlng by discriminate. exact Hlng. }
  assert (Hlat0 : forall ir0, In ir0 (rows st0) ->
            as_float (get "lat" (snd ir0))
            = Returns (float_of (get "lat" (snd ir0)))).
  { intros ir0 Hin. specialize (Hlat _ (in_map _ _ _ Hin)).
    cbn [fst snd] in Hlat.
    rewrite !get_set_other in Hlat by discriminate. exact Hlat. }
  clear Hlng Hlat.
  injection E as <- <- <-.
  split; [|split].
  - f_equal. apply map_ext. intros [i r]. cbn [fst snd].
    rewrite !get_set_other by discriminate. reflexivity.
  - f_equal. apply map_ext. intros [i r]. cbn [fst snd].
    rewrite !get_set_other by discriminate. reflexivity.
  - cbn [rows setitem].
  repeat progress (rewrite ?combine_map_same, ?map_map, ?set_rows_map_id,
                     ?set_rows_map).
  apply Forall2_map_l. intros [i r] Hin. cbn [fst snd].
  split; [reflexivity|].
  split; [apply (Hlng0 _ Hin)|]. split; [apply (Hlat0 _ Hin)|].
  split; [|split; [|split; [|split; [|split;
    [|split]]]]].
    + intros c Hc. unfold added_columns in Hc.
      rewrite !get_set_other; [reflexivity|..];
        intros ->; apply Hc; simpl; tauto.
    + repeat (rewrite ?get_set_same; rewrite ?get_set_other by discriminate).
      apply fill_count.
    + repeat (rewrite ?get_set_same; rewrite ?get_set_other by discriminate).
      apply fill_count.
    + repeat (rewrite ?get_set_same; rewrite ?get_set_other by discriminate).
      reflexivity.
    + repeat (rewrite ?get_set_same; rewrite ?get_set_other by discriminate).
      reflexivity.
    + repeat (rewrite ?get_set_same; rewrite ?get_set_other by discriminate).
      reflexivity.
    + repeat (rewrite ?get_set_same; rewrite ?get_set_other by discriminate).
      reflexivity.
Qed.

End StationRows.

Section RideRows.
Import Py Pandas CitibikeDataset.
Context `{Libraries}.
Open Scope string_scope.
Open Scope list_scope.
Open Scope Z_scope.

Lemma build_row_by_row (df : DataFrame) (ds : CitibikeDataset.t) :
  build df = Returns ds ->
  missing_columns df = [] /\
  _process_stations (df_rides ds)
  = Returns (stations ds, x_center ds, y_center ds) /\
  rows (df_rides ds)
  = map (fun ir => (fst ir,
                    cleaned_ride (duration_mean ds) (duration_std ds)
                                 (snd ir)))
        (relabel 0 (filter (fun ir => negb (has_na df (snd ir))) (rows df))).
Proof.
  unfold build. destruct (missing_columns df) eqn:Em; [|discriminate].
  intros E. apply bind_Returns in E as ([[st xc] yc] & Es & E).
  injection E as <-. cbn [df_rides stations x_center y_center duration_mean
                           duration_std].
  split; [reflexivity|]. split; [exact Es|]. clear Es.
  unfold update, reset_index, dropna. cbn [rows setitem].
  repeat progress (rewrite ?map_map, ?set_rows_map_id, ?set_rows_map).
  apply map_ext. intros [i r]. cbn [fst snd]. reflexivity.
Qed.

End RideRows.

Section RidesTable.
Import Py Pandas CitibikeDataset.
Context `{Libraries}.
Open Scope string_scope.
Open Scope list_scope.
Open Scope Z_scope.

Lemma relabel_index (i : Z) (l : list (Z * row)) :
  map fst (relabel i l)
  = map (fun k => i + Z.of_nat k) (seq 0 (List.length l)).
Proof.
  revert i. induction l as [|[j r] l IH]; intros i; [reflexivity|].
  cbn [relabel map fst List.length seq]. f_equal; [lia|].
  rewrite IH, <- seq_shift, map_map. apply map_ext. intros k. lia.
Qed.

Lemma Forall2_relabel {B} (P : B -> row -> Prop) (G : Z * row -> B)
  (l : list (Z * row)) (i : Z) :
  (forall j r, P (G (j, r)) r) ->
  Forall2 P (map G (relabel i l)) (map snd l).
Proof.
  intros HP. revert i. induction l as [|[j r] l IH]; intros i;
    cbn [relabel map snd]; constructor; auto.
Qed.

Lemma ride_duration_set (c : string) (v : cell) (r : row) :
  c <> "started_at" -> c <> "ended_at" ->
  ride_duration (set c v r) = ride_duration r.
Proof.
  intros H1 H2. unfold ride_duration. rewrite !get_set_other by congruence.
  reflexivity.
Qed.

(** X18: the rides table of a constructed dataset holds, in the order of
    the loaded table and under the labels 0, 1, 2, ..., exactly the loaded
    rows without a missing value; in each of them end_station_id is made
    text, started_at and ended_at are parsed, ride_duration is the number
    of seconds between the two and ride_duration_normalized is
    (ride_duration - duration_mean) / duration_std; every other cell is
    the loaded one. *)
Theorem df_rides_are_the_complete_rows_in_order
  (path : string) (n : node) (ds : CitibikeDataset.t) :
  __init__ path n = Returns ds ->
  exists df,
    load path n = Returns df /\
    index (df_rides ds)
    = map Z.of_nat (seq 0 (List.length (rows (df_rides ds)))) /\
    Forall2
      (fun ir r0 =>
         (forall c, ~ In c assigned_columns ->
                    get c (snd ir) = get c r0) /\
         get "end_station_id" (snd ir)
         = astype_str (get "end_station_id" r0) /\
         get "started_at" (snd ir) = T (to_datetime (get "started_at" r0)) /\
         get "ended_at" (snd ir) = T (to_datetime (get "ended_at" r0)) /\
         get "ride_duration" (snd ir) = F (ride_duration (snd ir)) /\
         get "ride_duration_normalized" (snd ir)
         = F (Float.div (Float.sub (ride_duration (snd ir))
                                   (duration_mean ds))
                        (duration_std ds)))
      (rows (df_rides ds))
      (map snd (filter (fun ir => negb (has_na df (snd ir))) (rows df))).
Proof.
  unfold __init__. intros E. apply bind_Returns in E as (df & El & E).
  exists df. split; [exact El|].
  apply build_row_by_row in E as (_ & _ & E). unfold index. rewrite E.
  split.
  - rewrite map_map. cbn [fst].
    rewrite length_map, relabel_length.
    change (fun x : Z * row => fst x) with (@fst Z row).
    rewrite relabel_index. apply map_ext. intros k. lia.
  - apply Forall2_relabel. intros j r. cbn [fst snd]. unfold cleaned_ride.
    cbv zeta.
    split; [|split; [|split; [|split; [|split]]]].
    + intros c Hc. unfold assigned_columns in Hc.
      rewrite !get_set_other; [reflexivity|..];
        intros ->; apply Hc; simpl; tauto.
    + repeat (rewrite ?get_set_same; rewrite ?get_set_other by discriminate).
      reflexivity.
    + repeat (rewrite ?get_set_same; rewrite ?get_set_other by discriminate).
      reflexivity.
    + repeat (rewrite ?get_set_same; rewrite ?get_set_other by discriminate).
      reflexivity.
    + rewrite get_set_other, get_set_same by discriminate.
      rewrite (ride_duration_set "ride_duration_normalized"),
        (ride_duration_set "ride_duration") by discriminate.
      reflexivity.
    + rewrite get_set_same.
      rewrite (ride_duration_set "ride_duration_normalized"),
        (ride_duration_set "ride_duration") by discriminate.
      reflexivity.
Qed.

End RidesTable.

Lemma df_rides_are_the_complete_rows_in_order_witness :
  exists ds df,
    CitibikeDataset.__init__ (H := TestDoubles.libraries) "rides.csv"
      (CitibikeDataset.IsFile TestRides.rides_csv) = Py.Returns ds /\
    CitibikeDataset.load "rides.csv"
      (CitibikeDataset.IsFile TestRides.rides_csv) = Py.Returns df /\
    Pandas.index (CitibikeDataset.df_rides ds) = [0; 1] /\
    Pandas.index (CitibikeDataset.df_rides ds)
    = map Z.of_nat
          (seq 0 (List.length (Pandas.rows (CitibikeDataset.df_rides ds)))) /\
    Forall2
      (fun ir r0 =>
         (forall c, ~ In c assigned_columns ->
                    Pandas.get c (snd ir) = Pandas.get c r0) /\
         Pandas.get "end_station_id" (snd ir)
         = CitibikeDataset.astype_str (H := TestDoubles.libraries)
             (Pandas.get "end_station_id" r0) /\
         Pandas.get "started_at" (snd ir)
         = Pandas.T (to_datetime (Libraries := TestDoubles.libraries)
                       (Pandas.get "started_at" r0)) /\
         Pandas.get "ended_at" (snd ir)
         = Pandas.T (to_datetime (Libraries := TestDoubles.libraries)
                       (Pandas.get "ended_at" r0)) /\
         Pandas.get "ride_duration" (snd ir)
         = Pandas.F (CitibikeDataset.ride_duration (snd ir)) /\
         Pandas.get "ride_duration_normalized" (snd ir)
         = Pandas.F (Float.div
                       (Float.sub (CitibikeDataset.ride_duration (snd ir))
                                  (CitibikeDataset.duration_mean ds))
                       (CitibikeDataset.duration_std ds)))
      (Pandas.rows (CitibikeDataset.df_rides ds))
      (map snd (filter (fun ir => negb (Pandas.has_na df (snd ir)))
                       (Pandas.rows df))).
Proof.
  destruct (CitibikeDataset.__init__ (H := TestDoubles.libraries) "rides.csv"
              (CitibikeDataset.IsFile TestRides.rides_csv))
    as [ds|e] eqn:E; [|vm_compute in E; discriminate E].
  assert (Hi : Pandas.index (CitibikeDataset.df_rides ds) = [0; 1]).
  { clear - E. vm_compute in E. injection E as <-. vm_compute.
    reflexivity. }
  destruct (df_rides_are_the_complete_rows_in_order
              (H := TestDoubles.libraries) _ _ ds E)
    as (df & El & Hidx & Hrows).
  exists ds, df. split; [reflexivity|]. split; [exact El|].
  split; [exact Hi|]. split; [exact Hidx | exact Hrows].
Defined.

Section StationsOfRides.
Import Py Pandas CitibikeDataset Usage.
Context `{Libraries}.
Open Scope string_scope.
Open Scope list_scope.
Open Scope Z_scope.

Lemma get_select (c : string) (cs : list string) (r : row) :
  In c cs -> get c (map (fun c0 => (c0, get c0 r)) cs) = get c r.
Proof.
  induction cs as [|c0 cs IH]; [contradiction|]. cbn [map get].
  destruct (String.eqb_spec c c0) as [->|Hne]; [reflexivity|].
  intros [E|Hin]; [congruence|]. apply IH, Hin.
Qed.

Lemma drop_dup_rows_complete (c : string) (l : list (Z * row))
  (seen : list cell) (ir : Z * row) :
  In ir l ->
  existsb (same_value (get c (snd ir))) seen = true \/
  exists ir', In ir' (drop_dup_rows c seen l) /\
              same_value (get c (snd ir)) (get c (snd ir')) = true.
Proof.
  revert seen. induction l as [|[i r] l IH]; intros seen; [contradiction|].
  cbn [drop_dup_rows]. intros [<-|Hin]; cbn [snd].
  - destruct (existsb (same_value (get c r)) seen) eqn:E;
      [left; reflexivity|].
    right. exists (i, r). split; [left; reflexivity|apply same_value_refl].
  - destruct (existsb (same_value (get c r)) seen) eqn:E.
    + apply IH, Hin.
    + destruct (IH (get c r :: seen) Hin) as [Hs|(ir' & Hin' & Hs)].
      * cbn [existsb] in Hs. apply orb_prop in Hs as [Hs|Hs].
        -- right. exists (i, r). split; [left; reflexivity|exact Hs].
        -- left. exact Hs.
      * right. exists ir'. split; [right; exact Hin'|exact Hs].
Qed.

Lemma In_relabel (i : Z) (l : list (Z * row)) (r : row) :
  In r (map snd (relabel i l)) <-> In r (map snd l).
Proof. rewrite relabel_rows. reflexivity. Qed.

(** The stations seen at one end of the rides: their ids are present and
    are ids of rides, and every ride with its four cells has its station
    among them. *)
Lemma stations_at_ids (df st : DataFrame) (id name lat lng : string) :
  stations_at df id name lat lng = Returns st ->
  (forall ir, In ir (rows st) ->
     isna (get "station_id" (snd ir)) = false) /\
  (forall ir0, In ir0 (rows df) ->
     (forall c, In c [id; name; lat; lng] ->
                isna (get c (snd ir0)) = false) ->
     exists ir, In ir (rows st) /\
                eq_cell (get id (snd ir0)) (get "station_id" (snd ir))
                = true).
Proof.
  unfold stations_at, select.
  destruct (forallb (has_column df) [id; name; lat; lng]); [|discriminate].
  cbn [bind]. intros E. injection E as <-.
  cbn [rename rows drop_duplicates dropna columns].
  assert (Hid : forall (r : row) (l : row),
            l = [(id, get id r); (name, get name r);
                 (lat, get lat r); (lng, get lng r)] ->
            get "station_id"
                (map (fun cv : string * cell =>
                        (renamed [(id, "station_id"); (name, "station_name");
                                  (lat, "lat"); (lng, "lng")] (fst cv),
                         snd cv)) l)
            = get id r).
  { intros r l ->. cbn [map fst snd renamed]. rewrite String.eqb_refl.
    reflexivity. }
  assert (Hna : forall (ir0 : Z * row),
            negb (has_na (Frame [id; name; lat; lng] [])
                         (map (fun c0 => (c0, get c0 (snd ir0)))
                              [id; name; lat; lng])) = true <->
            forall c, In c [id; name; lat; lng] ->
                      isna (get c (snd ir0)) = false).
  { intros ir0. unfold has_na. cbn [columns].
    rewrite negb_true_iff. split.
    - intros E c Hc. destruct (isna (get c (snd ir0))) eqn:Ec; [|reflexivity].
      assert (Hex : existsb (fun c1 => isna (get c1
                 (map (fun c0 => (c0, get c0 (snd ir0))) [id; name; lat; lng])))
                 [id; name; lat; lng] = true).
      { apply existsb_exists. exists c. split; [exact Hc|].
        rewrite get_select by exact Hc. exact Ec. }
      congruence.
    - intros Hall. apply not_true_is_false. intros E.
      apply existsb_exists in E as (c & Hc & E).
      rewrite get_select in E by exact Hc. rewrite (Hall c Hc) in E.
      discriminate. }
  split.
  - intros ir Hin. apply in_map_iff in Hin as (ir1 & <- & Hin).
    apply drop_dup_rows_In in Hin. apply filter_In in Hin as [Hin Hk].
    apply in_map_iff in Hin as (ir0 & <- & Hin). cbn [fst snd] in *.
    rewrite (Hid (snd ir0)) by reflexivity. unfold has_na in Hk.
    cbn [columns] in Hk.
    apply (proj1 (Hna ir0)); [exact Hk|left; reflexivity].
  - intros ir0 Hin Hall.
    set (sel := fun ir : Z * row =>
                  (fst ir, map (fun c => (c, get c (snd ir)))
                               [id; name; lat; lng])).
    assert (Hsel : In (sel ir0)
              (filter (fun ir => negb (has_na
                         (Frame [id; name; lat; lng] (map sel (rows df)))
                         (snd ir)))
                      (map sel (rows df)))).
    { apply filter_In. split; [apply in_map, Hin|].
      apply (proj2 (Hna ir0)), Hall. }
    destruct (drop_dup_rows_complete id _ [] _ Hsel)
      as [Hs|(ir1 & Hin1 & Hs)]; [discriminate|].
    eexists. split; [apply in_map, Hin1|]. cbn [fst snd].
    pose proof Hin1 as Hin1'.
    apply drop_dup_rows_In in Hin1'. apply filter_In in Hin1' as [Hin1' _].
    apply in_map_iff in Hin1' as (ir2 & <- & _).
    unfold sel in Hs |- *. cbn [fst snd] in Hs |- *.
    rewrite (Hid (snd ir2)) by reflexivity.
    rewrite !get_select in Hs by (left; reflexivity).
    rewrite same_value_notna in Hs; [exact Hs|].
    apply Hall. left. reflexivity.
Qed.

Lemma process_stations_listing
  (df stations : DataFrame) (xc yc : Float.float) :
  _process_stations df = Returns (stations, xc, yc) ->
  (forall st, In st (rows stations) ->
     isna (get "station_id" (snd st)) = false) /\
  (forall ir0, In ir0 (rows df) ->
     (forall c, In c ["start_station_id"; "start_station_name";
                      "start_lat"; "start_lng"] ->
                isna (get c (snd ir0)) = false) ->
     exists st, In st (rows stations) /\
       eq_cell (get "station_id" (snd st))
               (get "start_station_id" (snd ir0)) = true) /\
  (forall ir0, In ir0 (rows df) ->
     (forall c, In c ["end_station_id"; "end_station_name";
                      "end_lat"; "end_lng"] ->
                isna (get c (snd ir0)) = false) ->
     exists st, In st (rows stations) /\
       eq_cell (get "station_id" (snd st))
               (get "end_station_id" (snd ir0)) = true).
Proof.
  intros E.
  apply process_stations_row_by_row in E
    as (s & e & start_ids & end_ids & Es & Ee & _ & _ & _ & _ & Hrows).
  apply stations_at_ids in Es as [Hs_na Hs_all].
  apply stations_at_ids in Ee as [He_na He_all].
  set (st0 := drop_duplicates (concat [s; e]) "station_id") in *.
  assert (Hcat : forall ir, In ir (rows s) \/ In ir (rows e) ->
            In (snd ir) (map snd (rows (concat [s; e])))).
  { intros ir Hin. unfold concat. cbn [rows flat_map].
    apply In_relabel, in_map. rewrite app_nil_r. apply in_or_app, Hin. }
  assert (Hcat_na : forall ir, In ir (rows (concat [s; e])) ->
            isna (get "station_id" (snd ir)) = false).
  { intros ir Hin. apply (in_map snd) in Hin. unfold concat in Hin.
    cbn [rows flat_map] in Hin. apply In_relabel in Hin.
    rewrite app_nil_r in Hin. apply in_map_iff in Hin as (ir' & Eir & Hin).
    rewrite <- Eir. apply in_app_or in Hin as [Hin|Hin]; auto. }
  assert (H0_na : forall ir, In ir (rows st0) ->
            isna (get "station_id" (snd ir)) = false).
  { intros ir Hin. apply Hcat_na. unfold st0, drop_duplicates in Hin.
    cbn [rows] in Hin. eapply drop_dup_rows_In, Hin. }
  assert (Hlisted : forall ir, In ir (rows s) \/ In ir (rows e) ->
            exists st, In st (rows stations) /\
              eq_cell (get "station_id" (snd ir)) (get "station_id" (snd st))
              = true).
  { intros ir Hin. pose proof (Hcat ir Hin) as Hc.
    apply in_map_iff in Hc as (ir1 & E1 & Hin1).
    destruct (drop_dup_rows_complete "station_id" _ [] _ Hin1)
      as [Hx|(ir2 & Hin2 & Hsame)]; [discriminate|].
    change (In ir2 (rows st0)) in Hin2.
    destruct (Forall2_In_r _ _ _ _ Hrows Hin2)
      as (st & Hst & _ & _ & _ & Hget & _).
    exists st. split; [exact Hst|].
    rewrite Hget by (unfold added_columns; simpl; intuition discriminate).
    rewrite E1 in Hsame. rewrite same_value_notna in Hsame; [exact Hsame|].
    destruct Hin as [Hin|Hin]; auto. }
  split; [|split].
  - intros st Hst.
    destruct (Forall2_In_l _ _ _ _ Hrows Hst)
      as (ir0 & Hin0 & _ & _ & _ & Hget & _).
    rewrite Hget by (unfold added_columns; simpl; intuition discriminate).
    apply H0_na, Hin0.
  - intros ir0 Hin Hall. destruct (Hs_all ir0 Hin Hall) as (ir & Hir & E1).
    destruct (Hlisted ir (or_introl Hir)) as (st & Hst & E2).
    exists st. split; [exact Hst|].
    apply eq_cell_sym. eapply eq_cell_trans; eauto.
  - intros ir0 Hin Hall. destruct (He_all ir0 Hin Hall) as (ir & Hir & E1).
    destruct (Hlisted ir (or_intror Hir)) as (st & Hst & E2).
    exists st. split; [exact Hst|].
    apply eq_cell_sym. eapply eq_cell_trans; eauto.
Qed.

Lemma process_stations_counts
  (df stations : DataFrame) (xc yc : Float.float) :
  _process_stations df = Returns (stations, xc, yc) ->
  Forall (fun st =>
            get "start_count" (snd st)
            = I (rides_at df "start_station_id" (get "station_id" (snd st)))
            /\
            get "end_count" (snd st)
            = I (rides_at df "end_station_id" (get "station_id" (snd st))))
         (rows stations).
Proof.
  intros E. pose proof (process_stations_listing _ _ _ _ E) as [Hna _].
  apply process_stations_row_by_row in E
    as (s & e & start_ids & end_ids & _ & _ & Esi & Eei & _ & _ & Hrows).
  apply Forall_forall. intros st Hst.
  destruct (Forall2_In_l _ _ _ _ Hrows Hst)
    as (ir0 & Hin0 & _ & _ & _ & Hget & Hsc & Hec & _).
  pose proof (Hna st Hst) as Hid.
  rewrite (Hget "station_id") in Hid |- *
    by (unfold added_columns; simpl; intuition discriminate).
  rewrite Hsc, Hec, !count_of_value_counts by exact Hid.
  unfold getitem in Esi, Eei.
  destruct (has_column df "start_station_id"); [|discriminate].
  destruct (has_column df "end_station_id"); [|discriminate].
  injection Esi as <-. injection Eei as <-.
  unfold rides_at. rewrite !filter_map_length. split; reflexivity.
Qed.

End StationsOfRides.

Section ConstructedStations.
Import Py Pandas CitibikeDataset Usage.
Context `{Libraries}.
Open Scope string_scope.
Open Scope list_scope.
Open Scope Z_scope.

Lemma has_column_In (df : DataFrame) (c : string) :
  has_column df c = true -> In c (columns df).
Proof.
  unfold has_column. intros E. apply existsb_exists in E as (c' & Hin & E).
  apply String.eqb_eq in E. subst c'. exact Hin.
Qed.

(** The rides of a constructed dataset have all their station cells. *)
Lemma build_rides_have_stations (df : DataFrame) (ds : CitibikeDataset.t) :
  build df = Returns ds ->
  forall ir, In ir (rows (df_rides ds)) -> has_stations (snd ir) = true.
Proof.
  intros E ir Hin. apply build_row_by_row in E as (Em & _ & E).
  rewrite E in Hin. apply in_map_iff in Hin as ([j r] & <- & Hin).
  apply (in_map snd) in Hin. apply In_relabel in Hin.
  apply in_map_iff in Hin as (ir0 & E0 & Hin). cbn [snd] in E0. subst r.
  apply filter_In in Hin as [_ Hna]. apply negb_true_iff in Hna.
  assert (Hcell : forall c, In c required_columns ->
                            isna (get c (snd ir0)) = false).
  { intros c Hc. destruct (isna (get c (snd ir0))) eqn:Ec; [|reflexivity].
    assert (Hex : has_na df (snd ir0) = true).
    { unfold has_na. apply existsb_exists. exists c. split; [|exact Ec].
      apply has_column_In, (missing_columns_none df c Em Hc). }
    congruence. }
  unfold has_stations. apply forallb_forall. intros c Hc.
  apply negb_true_iff. cbn [fst snd]. unfold cleaned_ride. cbv zeta.
  unfold station_columns in Hc. cbn [In] in Hc.
  destruct Hc as [<-|[<-|[<-|[<-|[<-|[<-|[<-|[<-|[]]]]]]]]];
    repeat (rewrite ?get_set_same; rewrite ?get_set_other by discriminate);
    try (apply Hcell; unfold required_columns; simpl; tauto).
  unfold astype_str. destruct (get "end_station_id" (snd ir0)); reflexivity.
Qed.

Lemma stations_listed_once (df : DataFrame) (ds : CitibikeDataset.t) :
  build df = Returns ds ->
  forall ir, In ir (rows (df_rides ds)) ->
    (exists st, Traffic.station_rows ds (get "start_station_id" (snd ir))
                = [st]) /\
    (exists st, Traffic.station_rows ds (get "end_station_id" (snd ir))
                = [st]).
Proof.
  intros E ir Hin.
  pose proof (build_rides_have_stations df ds E ir Hin) as Hst.
  unfold has_stations in Hst. rewrite forallb_forall in Hst.
  assert (Hcell : forall c, In c station_columns ->
                            isna (get c (snd ir)) = false).
  { intros c Hc. apply negb_true_iff, Hst, Hc. }
  apply build_row_by_row in E as (_ & Es & _).
  pose proof (process_stations_listing _ _ _ _ Es) as (_ & Hstart & Hend).
  apply process_stations_ids in Es as (st0 & Eids).
  assert (Hd : pairwise_distinct (ids_of "station_id" (rows (stations ds))))
    by (rewrite Eids; apply drop_duplicates_distinct).
  split.
  - destruct (Hstart ir Hin) as (st & Hin_st & Eq).
    { intros c Hc. apply Hcell. unfold station_columns. simpl in Hc |- *.
      tauto. }
    apply lookup_is_unique; [exact Hd|]. intros Hnil.
    assert (Hf : In st (Traffic.station_rows ds
                          (get "start_station_id" (snd ir))))
      by (apply filter_In; auto).
    unfold Traffic.station_rows in Hf. rewrite Hnil in Hf. contradiction.
  - destruct (Hend ir Hin) as (st & Hin_st & Eq).
    { intros c Hc. apply Hcell. unfold station_columns. simpl in Hc |- *.
      tauto. }
    apply lookup_is_unique; [exact Hd|]. intros Hnil.
    assert (Hf : In st (Traffic.station_rows ds
                          (get "end_station_id" (snd ir))))
      by (apply filter_In; auto).
    unfold Traffic.station_rows in Hf. rewrite Hnil in Hf. contradiction.
Qed.

(** X20: in the stations table of a constructed dataset, start_count is
    the number of rides of df_rides whose start_station_id equals the
    station's id, and end_count the number of rides whose end_station_id
    equals it. *)
Theorem station_counts_are_the_ride_counts
  (path : string) (n : node) (ds : CitibikeDataset.t) :
  __init__ path n = Returns ds ->
  Forall (fun st =>
            get "start_count" (snd st)
            = I (rides_at (df_rides ds) "start_station_id"
                          (get "station_id" (snd st))) /\
            get "end_count" (snd st)
            = I (rides_at (df_rides ds) "end_station_id"
                          (get "station_id" (snd st))))
         (rows (stations ds)).
Proof.
  unfold __init__. intros E. apply bind_Returns in E as (df & _ & E).
  apply build_row_by_row in E as (_ & Es & _).
  apply (process_stations_counts _ _ _ _ Es).
Qed.

(** X21: every ride of a constructed dataset has its start station and
    its end station in the stations table, each in exactly one row: the
    selection [stations[stations.station_id == id]] has one row for the
    start_station_id and for the end_station_id of every ride. *)
Theorem every_ride_has_its_stations_listed_once
  (path : string) (n : node) (ds : CitibikeDataset.t) :
  __init__ path n = Returns ds ->
  forall ir, In ir (rows (df_rides ds)) ->
    (exists st, Traffic.station_rows ds (get "start_station_id" (snd ir))
                = [st]) /\
    (exists st, Traffic.station_rows ds (get "end_station_id" (snd ir))
                = [st]).
Proof.
  unfold __init__. intros E. apply bind_Returns in E as (df & _ & E).
  apply (stations_listed_once df ds E).
Qed.

End ConstructedStations.

Section PricedRides.
Import Py Pandas PriceCalculator.
Context `{Libraries}.
Open Scope string_scope.
Open Scope list_scope.
Open Scope Z_scope.

Lemma predict_returns_for_a_listed_station
  (self : t) (started_at : datetime) (id : cell) (station : Z * row) :
  time_bin_size self <> 0 ->
  Traffic.well_formed (citibike_dataset self) = true ->
  Traffic.station_rows (citibike_dataset self) id = [station] ->
  exists price risk,
    predict_insurance_price self started_at id = Returns (price, risk).
Proof.
  intros Ht Hwf Hst. unfold Traffic.well_formed in Hwf.
  apply andb_prop in Hwf as [Hwf Hrides]. apply andb_prop in Hwf as [Hwf Hnum].
  apply andb_prop in Hwf as [Hsc Hrc].
  cbn [forallb] in Hsc, Hrc.
  repeat (apply andb_prop in Hsc as [? Hsc]).
  repeat (apply andb_prop in Hrc as [? Hrc]).
  rewrite forallb_forall in Hnum, Hrides.
  assert (Hin : In station (rows (CitibikeDataset.stations
                                    (citibike_dataset self)))).
  { assert (Hin : In station [station]) by (simpl; auto).
    rewrite <- Hst in Hin. unfold Traffic.station_rows in Hin.
    apply filter_In in Hin. tauto. }
  destruct (andb_prop _ _ (Hnum station Hin)) as [Hx Hy].
  destruct (is_number_as_float _ Hx) as (x & Ex).
  destruct (is_number_as_float _ Hy) as (y & Ey).
  unfold predict_insurance_price.
  rewrite (get_time_bin_center_value self _ Ht). cbn [bind].
  rewrite where_eq_rows by assumption. cbn [bind].
  fold (Traffic.station_rows (citibike_dataset self) id).
  rewrite Hst.
  unfold iloc0, getitem, has_column in *. cbn [columns rows].
  repeat match goal with
         | E : existsb _ _ = true |- _ => rewrite E
         end.
  cbn [bind map]. rewrite Ex, Ey. cbn [bind].
  unfold floordiv at 1.
  destruct (Z.eqb_spec (time_bin_size self) 0); [contradiction|].
  cbn [bind].
  rewrite !where_eq_rows by assumption. cbn [bind].
  rewrite !count_in_bin_value;
    try assumption;
    try (intros ir Hir; apply Hrides in Hir; apply andb_prop in Hir; tauto).
  cbn [bind]. eauto.
Qed.

(** X22: a calculator over a constructed dataset, with a time bin size
    other than 0, returns a price and a risk for the start station of
    every ride of the dataset (and for its end station), at every start
    time. *)
Theorem every_ride_of_a_constructed_dataset_can_be_priced
  (path : string) (n : CitibikeDataset.node) (self : t)
  (started_at : datetime) (ir : Z * row) :
  CitibikeDataset.__init__ path n = Returns (citibike_dataset self) ->
  time_bin_size self <> 0 ->
  In ir (rows (CitibikeDataset.df_rides (citibike_dataset self))) ->
  (exists price risk,
     predict_insurance_price self started_at
       (get "start_station_id" (snd ir)) = Returns (price, risk)) /\
  (exists price risk,
     predict_insurance_price self started_at
       (get "end_station_id" (snd ir)) = Returns (price, risk)).
Proof.
  intros E Ht Hin.
  pose proof (constructed_dataset_is_well_formed _ _ _ E) as Hwf.
  unfold CitibikeDataset.__init__ in E.
  apply bind_Returns in E as (df & _ & E).
  destruct (stations_listed_once df _ E ir Hin) as [(s & Hs) (e & He)].
  split; eapply predict_returns_for_a_listed_station; eauto.
Qed.

End PricedRides.

Section StationPositions.
Import Py Pandas CitibikeDataset Usage.
Context `{Libraries}.
Open Scope string_scope.
Open Scope list_scope.
Open Scope Z_scope.

Lemma Forall2_map_eq {A B C} (f : A -> C) (g : B -> C) l l' :
  Forall2 (fun a b => f a = g b) l l' -> map f l = map g l'.
Proof. induction 1; cbn [map]; congruence. Qed.

(** X23: in the stations table of a constructed dataset, (x, y) is the
    projection of the station's (lng, lat), x_center and y_center are the
    means of the x and of the y of the stations, and x_centered and
    y_centered are x - x_center and y - y_center. *)
Theorem stations_are_projected_and_centered_on_their_mean
  (path : string) (n : node) (ds : CitibikeDataset.t) :
  __init__ path n = Returns ds ->
  exists xs ys,
    ids_of "x" (rows (stations ds)) = map F xs /\
    ids_of "y" (rows (stations ds)) = map F ys /\
    x_center ds = Float.mean xs /\
    y_center ds = Float.mean ys /\
    Forall (fun st =>
              exists lng lat,
                as_float (get "lng" (snd st)) = Returns lng /\
                as_float (get "lat" (snd st)) = Returns lat /\
                get "x" (snd st) = F (fst (transform lng lat)) /\
                get "y" (snd st) = F (snd (transform lng lat)) /\
                get "x_centered" (snd st)
                = F (Float.sub (fst (transform lng lat)) (x_center ds)) /\
                get "y_centered" (snd st)
                = F (Float.sub (snd (transform lng lat)) (y_center ds)))
           (rows (stations ds)).
Proof.
  unfold __init__. intros E. apply bind_Returns in E as (df & _ & E).
  apply build_row_by_row in E as (_ & Es & _).
  apply process_stations_row_by_row in Es
    as (s & e & start_ids & end_ids & _ & _ & _ & _ & Exc & Eyc & Hrows).
  set (st0 := drop_duplicates (concat [s; e]) "station_id") in *.
  exists (map (fun ir0 => fst (transform (float_of (get "lng" (snd ir0)))
                                         (float_of (get "lat" (snd ir0)))))
              (rows st0)),
         (map (fun ir0 => snd (transform (float_of (get "lng" (snd ir0)))
                                         (float_of (get "lat" (snd ir0)))))
              (rows st0)).
  split; [|split; [|split; [exact Exc|split; [exact Eyc|]]]].
  - rewrite map_map. unfold ids_of. apply Forall2_map_eq.
    eapply Forall2_impl; [|exact Hrows]. cbv beta. intros a b Hab. tauto.
  - rewrite map_map. unfold ids_of. apply Forall2_map_eq.
    eapply Forall2_impl; [|exact Hrows]. cbv beta. intros a b Hab. tauto.
  - apply Forall_forall. intros st Hst.
    destruct (Forall2_In_l _ _ _ _ Hrows Hst)
      as (ir0 & _ & _ & Hlng & Hlat & Hget & _ & _ & Hx & Hy & Hxc & Hyc).
    exists (float_of (get "lng" (snd ir0))), (float_of (get "lat" (snd ir0))).
    rewrite !Hget by (unfold added_columns; simpl; intuition discriminate).
    rewrite Hxc, Hyc, Hx, Hy. cbn [sub_center]. auto 10.
Qed.

End StationPositions.

Lemma stations_are_projected_and_centered_on_their_mean_witness :
  exists ds xs ys,
    CitibikeDataset.__init__ (H := TestDoubles.libraries) "rides.csv"
      (CitibikeDataset.IsFile TestRides.rides_csv) = Py.Returns ds /\
    ids_of "x" (Pandas.rows (CitibikeDataset.stations ds)) = map Pandas.F xs /\
    ids_of "y" (Pandas.rows (CitibikeDataset.stations ds)) = map Pandas.F ys /\
    CitibikeDataset.x_center ds = Float.mean xs /\
    CitibikeDataset.y_center ds = Float.mean ys /\
    Forall (fun st =>
              exists lng lat,
                Pandas.as_float (Pandas.get "lng" (snd st)) = Py.Returns lng /\
                Pandas.as_float (Pandas.get "lat" (snd st)) = Py.Returns lat /\
                Pandas.get "x" (snd st)
                = Pandas.F (fst (transform (Libraries := TestDoubles.libraries)
                                           lng lat)) /\
                Pandas.get "y" (snd st)
                = Pandas.F (snd (transform (Libraries := TestDoubles.libraries)
                                           lng lat)) /\
                Pandas.get "x_centered" (snd st)
                = Pandas.F (Float.sub
                              (fst (transform
                                      (Libraries := TestDoubles.libraries)
                                      lng lat))
                              (CitibikeDataset.x_center ds)) /\
                Pandas.get "y_centered" (snd st)
                = Pandas.F (Float.sub
                              (snd (transform
                                      (Libraries := TestDoubles.libraries)
                                      lng lat))
                              (CitibikeDataset.y_center ds)))
           (Pandas.rows (CitibikeDataset.stations ds)).
Proof.
  destruct (CitibikeDataset.__init__ (H := TestDoubles.libraries) "rides.csv"
              (CitibikeDataset.IsFile TestRides.rides_csv))
    as [ds|e] eqn:E; [|vm_compute in E; discriminate E].
  destruct (stations_are_projected_and_centered_on_their_mean
              (H := TestDoubles.libraries) _ _ ds E) as (xs & ys & Hs).
  exists ds, xs, ys. split; [reflexivity|]. exact Hs.
Defined.

Lemma station_counts_are_the_ride_counts_witness :
  exists ds,
    CitibikeDataset.__init__ (H := TestDoubles.libraries) "rides.csv"
      (CitibikeDataset.IsFile TestRides.rides_csv) = Py.Returns ds /\
    ids_of "station_id" (Pandas.rows (CitibikeDataset.stations ds))
    = [Pandas.S "B1"; Pandas.S "A1"; Pandas.S "C1"] /\
    ids_of "start_count" (Pandas.rows (CitibikeDataset.stations ds))
    = [Pandas.I 2; Pandas.I 0; Pandas.I 0] /\
    ids_of "end_count" (Pandas.rows (CitibikeDataset.stations ds))
    = [Pandas.I 0; Pandas.I 1; Pandas.I 1] /\
    Forall (fun st =>
              Pandas.get "start_count" (snd st)
              = Pandas.I (Usage.rides_at (CitibikeDataset.df_rides ds)
                            "start_station_id"
                            (Pandas.get "station_id" (snd st))) /\
              Pandas.get "end_count" (snd st)
              = Pandas.I (Usage.rides_at (CitibikeDataset.df_rides ds)
                            "end_station_id"
                            (Pandas.get "station_id" (snd st))))
           (Pandas.rows (CitibikeDataset.stations ds)).
Proof.
  destruct (CitibikeDataset.__init__ (H := TestDoubles.libraries) "rides.csv"
              (CitibikeDataset.IsFile TestRides.rides_csv))
    as [ds|e] eqn:E; [|vm_compute in E; discriminate E].
  pose proof (station_counts_are_the_ride_counts
                (H := TestDoubles.libraries) _ _ ds E) as Hcounts.
  exists ds. split; [reflexivity|].
  split; [|split; [|split; [|exact Hcounts]]];
    clear Hcounts; vm_compute in E; injection E as <-; vm_compute;
    reflexivity.
Defined.

Lemma every_ride_has_its_stations_listed_once_witness :
  exists ds,
    CitibikeDataset.__init__ (H := TestDoubles.libraries) "rides.csv"
      (CitibikeDataset.IsFile TestRides.rides_csv) = Py.Returns ds /\
    forall ir, In ir (Pandas.rows (CitibikeDataset.df_rides ds)) ->
      (exists st,
         Traffic.station_rows ds (Pandas.get "start_station_id" (snd ir))
         = [st]) /\
      (exists st,
         Traffic.station_rows ds (Pandas.get "end_station_id" (snd ir))
         = [st]).
Proof.
  destruct (CitibikeDataset.__init__ (H := TestDoubles.libraries) "rides.csv"
              (CitibikeDataset.IsFile TestRides.rides_csv))
    as [ds|e] eqn:E; [|vm_compute in E; discriminate E].
  exists ds. split; [reflexivity|].
  exact (every_ride_has_its_stations_listed_once
           (H := TestDoubles.libraries) _ _ ds E).
Defined.

Lemma every_ride_of_a_constructed_dataset_can_be_priced_witness :
  exists ds,
    CitibikeDataset.__init__ (H := TestDoubles.libraries) "rides.csv"
      (CitibikeDataset.IsFile TestRides.rides_csv) = Py.Returns ds /\
    forall ir, In ir (Pandas.rows (CitibikeDataset.df_rides ds)) ->
      (exists price risk,
         PriceCalculator.predict_insurance_price (H := TestDoubles.libraries)
           (PricedDataset.calculator_over ds) TimeData.at_8_07
           (Pandas.get "start_station_id" (snd ir))
         = Py.Returns (price, risk)) /\
      (exists price risk,
         PriceCalculator.predict_insurance_price (H := TestDoubles.libraries)
           (PricedDataset.calculator_over ds) TimeData.at_8_07
           (Pandas.get "end_station_id" (snd ir))
         = Py.Returns (price, risk)).
Proof.
  destruct (CitibikeDataset.__init__ (H := TestDoubles.libraries) "rides.csv"
              (CitibikeDataset.IsFile TestRides.rides_csv))
    as [ds|e] eqn:E; [|vm_compute in E; discriminate E].
  exists ds. split; [reflexivity|]. intros ir Hin.
  apply (every_ride_of_a_constructed_dataset_can_be_priced
           (H := TestDoubles.libraries) "rides.csv"
           (CitibikeDataset.IsFile TestRides.rides_csv)
           (PricedDataset.calculator_over ds) TimeData.at_8_07 ir).
  - exact E.
  - discriminate.
  - exact Hin.
Defined.

Section DirectoryLoading.
Import Py Pandas CitibikeDataset.
Open Scope string_scope.
Open Scope list_scope.
Open Scope Z_scope.

(** X24: when, after the ZIP files of a directory are extracted, one file
    whose name ends in .csv (in any case) reads as a table, loading the
    directory returns a frame that holds every row of that table; the
    files that do not read are skipped. *)
Theorem directory_with_a_readable_csv_loads
  (path : string) (files : list (string * file))
  (entry : string * file) (tbl : table) :
  In entry (fold_left extract files files) ->
  endswith (lower (fst entry)) ".csv" = true ->
  read_csv_of (snd entry) = Returns tbl ->
  exists df,
    load path (IsDir files) = Returns df /\
    index df = map Z.of_nat (seq 0 (List.length (rows df))) /\
    forall r, In r (snd tbl) -> In r (map snd (rows df)).
Proof.
  intros Hin Hcsv Hread. unfold load.
  set (dir := fold_left extract files files) in *.
  assert (Hdf : In (Frame (fst tbl)
                          (relabel 0 (map (fun r => (0, r)) (snd tbl))))
                   (read_all dir)).
  { unfold read_all. apply in_flat_map. exists entry. split; [exact Hin|].
    rewrite Hcsv, (pd_read_csv_frame _ _ Hread). left. reflexivity. }
  destruct (read_all dir) as [|d ds] eqn:Eall; [contradiction|].
  eexists. split; [reflexivity|]. split.
  - unfold index, concat. cbn [rows]. rewrite relabel_length.
    rewrite relabel_index. apply map_ext. intros k. lia.
  - intros r Hr. unfold concat. cbn [rows]. apply In_relabel.
    apply in_map_iff.
    assert (Hrow : In r (map snd (rows (Frame (fst tbl)
                     (relabel 0 (map (fun r => (0, r)) (snd tbl))))))).
    { cbn [rows]. rewrite relabel_snd. exact Hr. }
    apply in_map_iff in Hrow as (ir & Eir & Hir).
    exists ir. split; [exact Eir|]. apply in_flat_map. eauto.
Qed.

End DirectoryLoading.

Lemma directory_with_a_readable_csv_loads_witness :
  exists df,
    CitibikeDataset.load "data"
      (CitibikeDataset.IsDir PricedDataset.mixed_directory) = Py.Returns df /\
    Pandas.index df
    = map Z.of_nat (seq 0 (List.length (Pandas.rows df))) /\
    forall r, In r (snd TestRides.rides) -> In r (map snd (Pandas.rows df)).
Proof.
  apply (directory_with_a_readable_csv_loads "data"
           PricedDataset.mixed_directory
           ("RIDES.CSV"%string, TestRides.rides_csv) TestRides.rides).
  - right. left. reflexivity.
  - reflexivity.
  - reflexivity.
Defined.

Lemma init_dropped_rows_witness :
  exists ds df,
    CitibikeDataset.__init__ (H := TestDoubles.libraries) "rides.csv"
      (CitibikeDataset.IsFile TestRides.rides_csv) = Py.Returns ds /\
    CitibikeDataset.load "rides.csv"
      (CitibikeDataset.IsFile TestRides.rides_csv) = Py.Returns df /\
    Pandas.rows (CitibikeDataset.dropped_rows ds)
    = skipn (List.length (Pandas.rows (CitibikeDataset.df_rides ds)))
            (Pandas.rows df) /\
    Pandas.len (CitibikeDataset.df_rides ds)
    + Pandas.len (CitibikeDataset.dropped_rows ds) = Pandas.len df.
Proof.
  destruct (CitibikeDataset.__init__ (H := TestDoubles.libraries) "rides.csv"
              (CitibikeDataset.IsFile TestRides.rides_csv))
    as [ds|e] eqn:E; [|vm_compute in E; discriminate E].
  destruct (init_dropped_rows (H := TestDoubles.libraries) _ _ ds E)
    as (df & Hdf).
  exists ds, df. split; [reflexivity|]. exact Hdf.
Defined.

